(** * Shallow embedding of the MATB-II event generator (matbexp)

    Modelled sources:
    - src/src/matbexp/matbii/matbii_helpers.py  (time codec, sliding-window check, sort)
    - src/src/matbexp/matbii/matbii_events.py   (sampler, allocator, checker, scheduler,
                                                 pipeline [matbii_generate_random_xml])
    - src/src/matbexp/matbii/matbii_tasks.py    (task materialisation, session framing)
    - src/src/matbexp/gen_matbii_events.py      (outer retry loop [generate_and_save_xml])

    Strings are ASCII strings; Python integers are [Z]; numpy integer arrays are
    [list Z]; numpy string arrays are [list string]. *)

From Stdlib Require Import ZArith Lia Ascii String List Sorted.
From stdpp Require Import base list gmap strings.
Import ListNotations.

Open Scope Z_scope.

(* ------------------------------------------------------------------ *)
(** ** Python integer formatting and [int()] parsing *)
(* ------------------------------------------------------------------ *)

Module PyStr.

Definition is_digit (c : ascii) : bool :=
  let n := nat_of_ascii c in (48 <=? n)%nat && (n <=? 57)%nat.

Definition digit_val (c : ascii) : N := N.of_nat (nat_of_ascii c - 48).

Definition digit_char (d : N) : ascii := ascii_of_nat (48 + N.to_nat d).

(** Decimal digits of a natural number, most significant first ([str(n)]). *)
Fixpoint digits_fuel (fuel : nat) (n : N) : list ascii :=
  match fuel with
  | O => []
  | S f =>
      if (n <? 10)%N then [digit_char n]
      else digits_fuel f (n / 10)%N ++ [digit_char (n mod 10)%N]
  end.

Definition str_of_N (n : N) : list ascii := digits_fuel (S (N.to_nat n)) n.

(** [f"{z:02d}"]: zero padded to width 2; a negative number is its sign
    followed by its digits (already of width >= 2). *)
Definition format_02d (z : Z) : list ascii :=
  if z <? 0 then "-"%char :: str_of_N (Z.to_N (- z))
  else let s := str_of_N (Z.to_N z) in repeat "0"%char (2 - length s) ++ s.

(** Python's [str.isspace] on ASCII characters: \t \n \v \f \r, \x1c-\x1f, space. *)
Definition is_py_space (c : ascii) : bool :=
  let n := nat_of_ascii c in
  ((9 <=? n)%nat && (n <=? 13)%nat) || ((28 <=? n)%nat && (n <=? 32)%nat).

Fixpoint drop_spaces (l : list ascii) : list ascii :=
  match l with
  | c :: r => if is_py_space c then drop_spaces r else l
  | [] => []
  end.

Definition strip (l : list ascii) : list ascii := rev (drop_spaces (rev (drop_spaces l))).

(** Digits with single underscores between digits, as [int()] accepts them. *)
Fixpoint parse_digits (l : list ascii) (acc : N) (prev_digit : bool) : option N :=
  match l with
  | [] => if prev_digit then Some acc else None
  | c :: r =>
      if is_digit c then parse_digits r (10 * acc + digit_val c)%N true
      else if Ascii.eqb c "_"%char && prev_digit then parse_digits r acc false
      else None
  end.

(** Python's [int(text)] on an ASCII string; [None] is the [ValueError]. *)
Definition py_int (l : list ascii) : option Z :=
  match strip l with
  | c :: r =>
      if Ascii.eqb c "-"%char then option_map (fun n => - Z.of_N n) (parse_digits r 0 false)
      else if Ascii.eqb c "+"%char then option_map Z.of_N (parse_digits r 0 false)
      else option_map Z.of_N (parse_digits (c :: r) 0 false)
  | [] => None
  end.

(** [str.split(sep)] for a one-character separator. *)
Fixpoint split_on (sep : ascii) (l : list ascii) : list (list ascii) :=
  match l with
  | [] => [[]]
  | c :: r =>
      let parts := split_on sep r in
      if Ascii.eqb c sep then [] :: parts
      else match parts with
           | p :: ps => (c :: p) :: ps
           | [] => [[c]]
           end
  end.

End PyStr.

Import PyStr.

(* ------------------------------------------------------------------ *)
(** ** Time codec (matbii_helpers.py) *)
(* ------------------------------------------------------------------ *)

(** [_format_seconds]: [//] and [%] are floor division and modulo, as [Z.div]
    and [Z.modulo]. *)
Definition _format_seconds (seconds : Z) : string :=
  let hours := seconds / 3600 in
  let minutes := (seconds mod 3600) / 60 in
  let secs := seconds mod 60 in
  string_of_list_ascii
    (format_02d hours ++ ":"%char :: format_02d minutes ++ ":"%char :: format_02d secs).

(** [_parse_time_string]: [None] is the re-raised [ValueError]. *)
Definition _parse_time_string (time_string : string) : option Z :=
  match split_on ":"%char (list_ascii_of_string time_string) with
  | [h; m; s] =>
      match py_int h, py_int m, py_int s with
      | Some hours, Some minutes, Some seconds => Some (hours * 3600 + minutes * 60 + seconds)
      | _, _, _ => None
      end
  | _ => None
  end.

(* ------------------------------------------------------------------ *)
(** ** Python exceptions, numpy's global random state, and the monad *)
(* ------------------------------------------------------------------ *)

(** The exceptions the modelled code can raise.  [NonTermination] marks a
    Python [while] loop without an attempt bound that did not stop within the
    fuel given to its model. *)
Inductive exn : Type :=
  | IndexError | ValueError | KeyError | ZeroDivisionError | UnboundLocalError
  | NonTermination.

(** numpy's global [RandomState]: [np_random_seed] is [np.random.seed] and
    [rand_below n] is one draw of [randint(0, n)], the primitive behind
    [np.random.choice], [np.random.randint] and [np.random.shuffle]. *)
Class NumpyRandom (G : Type) := {
  np_random_seed : Z -> G;
  rand_below : Z -> G -> Z * G
}.

(** A computation reads and updates the random state, and may raise. *)
Inductive res (G A : Type) : Type :=
  | Ok (a : A) (g : G)
  | Err (e : exn).
Arguments Ok {G A} a g.
Arguments Err {G A} e.

Definition M (G A : Type) : Type := G -> res G A.

Definition m_ret {G A} (a : A) : M G A := fun g => Ok a g.
Definition m_bind {G A B} (c : M G A) (k : A -> M G B) : M G B :=
  fun g => match c g with Ok a g' => k a g' | Err e => Err e end.
Definition m_raise {G A} (e : exn) : M G A := fun _ => Err e.
Definition m_lift {G A} (r : exn + A) : M G A :=
  match r with inl e => m_raise e | inr a => m_ret a end.

Notation "x <- c1 ;; c2" := (m_bind c1 (fun x => c2))
  (at level 100, c1 at next level, right associativity).

(** [Exc A] is a pure computation that may raise. *)
Definition Exc (A : Type) : Type := (exn + A)%type.

Fixpoint exc_mapM {A B} (f : A -> Exc B) (xs : list A) : Exc (list B) :=
  match xs with
  | [] => inr []
  | x :: r => match f x with
              | inl e => inl e
              | inr y => match exc_mapM f r with inl e => inl e | inr ys => inr (y :: ys) end
              end
  end.

(* ------------------------------------------------------------------ *)
(** ** numpy helpers *)
(* ------------------------------------------------------------------ *)

Section Numpy.
Context {G : Type} `{NumpyRandom G}.

Definition draw_below (n : Z) : M G Z :=
  fun g => let '(x, g') := rand_below n g in Ok x g'.

(** [np.random.randint(lo, hi)], and equally [np.random.choice(np.arange(lo, hi))]. *)
Definition randint (lo hi : Z) : M G Z :=
  if hi <=? lo then m_raise ValueError
  else x <- draw_below (hi - lo) ;; m_ret (lo + x).

Definition choice_arange (lo hi : Z) : M G Z := randint lo hi.

(** [np.random.choice(xs)] on a list literal. *)
Definition choice_list {A} (xs : list A) : M G A :=
  if (length xs =? 0)%nat then m_raise ValueError
  else i <- draw_below (Z.of_nat (length xs)) ;;
       match xs !! Z.to_nat i with Some x => m_ret x | None => m_raise ValueError end.

Fixpoint draws_arange (k : nat) (lo hi : Z) : M G (list Z) :=
  match k with
  | O => m_ret []
  | S k' => x <- draw_below (hi - lo) ;; xs <- draws_arange k' lo hi ;; m_ret ((lo + x) :: xs)
  end.

(** [np.random.choice(np.arange(lo, hi), size=size, replace=True)]. *)
Definition choice_arange_size (lo hi size : Z) : M G (list Z) :=
  if size <? 0 then m_raise ValueError
  else if size =? 0 then m_ret []
  else if hi <=? lo then m_raise ValueError
  else draws_arange (Z.to_nat size) lo hi.

(** [a[i], a[j] = a[j], a[i]] *)
Definition swap {A} (i j : nat) (xs : list A) : list A :=
  match xs !! i, xs !! j with
  | Some ai, Some aj => <[j:=ai]> (<[i:=aj]> xs)
  | _, _ => xs
  end.

(** [np.random.shuffle]: [for i in reversed(range(1, n)): j = randint(0, i + 1); swap]. *)
Fixpoint shuffle_from {A} (i : nat) (xs : list A) : M G (list A) :=
  match i with
  | O => m_ret xs
  | S i' => j <- draw_below (Z.of_nat i + 1) ;; shuffle_from i' (swap i (Z.to_nat j) xs)
  end.

Definition shuffle {A} (xs : list A) : M G (list A) :=
  match length xs with
  | O => m_ret xs
  | S n => shuffle_from n xs
  end.

End Numpy.

(** Python slice bounds [xs[a:b]] on a sequence of length [len]. *)
Definition slice_index (len x : Z) : Z :=
  if x <? 0 then Z.max 0 (x + len) else Z.min x len.

Definition py_slice {A} (xs : list A) (a b : Z) : list A :=
  let len := Z.of_nat (length xs) in
  let lo := slice_index len a in
  let hi := slice_index len b in
  take (Z.to_nat (hi - lo)) (drop (Z.to_nat lo) xs).

(** [np.where(mask)] on a boolean mask computed elementwise. *)
Definition where_idx {A} (p : A -> bool) (xs : list A) : list nat :=
  fst (fold_left (fun '(acc, i) x => (if p x then acc ++ [i] else acc, S i)) xs ([], O)).

(** Integer-array indexing [xs[idx]]: out of range raises [IndexError]. *)
Definition gather {A} (xs : list A) (idx : list nat) : Exc (list A) :=
  exc_mapM (fun i => match xs !! i with Some x => inr x | None => inl IndexError end) idx.

(** Two's-complement wrap-around of numpy's [int64] arithmetic. *)
Definition wrap64 (z : Z) : Z := (z + 2 ^ 63) mod 2 ^ 64 - 2 ^ 63.

(** [np.any(np.diff(xs) < m)] on an [int64] array: [np.diff] wraps, the
    comparison with the Python int [m] is exact. *)
Fixpoint any_diff_lt (m : Z) (xs : list Z) : bool :=
  match xs with
  | a :: ((b :: _) as r) => (wrap64 (b - a) <? m) || any_diff_lt m r
  | _ => false
  end.

Fixpoint cumsum_from (acc : Z) (xs : list Z) : list Z :=
  match xs with
  | [] => []
  | x :: r => let s := wrap64 (acc + x) in s :: cumsum_from s r
  end.

(** [np.cumsum] on an [int64] array (wrapping on overflow) *)
Definition cumsum (xs : list Z) : list Z := cumsum_from 0 xs.

(** [int(np.round(a / b))] with [b <> 0]: round half to even. *)
Definition round_half_even (a b : Z) : Z :=
  let '(a', b') := if b <? 0 then (- a, - b) else (a, b) in
  let q := a' / b' in
  let r := a' mod b' in
  if 2 * r <? b' then q
  else if b' <? 2 * r then q + 1
  else if Z.even q then q else q + 1.

Definition exc_bind {A B} (c : Exc A) (k : A -> Exc B) : Exc B :=
  match c with inl e => inl e | inr a => k a end.

Notation "x <-? c1 ;; c2" := (exc_bind c1 (fun x => c2))
  (at level 100, c1 at next level, right associativity).

(* ------------------------------------------------------------------ *)
(** ** Sliding-window repeat check (matbii_helpers._has_repeated_values) *)
(* ------------------------------------------------------------------ *)

Definition count_str (x : string) (w : list string) : nat :=
  length (List.filter (String.eqb x) w).

(** [np.max(counts) > max_repeats] for [_, counts = np.unique(window, ...)]:
    some value of the window occurs more than [max_repeats] times; [np.max]
    of an empty [counts] raises [ValueError]. *)
Definition window_exceeds (window : list string) (max_repeats : Z) : Exc bool :=
  match window with
  | [] => inl ValueError
  | _ => inr (existsb (fun x => max_repeats <? Z.of_nat (count_str x window)) window)
  end.

Fixpoint has_repeated_from (k : nat) (i : Z) (array : list string)
    (max_repeats window_size : Z) : Exc bool :=
  match k with
  | O => inr false
  | S k' =>
      b <-? window_exceeds (py_slice array i (i + window_size)) max_repeats ;;
      if b then inr true else has_repeated_from k' (i + 1) array max_repeats window_size
  end.

(** [for i in range(len(array) - window_size + 1)] *)
Definition _has_repeated_values (array : list string) (max_repeats window_size : Z) : Exc bool :=
  has_repeated_from (Z.to_nat (Z.of_nat (length array) - window_size + 1)) 0
    array max_repeats window_size.

(* ------------------------------------------------------------------ *)
(** ** Constraint checker (matbii_events._check_task_times_comply) *)
(* ------------------------------------------------------------------ *)

Definition is_comm (t : string) : bool :=
  String.eqb t "comm-own" || String.eqb t "comm-other".

(** Every argument explicit; the Python defaults are
    [min_seconds_between_comm = 30], [min_seconds_between_sysmon_light = 15],
    [min_seconds_between_sysmon_scale = 10], [session_duration_seconds = 600],
    [max_repeats = 2], [window_size = 3].  The six index gathers are all
    evaluated before the first test, as in the source. *)
Definition _check_task_times_comply (task_types : list string) (event_times : list Z)
    (seconds_before_comm_stop seconds_after_comm_start min_seconds_fail_fix_resman
     min_seconds_between_comm min_seconds_between_sysmon_light
     min_seconds_between_sysmon_scale session_duration_seconds
     max_repeats window_size : Z) : Exc bool :=
  let max_seconds_last_comm := session_duration_seconds - seconds_before_comm_stop in
  late <-? gather task_types (where_idx (fun t => max_seconds_last_comm <=? t) event_times) ;;
  early <-? gather task_types (where_idx (fun t => t <=? seconds_after_comm_start) event_times) ;;
  let should_not_be_comm := late ++ early in
  comm_times <-? gather event_times (where_idx is_comm task_types) ;;
  should_not_be_resman <-? gather task_types
      (where_idx (fun t => session_duration_seconds - min_seconds_fail_fix_resman - 1 <=? t)
         event_times) ;;
  sysmon_light_times <-? gather event_times (where_idx (String.eqb "sysmon-light") task_types) ;;
  sysmon_scale_times <-? gather event_times (where_idx (String.eqb "sysmon-scale") task_types) ;;
  if existsb is_comm should_not_be_comm then inr false
  else if any_diff_lt min_seconds_between_comm comm_times then inr false
  else if existsb (String.eqb "resman") should_not_be_resman then inr false
  else if any_diff_lt min_seconds_between_sysmon_light sysmon_light_times then inr false
  else if any_diff_lt min_seconds_between_sysmon_scale sysmon_scale_times then inr false
  else rep <-? _has_repeated_values task_types max_repeats window_size ;;
       inr (negb rep).

Definition _N_ATTEMPTS_CHECK_TASK_TIME_COMPLY : Z := 100000.
Definition _GRACE_SECONDS_BEFORE_SESSION_DURATION : Z := 25.

Section Generation.
Context {G : Type} `{NumpyRandom G}.

(* ------------------------------------------------------------------ *)
(** ** Rejection-sampling scheduler (matbii_events.ensure_task_times_comply) *)
(* ------------------------------------------------------------------ *)

(** The [while] loop; its state is [(attempts, task_times_comply, task_types)].
    [np.random.shuffle(task_types)] shuffles the caller's array in place, so
    the loop returns the array as it leaves it.  The fuel is
    [_N_ATTEMPTS_CHECK_TASK_TIME_COMPLY], which the attempt bound never lets
    run out before [attempts] reaches it. *)
Fixpoint ensure_loop (fuel : nat) (attempts : Z) (task_times_comply : bool)
    (task_types : list string) (event_times : list Z)
    (seconds_before_comm_stop seconds_after_comm_start min_seconds_fail_fix_resman
     session_duration_seconds : Z) : M G (Z * bool * list string) :=
  match fuel with
  | O => m_ret (attempts, task_times_comply, task_types)
  | S f =>
      if negb task_times_comply && (attempts <? _N_ATTEMPTS_CHECK_TASK_TIME_COMPLY) then
        task_types' <- shuffle task_types ;;
        c <- m_lift (_check_task_times_comply task_types' event_times
                       seconds_before_comm_stop seconds_after_comm_start
                       min_seconds_fail_fix_resman 30 15 10 session_duration_seconds 2 3) ;;
        ensure_loop f (attempts + 1) c task_types' event_times
          seconds_before_comm_stop seconds_after_comm_start min_seconds_fail_fix_resman
          session_duration_seconds
      else m_ret (attempts, task_times_comply, task_types)
  end.

(** Returns [task_times_comply] and the (shuffled in place) [task_types]. *)
Definition ensure_task_times_comply (task_types : list string) (event_times : list Z)
    (seconds_before_comm_stop seconds_after_comm_start min_seconds_fail_fix_resman
     session_duration_seconds : Z) : M G (bool * list string) :=
  r <- ensure_loop (Z.to_nat _N_ATTEMPTS_CHECK_TASK_TIME_COMPLY) 0 false task_types event_times
         seconds_before_comm_stop seconds_after_comm_start min_seconds_fail_fix_resman
         session_duration_seconds ;;
  let '(_, comply, task_types') := r in m_ret (comply, task_types').

(* ------------------------------------------------------------------ *)
(** ** Event-time sampler and task-type allocator (matbii_events.py) *)
(* ------------------------------------------------------------------ *)

(** [session_duration_seconds / min_seconds_event_diff] is a float division
    ([ZeroDivisionError] on 0); [np.round] rounds half to even.  The model
    rounds the exact quotient (the same for operands below [2^31]).  The
    gaps form an [int64] array, so [np.cumsum] wraps on overflow ([cumsum]). *)
Definition generate_random_events (min_seconds_event_diff max_seconds_event_diff
    session_duration_seconds : Z) : M G (list Z) :=
  if min_seconds_event_diff =? 0 then m_raise ZeroDivisionError
  else
    let size := round_half_even session_duration_seconds min_seconds_event_diff in
    event_diffs <- choice_arange_size min_seconds_event_diff max_seconds_event_diff size ;;
    let event_times := cumsum event_diffs in
    m_ret (List.filter
             (fun t => t <=? session_duration_seconds - _GRACE_SECONDS_BEFORE_SESSION_DURATION)
             event_times).

Definition generate_task_types (n_pump_failures n_own_comm n_other_comm n_green_red_issues
    n_systems_up_down : Z) : list string :=
  repeat "resman" (Z.to_nat n_pump_failures) ++
  repeat "comm-own" (Z.to_nat n_own_comm) ++
  repeat "comm-other" (Z.to_nat n_other_comm) ++
  repeat "sysmon-light" (Z.to_nat n_green_red_issues) ++
  repeat "sysmon-scale" (Z.to_nat n_systems_up_down).

Definition task_type_vocabulary : list string :=
  ["resman"; "sysmon-light"; "sysmon-scale"; "comm-own"; "comm-other"].

(** [for _ in range(k): task_types = np.append(task_types, np.random.choice([...]))] *)
Fixpoint pad_task_types (k : nat) (task_types : list string) : M G (list string) :=
  match k with
  | O => m_ret task_types
  | S k' => lbl <- choice_list task_type_vocabulary ;; pad_task_types k' (task_types ++ [lbl])
  end.

Definition _adjust_task_types (task_types : list string) (event_times : list Z)
    : M G (list string * Z * Z) :=
  let n_task_types := length task_types in
  let n_event_times := length event_times in
  if (n_event_times <? n_task_types)%nat then
    m_ret (take n_event_times task_types, Z.of_nat n_task_types, Z.of_nat n_event_times)
  else if (n_task_types <? n_event_times)%nat then
    tt <- pad_task_types (n_event_times - n_task_types) task_types ;;
    m_ret (tt, Z.of_nat n_task_types, Z.of_nat n_event_times)
  else m_ret (task_types, Z.of_nat n_task_types, Z.of_nat n_event_times).

End Generation.

(* ------------------------------------------------------------------ *)
(** ** Event records (the children of the [MATB-EVENTS] root) *)
(* ------------------------------------------------------------------ *)

(** The typed child of an [<event>] element. *)
Inductive action : Type :=
  | Sched (task act update response : string)
  | Control (text : string)
  | Rate (text : string)
  | ResmanFail (pump : string)
  | ResmanFix (pump : string)
  | SysmonLight (color : string) (activity_start : bool)
  | SysmonScale (number direction : string)
  | Comm (ship radio freq : string).

(** [<event startTime=...>], its optional XML comment child, and its action. *)
Record event : Type := mk_event {
  startTime : string;
  comment : option string;
  body : action
}.

Definition is_comm_event (e : event) : bool :=
  match body e with Comm _ _ _ => true | _ => false end.

(** [fromstring(_INITIAL_XML_STRING_MATBII)] (the parser drops XML comments)
    followed by the [control START] event of [_initialize_matbii_generation]. *)
Definition initial_events : list event :=
  [mk_event "0:00:01" None (Sched "RESSYS" "START" "NULL" "NULL");
   mk_event "0:00:02" None (Sched "TRACK" "MANUAL" "HIGH" "MEDIUM");
   mk_event "0:00:00" None (Control "START")].

(** [str(z)] *)
Definition py_str_Z (z : Z) : string :=
  string_of_list_ascii
    (if z <? 0 then "-"%char :: str_of_N (Z.to_N (- z)) else str_of_N (Z.to_N z)).

Definition py_split (sep : ascii) (s : string) : list string :=
  map string_of_list_ascii (split_on sep (list_ascii_of_string s)).

Definition ascii_upper (c : ascii) : ascii :=
  let n := nat_of_ascii c in
  if (97 <=? n)%nat && (n <=? 122)%nat then ascii_of_nat (n - 32) else c.

(** [str.upper] on ASCII strings. *)
Definition py_upper (s : string) : string :=
  string_of_list_ascii (map ascii_upper (list_ascii_of_string s)).

Fixpoint is_prefix (p l : list ascii) : bool :=
  match p, l with
  | [], _ => true
  | c :: p', d :: l' => Ascii.eqb c d && is_prefix p' l'
  | _ :: _, [] => false
  end.

Fixpoint is_infix (p l : list ascii) : bool :=
  is_prefix p l || match l with [] => false | _ :: l' => is_infix p l' end.

(** [needle in hay] on strings. *)
Definition py_in (needle hay : string) : bool :=
  is_infix (list_ascii_of_string needle) (list_ascii_of_string hay).

(** Collaborators outside the modelled code: the packaged JSON list of default
    communication stems, the [rglob("*.wav")] listing of a directory (stems,
    in listing order), and the XML serialisation
    ([tostring] + [_pretty_format_xml], built on [xml.dom.minidom]) of the
    sorted events under a given XML declaration. *)
Record External : Type := {
  default_comm_stems : string -> list string;
  wav_stems_under : string -> list string;
  pretty_xml : string -> list event -> string
}.

Record MatbiiParams : Type := {
  min_seconds_event_diff : Z;
  max_seconds_event_diff : Z;
  session_duration_minutes : Z;
  min_seconds_fail_fix_resman : Z;
  max_seconds_fail_fix_resman : Z;
  min_seconds_to_indicate_no_comm : Z;
  seconds_before_comm_stop : Z;
  seconds_after_comm_start : Z;
  n_pump_failures : Z;
  n_own_comm : Z;
  n_other_comm : Z;
  n_green_red_issues : Z;
  n_systems_up_down : Z;
  total_auto_minutes : Z
}.

(** The keyword defaults of [matbii_generate_random_xml]. *)
Definition default_params : MatbiiParams := {|
  min_seconds_event_diff := 10; max_seconds_event_diff := 35;
  session_duration_minutes := 10; min_seconds_fail_fix_resman := 20;
  max_seconds_fail_fix_resman := 90; min_seconds_to_indicate_no_comm := 90;
  seconds_before_comm_stop := 30; seconds_after_comm_start := 5;
  n_pump_failures := 5; n_own_comm := 5; n_other_comm := 5;
  n_green_red_issues := 6; n_systems_up_down := 6; total_auto_minutes := 3 |}.

(* ------------------------------------------------------------------ *)
(** ** Pure helpers of matbii_tasks.py / matbii_helpers.py *)
(* ------------------------------------------------------------------ *)

Fixpoint insert_by_key (x : Z * event) (l : list (Z * event)) : list (Z * event) :=
  match l with
  | [] => [x]
  | y :: r => if fst x <? fst y then x :: l else y :: insert_by_key x r
  end.

(** [_sort_events_by_seconds]: [sorted(root, key=_get_seconds_from_elem)],
    a stable sort; every key is computed first ([ValueError] if one fails). *)
Definition _sort_events_by_seconds (root : list event) : Exc (list event) :=
  keys <-? exc_mapM (fun e => match _parse_time_string (startTime e) with
                              | Some k => inr k | None => inl ValueError end) root ;;
  inr (map snd (fold_left (fun acc x => insert_by_key x acc) (combine keys root) [])).

Definition _get_comm_task_times (root : list event) : Exc (list Z) :=
  exc_mapM (fun e => match _parse_time_string (startTime e) with
                     | Some k => inr k | None => inl ValueError end)
    (List.filter is_comm_event root).

Definition _generate_comm_sched_task (root : list event) (time act : string) : list event :=
  root ++ [mk_event time (Some "Sched task") (Sched "COMM" act "NULL" "NULL")].

Fixpoint no_comm_intervals (comm_task_times : list Z) (start_time_num : Z)
    (min_seconds_to_indicate_no_comm seconds_before_comm_stop seconds_after_comm_start : Z)
    : list (Z * Z) :=
  match comm_task_times with
  | [] => []
  | comm_time :: r =>
      let diff := comm_time - start_time_num in
      (if min_seconds_to_indicate_no_comm <? diff
       then [(start_time_num + seconds_before_comm_stop, comm_time - seconds_after_comm_start)]
       else []) ++
      no_comm_intervals r comm_time min_seconds_to_indicate_no_comm
        seconds_before_comm_stop seconds_after_comm_start
  end.

(** [_generate_all_comm_start_stop]; the warnings are not modelled (no output). *)
Definition _generate_all_comm_start_stop (root : list event)
    (min_seconds_to_indicate_no_comm seconds_before_comm_stop seconds_after_comm_start
     session_duration_seconds : Z) : Exc (list event) :=
  root <-? _sort_events_by_seconds root ;;
  comm_task_times <-? _get_comm_task_times root ;;
  first_comm_task_time <-? match comm_task_times with
                           | t :: _ => inr t
                           | [] => inl IndexError
                           end ;;
  let first_comm_start_time :=
    if seconds_after_comm_start <? first_comm_task_time
    then first_comm_task_time - seconds_after_comm_start else first_comm_task_time in
  let root := _generate_comm_sched_task root (_format_seconds first_comm_start_time) "START" in
  let intervals := no_comm_intervals comm_task_times first_comm_start_time
                     min_seconds_to_indicate_no_comm seconds_before_comm_stop
                     seconds_after_comm_start in
  let root := fold_left (fun r '(stop, start) =>
                 _generate_comm_sched_task
                   (_generate_comm_sched_task r (_format_seconds stop) "STOP")
                   (_format_seconds start) "START") intervals root in
  last_comm_task_time <-? match last comm_task_times with
                          | Some t => inr t
                          | None => inl IndexError
                          end ;;
  let last_comm_stop_time :=
    if seconds_before_comm_stop <? session_duration_seconds - last_comm_task_time
    then last_comm_task_time + seconds_before_comm_stop else session_duration_seconds in
  inr (_generate_comm_sched_task root (_format_seconds last_comm_stop_time) "STOP").

Definition _generate_auto_task (root : list event)
    (auto_start_seconds total_auto_minutes session_duration_seconds : Z) : list event :=
  root ++
  [mk_event (_format_seconds auto_start_seconds) (Some "Sched task")
     (Sched "TRACK" "AUTO" "NULL" "NULL");
   mk_event (_format_seconds (auto_start_seconds + total_auto_minutes * 60)) (Some "Sched task")
     (Sched "TRACK" "MANUAL" "MEDIUM" "HIGH");
   mk_event (_format_seconds (session_duration_seconds - 3)) (Some "Sched task")
     (Sched "TRACK" "AUTO" "NULL" "NULL")].

(** [_generate_comm_task]: the event element is attached before the stem is
    split, but an [IndexError] there ends the whole generation anyway. *)
Definition _generate_comm_task (root : list event) (time comm_stem : string) : Exc (list event) :=
  let split_comm_stem := py_split "_"%char comm_stem in
  ship <-? match split_comm_stem !! 0%nat with Some x => inr x | None => inl IndexError end ;;
  radio <-? match split_comm_stem !! 1%nat with Some x => inr x | None => inl IndexError end ;;
  f <-? match split_comm_stem !! 2%nat with Some x => inr x | None => inl IndexError end ;;
  let fparts := py_split "-"%char f in
  f0 <-? match fparts !! 0%nat with Some x => inr x | None => inl IndexError end ;;
  f1 <-? match fparts !! 1%nat with Some x => inr x | None => inl IndexError end ;;
  inr (root ++ [mk_event time (Some "Communications task") (Comm ship radio (String.append f0 (String.append "." f1)))]).

(** [np.zeros(n)] *)
Definition np_zeros (n : Z) : Exc (list Z) :=
  if n <? 0 then inl ValueError else inr (repeat 0 (Z.to_nat n)).

(** [np.all(arr[a:b] == 0)] *)
Definition all_zero_slice (arr : list Z) (a b : Z) : bool :=
  forallb (fun x => x =? 0) (py_slice arr a b).

(** [arr[a:b] = v] *)
Definition set_slice (arr : list Z) (a b v : Z) : list Z :=
  let len := Z.of_nat (length arr) in
  let lo := slice_index len a in
  let hi := slice_index len b in
  imap (fun i x => if (lo <=? Z.of_nat i) && (Z.of_nat i <? hi) then v else x) arr.

(** The per-pump failure bitmaps of [_generate_tasks]: keys ["P0"] .. ["P8"]. *)
Definition pump_keys : list string := map (fun i => String.append "P" (py_str_Z i)) [0; 1; 2; 3; 4; 5; 6; 7; 8].

Definition initial_pump_failed_dict (session_duration_seconds : Z) : Exc (gmap string (list Z)) :=
  z <-? np_zeros session_duration_seconds ;;
  inr (list_to_map (map (fun k => (k, z)) pump_keys)).

Inductive SaveOutcome : Type :=
  | Written (file_stem contents : string)
  | LoggedError.

Section Materialisation.
Context {G : Type} `{NumpyRandom G}.

(** [np.random.seed] through [seed_everything] when a seed is given;
    [np.random.seed] raises [ValueError] outside [0 .. 2^32 - 1]
    ([random.seed] and the environment variable accept any int). *)
Definition m_seed (random_state : option Z) : M G unit :=
  match random_state with
  | Some s =>
      if (0 <=? s) && (s <? 2 ^ 32) then fun _ => Ok tt (np_random_seed s)
      else m_raise ValueError
  | None => m_ret tt
  end.

(** [_get_comm_stems]: for "own" then "other", list the stems and shuffle them. *)
Definition comm_stems_of (ext : External) (comm_stems_path : option string) (ship : string)
    : list string :=
  match comm_stems_path with
  | Some path =>
      List.filter (fun stem => py_in (py_upper ship) stem &&
                               (length (py_split "_"%char stem) =? 3)%nat)
        (wav_stems_under ext path)
  | None => default_comm_stems ext ship
  end.

Definition _get_comm_stems (ext : External) (comm_stems_path : option string)
    : M G (gmap string (list string)) :=
  own <- shuffle (comm_stems_of ext comm_stems_path "own") ;;
  other <- shuffle (comm_stems_of ext comm_stems_path "other") ;;
  m_ret (<["OTHER" := other]> (<["OWN" := own]> ∅)).

Definition _initialize_matbii_generation (ext : External) (random_state : option Z)
    (comm_stems_path : option string) : M G (list event * gmap string (list string)) :=
  _ <- m_seed random_state ;;
  stems <- _get_comm_stems ext comm_stems_path ;;
  m_ret (initial_events, stems).

(** The first [while] of [_generate_resman_task]:
    [while fix_time_seconds >= len(pump_failed_dict["P1"]) - 1].
    [diff_seconds_fail_fix] is an [np.int64], so the sum with the Python int
    [fail_time_seconds] wraps around as an [int64]. *)
Fixpoint draw_fix_time (fuel : nat) (time : string) (min_seconds_fail_fix max_seconds_fail_fix
    len fail_time_seconds fix_time_seconds : Z) : M G (Z * Z) :=
  if fix_time_seconds >=? len - 1 then
    match fuel with
    | O => m_raise NonTermination
    | S f =>
        diff_seconds_fail_fix <- choice_arange min_seconds_fail_fix max_seconds_fail_fix ;;
        fail <- match _parse_time_string time with
                | Some s => m_ret s | None => m_raise ValueError end ;;
        draw_fix_time f time min_seconds_fail_fix max_seconds_fail_fix len fail
          (wrap64 (diff_seconds_fail_fix + fail))
    end
  else m_ret (fail_time_seconds, fix_time_seconds).

(** The failure time [t] and the bounds [mn], [mx] of the fix delay fit
    numpy's [int64], and so does every sum [t + d] with [mn <= d < mx]: the
    sum [diff_seconds_fail_fix + fail_time_seconds] cannot wrap. *)
Definition fix_window_int64 (t mn mx : Z) : Prop :=
  - 2 ^ 63 <= mn /\ mx < 2 ^ 63 /\ - 2 ^ 63 <= t < 2 ^ 63 /\
  - 2 ^ 63 <= t + mn /\ t + mx <= 2 ^ 63.

(** The second [while] of [_generate_resman_task]: draw
    ["P" + str(np.random.randint(1, 8))] until its bitmap is all zero over
    [fail_time_seconds:fix_time_seconds], then mark that slice. *)
Fixpoint select_pump (fuel : nat) (fail_time_seconds fix_time_seconds : Z)
    (pump_failed_dict : gmap string (list Z)) : M G (string * gmap string (list Z)) :=
  match fuel with
  | O => m_raise NonTermination
  | S f =>
      k <- randint 1 8 ;;
      let pump := String.append "P" (py_str_Z k) in
      match pump_failed_dict !! pump with
      | None => m_raise KeyError
      | Some bm =>
          if all_zero_slice bm fail_time_seconds fix_time_seconds then
            m_ret (pump, <[pump := set_slice bm fail_time_seconds fix_time_seconds 1]>
                           pump_failed_dict)
          else select_pump f fail_time_seconds fix_time_seconds pump_failed_dict
      end
  end.

(** [_generate_resman_task] with a [pump_failed_dict] (the only way the
    generator calls it).  The loop starts from
    [fix_time_seconds = len(pump_failed_dict["P1"])], so it runs at least once
    and [fail_time_seconds] is bound before use. *)
Definition _generate_resman_task (fuel : nat) (root : list event) (time : string)
    (min_seconds_fail_fix max_seconds_fail_fix : Z) (pump_failed_dict : gmap string (list Z))
    : M G (list event * gmap string (list Z)) :=
  match pump_failed_dict !! "P1" with
  | None => m_raise KeyError
  | Some p1 =>
      let len := Z.of_nat (length p1) in
      r <- draw_fix_time fuel time min_seconds_fail_fix max_seconds_fail_fix len 0 len ;;
      let '(fail_time_seconds, fix_time_seconds) := r in
      let fix_time := _format_seconds fix_time_seconds in
      r' <- select_pump fuel fail_time_seconds fix_time_seconds pump_failed_dict ;;
      let '(pump, pump_failed_dict') := r' in
      m_ret (root ++ [mk_event time (Some "Resman task - Fail") (ResmanFail pump);
                      mk_event fix_time (Some "Resman task - Fix") (ResmanFix pump)],
             pump_failed_dict')
  end.

Definition _generate_sysmon_task (root : list event) (time sysmon_subtype : string)
    : M G (list event) :=
  if String.eqb sysmon_subtype "light" then
    color <- choice_list ["GREEN"; "RED"] ;;
    m_ret (root ++ [mk_event time (Some "System Monitoring task")
                      (SysmonLight color (String.eqb color "GREEN"))])
  else
    number <- choice_list ["ONE"; "TWO"; "THREE"; "FOUR"] ;;
    direction <- choice_list ["UP"; "DOWN"] ;;
    m_ret (root ++ [mk_event time (Some "System Monitoring task") (SysmonScale number direction)]).

(** One iteration of [_generate_random_tasks]. *)
Definition random_task_step (fuel : nat) (min_seconds_fail_fix_resman max_seconds_fail_fix_resman : Z)
    (st : list event * gmap string (list Z) * gmap string (list string))
    (task_type : string) (event_time : Z)
    : M G (list event * gmap string (list Z) * gmap string (list string)) :=
  let '(root, pump_failed_dict, comm_stems_per_ship) := st in
  let time := _format_seconds event_time in
  let parts := py_split "-"%char task_type in
  if String.eqb task_type "resman" then
    r <- _generate_resman_task fuel root time min_seconds_fail_fix_resman
           max_seconds_fail_fix_resman pump_failed_dict ;;
    let '(root', pump_failed_dict') := r in
    m_ret (root', pump_failed_dict', comm_stems_per_ship)
  else if String.eqb (default EmptyString (parts !! 0%nat)) "sysmon" then
    match parts !! 1%nat with
    | None => m_raise IndexError
    | Some sysmon_subtype =>
        root' <- _generate_sysmon_task root time sysmon_subtype ;;
        m_ret (root', pump_failed_dict, comm_stems_per_ship)
    end
  else if String.eqb (default EmptyString (parts !! 0%nat)) "comm" then
    match parts !! 1%nat with
    | None => m_raise IndexError
    | Some s =>
        let ship := py_upper s in
        match comm_stems_per_ship !! ship with
        | None => m_raise KeyError
        | Some stems =>
            match last stems with
            | None => m_raise IndexError
            | Some comm_stem =>
                root' <- m_lift (_generate_comm_task root time comm_stem) ;;
                m_ret (root', pump_failed_dict, <[ship := removelast stems]> comm_stems_per_ship)
            end
        end
    end
  else m_ret (root, pump_failed_dict, comm_stems_per_ship).

(** [for task_type, event_time in zip(task_types, event_times)] *)
Fixpoint _generate_random_tasks (fuel : nat) (task_types : list string) (event_times : list Z)
    (min_seconds_fail_fix_resman max_seconds_fail_fix_resman : Z)
    (st : list event * gmap string (list Z) * gmap string (list string))
    : M G (list event * gmap string (list Z) * gmap string (list string)) :=
  match task_types, event_times with
  | task_type :: tts, event_time :: ets =>
      st' <- random_task_step fuel min_seconds_fail_fix_resman max_seconds_fail_fix_resman
               st task_type event_time ;;
      _generate_random_tasks fuel tts ets min_seconds_fail_fix_resman
        max_seconds_fail_fix_resman st'
  | _, _ => m_ret st
  end.

Definition _generate_tasks (fuel : nat) (root : list event) (task_types : list string)
    (event_times : list Z) (comm_stems_per_ship : gmap string (list string))
    (min_seconds_fail_fix_resman max_seconds_fail_fix_resman session_duration_seconds
     seconds_before_comm_stop seconds_after_comm_start : Z) : M G (list event) :=
  pump_failed_dict <- m_lift (initial_pump_failed_dict session_duration_seconds) ;;
  r <- ensure_task_times_comply task_types event_times seconds_before_comm_stop
         seconds_after_comm_start min_seconds_fail_fix_resman session_duration_seconds ;;
  let '(task_times_comply, task_types') := r in
  if task_times_comply then
    st <- _generate_random_tasks fuel task_types' event_times min_seconds_fail_fix_resman
            max_seconds_fail_fix_resman (root, pump_failed_dict, comm_stems_per_ship) ;;
    let '(root', _, _) := st in m_ret root'
  else m_ret root.

Definition _generate_auto_and_comm_start_stop (root : list event)
    (session_duration_seconds total_auto_minutes min_seconds_to_indicate_no_comm
     seconds_before_comm_stop seconds_after_comm_start : Z) : M G (list event) :=
  let buffer_seconds_auto := 5 in
  let max_seconds_auto := session_duration_seconds - total_auto_minutes * 60 - buffer_seconds_auto in
  let min_seconds_auto := buffer_seconds_auto in
  auto_start_seconds <- choice_arange min_seconds_auto max_seconds_auto ;;
  let root := _generate_auto_task root auto_start_seconds total_auto_minutes
                session_duration_seconds in
  m_lift (_generate_all_comm_start_stop root min_seconds_to_indicate_no_comm
            seconds_before_comm_stop seconds_after_comm_start session_duration_seconds).

Definition dquote : string := String (ascii_of_nat 34) EmptyString.

(** ['<?xml version="1.0" encoding="UTF-8" ?>\n'] *)
Definition xml_declaration : string :=
  String.concat dquote ["<?xml version="; "1.0"; " encoding="; "UTF-8";
                        String.append " ?>" (String (ascii_of_nat 10) EmptyString)].

Definition _finalize_matbii_generation (ext : External) (root : list event)
    (session_duration_seconds : Z) : Exc string :=
  let root := root ++
    [mk_event (_format_seconds (session_duration_seconds - 2)) None (Rate "START");
     mk_event (_format_seconds session_duration_seconds) None (Control "END")] in
  root <-? _sort_events_by_seconds root ;;
  inr (pretty_xml ext xml_declaration root).

(** Lines 369-399 of [matbii_generate_random_xml]: everything before session
    framing.  Returns the event tree, the original number of task types and
    the number of event times.  [fuel] bounds the two unbounded [while] loops
    of [_generate_resman_task]. *)
Definition matbii_task_phase (fuel : nat) (ext : External) (random_state : option Z)
    (p : MatbiiParams) (comm_stems_path : option string) : M G (list event * Z * Z) :=
  init <- _initialize_matbii_generation ext random_state comm_stems_path ;;
  let '(root, comm_stems_per_ship) := init in
  let session_duration_seconds := session_duration_minutes p * 60 in
  event_times <- generate_random_events (min_seconds_event_diff p) (max_seconds_event_diff p)
                   session_duration_seconds ;;
  let task_types := generate_task_types (n_pump_failures p) (n_own_comm p) (n_other_comm p)
                      (n_green_red_issues p) (n_systems_up_down p) in
  adj <- _adjust_task_types task_types event_times ;;
  let '(task_types', n_task_types, n_event_times) := adj in
  root <- _generate_tasks fuel root task_types' event_times comm_stems_per_ship
            (min_seconds_fail_fix_resman p) (max_seconds_fail_fix_resman p)
            session_duration_seconds (seconds_before_comm_stop p) (seconds_after_comm_start p) ;;
  m_ret (root, n_task_types, n_event_times).

(** [matbii_generate_random_xml]: returns the XML text, the original number of
    task types and the number of event times. *)
Definition matbii_generate_random_xml (fuel : nat) (ext : External) (random_state : option Z)
    (p : MatbiiParams) (comm_stems_path : option string) : M G (string * Z * Z) :=
  r <- matbii_task_phase fuel ext random_state p comm_stems_path ;;
  let '(root, n_task_types, n_event_times) := r in
  let session_duration_seconds := session_duration_minutes p * 60 in
  root <- _generate_auto_and_comm_start_stop root session_duration_seconds
            (total_auto_minutes p) (min_seconds_to_indicate_no_comm p)
            (seconds_before_comm_stop p) (seconds_after_comm_start p) ;;
  xml_string <- m_lift (_finalize_matbii_generation ext root session_duration_seconds) ;;
  m_ret (xml_string, n_task_types, n_event_times).

End Materialisation.

(* ------------------------------------------------------------------ *)
(** ** Outer retry loop (gen_matbii_events.generate_and_save_xml) *)
(* ------------------------------------------------------------------ *)

Definition MAX_ATTEMPTS : Z := 100.

Section SaveXml.
Context {G : Type} `{NumpyRandom G}.

(** The [while] loop; its state is
    [(n_task_types, n_event_times, attempts, seed, random_xml)]
    ([random_xml] is unbound until the first call).  The fuel is
    [max_attempts], which the attempt bound never lets run out early. *)
Fixpoint save_loop (fuel : nat) (generate : Z -> M G (string * Z * Z)) (max_attempts : Z)
    (n_task_types n_event_times attempts seed : Z) (random_xml : option string)
    : M G (Z * Z * Z * Z * option string) :=
  match fuel with
  | O => m_ret (n_task_types, n_event_times, attempts, seed, random_xml)
  | S f =>
      if negb (n_task_types =? n_event_times) && (attempts <? max_attempts) then
        r <- generate seed ;;
        let '(xml, n_tt, n_et) := r in
        save_loop f generate max_attempts n_tt n_et (attempts + 1) (seed + 1) (Some xml)
      else m_ret (n_task_types, n_event_times, attempts, seed, random_xml)
  end.

Definition file_stem_of (condition version : string) (tutorial_minutes seed : Z) : string :=
  if String.eqb condition "low" && String.eqb version "c" then
    String.append "MATB_EVENTS_tutorial_"
      (String.append (py_str_Z tutorial_minutes) (String.append "mins_seed_" (py_str_Z seed)))
  else
    String.append "MATB_EVENTS_"
      (String.append condition (String.append "_"
        (String.append version (String.append "_seed_" (py_str_Z seed))))).

(** [generate seed] stands for
    [matbii_generate_random_xml(random_state=seed, comm_stems_path=None, **params_dict)];
    [tutorial_minutes] is the [session_duration_minutes] of the low-condition
    parameters read from matbii_params.json.  The result is the file written
    (its stem and text) or the logged error. *)
Definition generate_and_save_xml (generate : Z -> M G (string * Z * Z)) (seed : Z)
    (condition version : string) (tutorial_minutes max_attempts : Z) : M G SaveOutcome :=
  st <- save_loop (Z.to_nat max_attempts) generate max_attempts (-1) 0 0 seed None ;;
  let '(_, _, attempts, seed', random_xml) := st in
  if attempts =? max_attempts then m_ret LoggedError
  else match random_xml with
       | None => m_raise UnboundLocalError
       | Some xml => m_ret (Written (file_stem_of condition version tutorial_minutes seed') xml)
       end.

End SaveXml.

(* ------------------------------------------------------------------ *)
(** ** Scenario batch (gen_matbii_events._create_matbii_scenarios) *)
(* ------------------------------------------------------------------ *)

(** What [_create_matbii_scenarios] ends with: the outcome of each
    [generate_and_save_xml] call (with its version), the logged
    [Invalid condition] error, or the failed
    [assert "MATBII_HIGH_PARAMS" in params]. *)
Inductive ScenarioResult : Type :=
  | ScenariosSaved (outcomes : list (string * SaveOutcome))
  | InvalidCondition
  | AssertionFailed.

Section Scenarios.
Context {G : Type} `{NumpyRandom G}.

(** [generate p seed] stands for
    [matbii_generate_random_xml(random_state=seed, comm_stems_path=None, **p)]. *)
Variable generate : MatbiiParams -> Z -> M G (string * Z * Z).

(** [for version in [VERSION_A, VERSION_B, VERSION_C]:
       if not ((condition == CONDITION_HIGH) & (version == VERSION_C)): ...] *)
Fixpoint save_versions (params_dict : MatbiiParams) (condition : string)
    (tutorial_minutes max_attempts seed : Z) (versions : list string)
    : M G (list (string * SaveOutcome)) :=
  match versions with
  | [] => m_ret []
  | version :: vs =>
      if negb (String.eqb condition "high" && String.eqb version "c") then
        o <- generate_and_save_xml (generate params_dict) seed condition version
               tutorial_minutes max_attempts ;;
        rest <- save_versions params_dict condition tutorial_minutes max_attempts seed vs ;;
        m_ret ((version, o) :: rest)
      else save_versions params_dict condition tutorial_minutes max_attempts seed vs
  end.

(** [params] is the content of matbii_params.json, each entry given with all
    its keywords.  [tutorial_minutes] is
    [params["MATBII_LOW_PARAMS"]["session_duration_minutes"]], which
    [generate_and_save_xml] reads only for the low condition, version c. *)
Definition _create_matbii_scenarios (params : gmap string MatbiiParams) (condition : string)
    (max_attempts : Z) : M G ScenarioResult :=
  let seed := 0 in
  let tutorial_minutes := match params !! "MATBII_LOW_PARAMS" with
                          | Some p => session_duration_minutes p
                          | None => 0
                          end in
  match params !! "MATBII_HIGH_PARAMS" with
  | None => m_ret AssertionFailed
  | Some high =>
      let run p := outs <- save_versions p condition tutorial_minutes max_attempts seed
                             ["a"; "b"; "c"] ;;
                   m_ret (ScenariosSaved outs) in
      if String.eqb condition "high" then run high
      else if String.eqb condition "low" then
        match params !! "MATBII_LOW_PARAMS" with
        | None => m_raise KeyError
        | Some low => run low
        end
      else m_ret InvalidCondition
  end.

End Scenarios.

(* ------------------------------------------------------------------ *)
(** ** Text clean-up of the pretty-printed XML (matbii_helpers.py) *)
(* ------------------------------------------------------------------ *)

Definition tab : ascii := ascii_of_nat 9.
Definition newline : ascii := ascii_of_nat 10.

(** [sep.join(parts)] *)
Fixpoint py_join (sep : list ascii) (parts : list (list ascii)) : list ascii :=
  match parts with
  | [] => []
  | [p] => p
  | p :: ps => p ++ sep ++ py_join sep ps
  end.

(** [str.replace(old, new)] for a non-empty [old]: the occurrences are
    replaced from left to right, without overlap.  Each step consumes at
    least one character, so [length l + 1] steps suffice. *)
Fixpoint py_replace_fuel (fuel : nat) (old new l : list ascii) : list ascii :=
  match fuel with
  | O => l
  | S f =>
      match l with
      | [] => []
      | c :: r =>
          if is_prefix old l then new ++ py_replace_fuel f old new (drop (length old) l)
          else c :: py_replace_fuel f old new r
      end
  end.

Definition py_replace (old new l : list ascii) : list ascii :=
  py_replace_fuel (S (length l)) old new l.

(** [r"".join(["\t"] * k)] *)
Definition tabs (k : nat) : list ascii := repeat tab k.

(** The inner loop of [_remove_one_level_indent] on one line, for [j] in
    [js], with the flag [indent_removed]. *)
Fixpoint remove_indent_loop (js : list nat) (line : list ascii) (indent_removed : bool)
    : list ascii :=
  match js with
  | [] => line
  | j :: js' =>
      if is_infix (tabs (S j)) line && negb indent_removed
      then remove_indent_loop js' (py_replace (tabs (S j)) (tabs j) line) true
      else remove_indent_loop js' line indent_removed
  end.

(** [_remove_one_level_indent(txt, max_indent)] on ASCII text:
    [reversed(list(np.arange(max_indent)))] is [max_indent - 1, ..., 0]. *)
Definition _remove_one_level_indent (txt : list ascii) (max_indent : Z) : list ascii :=
  py_join [newline]
    (map (fun line => remove_indent_loop (rev (seq 0 (Z.to_nat max_indent))) line false)
       (split_on newline txt)).

(** The ASCII line boundaries of [str.splitlines]: \n \v \f \r \x1c \x1d \x1e. *)
Definition is_line_boundary (c : ascii) : bool :=
  let n := nat_of_ascii c in
  ((10 <=? n)%nat && (n <=? 13)%nat) || ((28 <=? n)%nat && (n <=? 30)%nat).

(** [str.splitlines()]: "\r\n" is one boundary, and no empty last line is
    produced after a final boundary. *)
Fixpoint splitlines (l : list ascii) : list (list ascii) :=
  match l with
  | [] => []
  | c :: r =>
      if Ascii.eqb c (ascii_of_nat 13) then
        match r with
        | d :: r' => if Ascii.eqb d newline then [] :: splitlines r' else [] :: splitlines r
        | [] => [[]]
        end
      else if is_line_boundary c then [] :: splitlines r
      else match splitlines r with
           | [] => [[c]]
           | p :: ps => (c :: p) :: ps
           end
  end.

(** [_remove_blank_lines]: keep the lines whose [strip()] is non-empty. *)
Definition _remove_blank_lines (txt : list ascii) : list ascii :=
  py_join [newline]
    (List.filter (fun line => match strip line with [] => false | _ => true end)
       (splitlines txt)).

(* ================================================================== *)
(** * Proofs *)
(* ================================================================== *)

(** ** Definitions used by the statements below *)

(** A concrete generator with numpy's interface (a 31-bit linear
    congruential generator), to run the model on worked examples. *)
Definition lcg_next (g : Z) : Z := (1103515245 * g + 12345) mod 2147483648.

#[global] Instance lcg_random : NumpyRandom Z := {|
  np_random_seed := fun s => s mod 2147483648;
  rand_below := fun n g =>
    let g' := lcg_next g in ((if n <=? 0 then 0 else (g' / 65536) mod n), g')
|}.

(** [rand_below n] lies in [0, n), as numpy's [randint(0, n)] does. *)
Definition rand_below_in_range (G : Type) `{NumpyRandom G} : Prop :=
  forall n g, 0 < n -> 0 <= fst (rand_below n g) < n.

(** The value or exception of a run, forgetting the final random state. *)
Definition outcome {G A} (r : res G A) : exn + A :=
  match r with Ok a _ => inr a | Err e => inl e end.

(** A stand-in for [matbii_generate_random_xml] in the retry loop: it leaves
    the random state alone and reports 27 task types and 26 event times,
    except for the seed [k], where both counts are 27. *)
Definition counts_match_only_at (k : Z) (seed : Z) : M Z (string * Z * Z) :=
  m_ret ("<MATB-EVENTS/>", 27, if seed =? k then 27 else 26).

(** A placed pump failure: the unit, [fail_time_seconds], [fix_time_seconds]. *)
Definition placement : Type := (string * Z * Z)%type.

(** The invariant of the per-unit failure bitmaps of a session of [L]
    seconds, given the failures placed so far: every bitmap has [L] entries;
    a placed failure starts at a non-negative second and its unit's bitmap is
    1 over its interval [fail, fix); two placed failures of the same unit
    have disjoint intervals. *)
Definition resman_invariant (L : nat) (pump_failed_dict : gmap string (list Z))
    (placed : list placement) : Prop :=
  (forall p bm, pump_failed_dict !! p = Some bm -> length bm = L) /\
  (forall p a b, In (p, a, b) placed ->
     0 <= a /\ exists bm, pump_failed_dict !! p = Some bm /\
                          forall i, a <= i < b -> bm !! Z.to_nat i = Some 1) /\
  (forall j k p a b a' b', j <> k -> placed !! j = Some (p, a, b) ->
     placed !! k = Some (p, a', b') -> forall i, ~ (a <= i < b /\ a' <= i < b')).

(** No event of the tree is a communications task ([event.find("comm")]). *)
Definition no_comm_events (root : list event) : bool :=
  forallb (fun e => negb (is_comm_event e)) root.

(** A task type that is neither comm-own nor comm-other. *)
Definition non_comm_label (t : string) : Prop :=
  t = "resman" \/ t = "sysmon-light" \/ t = "sysmon-scale".

(** The [startTime] of an event can be read by [_parse_time_string]. *)
Definition has_time (e : event) : Prop := is_Some (_parse_time_string (startTime e)).

(** Collaborators with no communication stems and an empty serialisation. *)
Definition no_stems_external : External := {|
  default_comm_stems := fun _ => [];
  wav_stems_under := fun _ => [];
  pretty_xml := fun _ _ => EmptyString
|}.

(** A one-minute session with one minute of automation and a single
    sysmon-light task. *)
Definition one_minute_params : MatbiiParams := {|
  min_seconds_event_diff := 20; max_seconds_event_diff := 21;
  session_duration_minutes := 1; min_seconds_fail_fix_resman := 20;
  max_seconds_fail_fix_resman := 90; min_seconds_to_indicate_no_comm := 90;
  seconds_before_comm_stop := 30; seconds_after_comm_start := 5;
  n_pump_failures := 0; n_own_comm := 0; n_other_comm := 0;
  n_green_red_issues := 1; n_systems_up_down := 0; total_auto_minutes := 1 |}.

Section ProofDefs.
Context {G : Type} `{NumpyRandom G}.

(** [k] successive in-place [np.random.shuffle] calls on one array. *)
Fixpoint shuffles (k : nat) (task_types : list string) : M G (list string) :=
  match k with
  | O => m_ret task_types
  | S k' => tt' <- shuffle task_types ;; shuffles k' tt'
  end.

(** [k] successive raw draws [rand_below n]. *)
Fixpoint draws (k : nat) (n : Z) (g : G) : list Z * G :=
  match k with
  | O => ([], g)
  | S k' => let '(x, g1) := rand_below n g in
            let '(xs, g2) := draws k' n g1 in (x :: xs, g2)
  end.

End ProofDefs.

(** ** Time codec *)

(** The indices [i, i+1, ...] of the entries of [xs] that satisfy [p]. *)
Fixpoint where_from {A} (p : A -> bool) (xs : list A) (i : nat) : list nat :=
  match xs with
  | [] => []
  | x :: r => if p x then i :: where_from p r (S i) else where_from p r (S i)
  end.

(** The event times, in order, of the task types satisfying [p]. *)
Definition times_of (p : string -> bool) (task_types : list string) (event_times : list Z)
    : list Z :=
  map snd (List.filter (fun te => p (fst te)) (zip task_types event_times)).

(** Consecutive entries of [xs] are at least [d] apart. *)
Definition gaps_at_least (d : Z) (xs : list Z) : Prop :=
  forall k x y, xs !! k = Some x -> xs !! S k = Some y -> d <= y - x.

(** A collaborator set for running the whole generator: eight default stems
    per ship and a serialiser that reports the number of events. *)
Definition demo_external : External := {|
  default_comm_stems := fun ship => repeat (String.append ship "_NAV1_118-5") 8;
  wav_stems_under := fun _ => [];
  pretty_xml := fun decl root => String.append decl (py_str_Z (Z.of_nat (length root))) |}.

(** [_get_seconds_from_elem] with an unparseable time read as 0. *)
Definition event_seconds (e : event) : Z :=
  match _parse_time_string (startTime e) with Some s => s | None => 0 end.

(** Keyed entries of the insertion sort. *)
Definition key_le (x y : Z * event) : Prop := fst x <= fst y.
Definition keyed (p : Z * event) : Prop := fst p = event_seconds (snd p).
Definition fk (k : Z) (p : Z * event) : bool := fst p =? k.

(** The action of a COMM scheduling event. *)
Definition comm_sched_act (e : event) : option string :=
  match body e with Sched "COMM" act "NULL" "NULL" => Some act | _ => None end.

(** Pump bitmaps of length [n], all zero. *)
Definition demo_pump_dict (n : nat) : gmap string (list Z) :=
  list_to_map (map (fun k => (k, repeat 0 n)) pump_keys).

(** Pump bitmaps that are all busy at second 1. *)
Definition busy_pump_dict : gmap string (list Z) :=
  list_to_map (map (fun k => (k, [0; 1; 0])) pump_keys).

(** The initial events and one communication task. *)
Definition demo_comm_root : list event :=
  initial_events ++ [mk_event (_format_seconds 200) (Some "Communications task")
                       (Comm "OWN" "NAV1" "118.5")].

(** A small stem dictionary. *)
Definition demo_stems : gmap string (list string) :=
  <["OTHER" := ["OTHER_COM2_126-5"]]> (<["OWN" := ["OWN_NAV1_118-5"; "OWN_COM1_121-5"]]> ∅).

Module CodecFacts.

Definition step (a : N) (c : ascii) : N := (10 * a + digit_val c)%N.
Definition value (l : list ascii) : N := fold_left step l 0%N.
Definition is_dc (c : ascii) : Prop := exists d, (d < 10)%N /\ c = digit_char d.

Lemma digit_char_spec (d : N) :
  (d < 10)%N ->
  is_digit (digit_char d) = true /\ digit_val (digit_char d) = d /\
  is_py_space (digit_char d) = false /\ Ascii.eqb (digit_char d) ":"%char = false /\
  Ascii.eqb (digit_char d) "-"%char = false /\ Ascii.eqb (digit_char d) "+"%char = false.
Proof.
  intros Hd. unfold digit_char, is_digit, digit_val, is_py_space.
  assert (Hk : (N.to_nat d < 10)%nat) by lia.
  rewrite nat_ascii_embedding by lia.
  destruct (N.to_nat d) as [|[|[|[|[|[|[|[|[|[|k]]]]]]]]]] eqn:E;
    try lia; repeat split; reflexivity || lia.
Qed.

Local Opaque digit_char.

Lemma fold_step_app (l1 l2 : list ascii) (a : N) :
  fold_left step (l1 ++ l2) a = fold_left step l2 (fold_left step l1 a).
Proof. apply fold_left_app. Qed.

Lemma digits_fuel_spec (f : nat) (n : N) :
  (N.to_nat n < f)%nat ->
  digits_fuel f n <> [] /\ Forall is_dc (digits_fuel f n) /\ value (digits_fuel f n) = n.
Proof.
  revert n. induction f as [|f IH]; intros n Hn; [lia|].
  simpl. destruct (N.ltb_spec n 10) as [Hlt|Hge].
  - split; [discriminate|]. split.
    + constructor; [exists n; split; auto|constructor].
    + unfold value; simpl. unfold step. destruct (digit_char_spec n Hlt) as (_ & -> & _). lia.
  - assert (Hq : (N.to_nat (n / 10) < f)%nat).
    { assert (n / 10 < n)%N by (apply N.div_lt; lia). lia. }
    destruct (IH _ Hq) as (Hne & Hall & Hv).
    assert (Hm : (n mod 10 < 10)%N) by (apply N.mod_lt; lia).
    split; [destruct (digits_fuel f (n / 10)); simpl; discriminate|]. split.
    + apply Forall_app; split; [exact Hall|]. constructor; [exists (n mod 10)%N; auto|constructor].
    + unfold value in *. rewrite fold_step_app, Hv. simpl. unfold step.
      destruct (digit_char_spec _ Hm) as (_ & -> & _).
      pose proof (N.div_mod n 10). lia.
Qed.

Lemma str_of_N_spec (n : N) :
  str_of_N n <> [] /\ Forall is_dc (str_of_N n) /\ value (str_of_N n) = n.
Proof. apply digits_fuel_spec. lia. Qed.

Lemma parse_digits_dc (l : list ascii) (acc : N) (prev : bool) :
  l <> [] -> Forall is_dc l -> parse_digits l acc prev = Some (fold_left step l acc).
Proof.
  revert acc prev. induction l as [|c l IH]; intros acc prev Hne Hall; [congruence|].
  inversion Hall as [|? ? [d [Hd ->]] Hl]; subst.
  destruct (digit_char_spec d Hd) as (Hdig & _). simpl. rewrite Hdig.
  destruct l as [|c' l'].
  - reflexivity.
  - apply IH; [discriminate|exact Hl].
Qed.

Lemma fold_zeros (k : nat) (l : list ascii) :
  fold_left step (repeat "0"%char k ++ l) 0%N = fold_left step l 0%N.
Proof. induction k; simpl; [reflexivity|exact IHk]. Qed.

Lemma zero_dc : is_dc "0"%char.
Proof. exists 0%N. split; [lia|reflexivity]. Qed.

Lemma Forall_repeat_dc (k : nat) : Forall is_dc (repeat "0"%char k).
Proof. induction k; constructor; [apply zero_dc|assumption]. Qed.

Lemma drop_spaces_id (l : list ascii) :
  Forall (fun c => is_py_space c = false) l -> drop_spaces l = l.
Proof. destruct l as [|c l]; intros H; [reflexivity|]. inversion H; subst. simpl. now rewrite H2. Qed.

Lemma strip_id (l : list ascii) :
  Forall (fun c => is_py_space c = false) l -> strip l = l.
Proof.
  intros H. unfold strip. rewrite (drop_spaces_id l H).
  rewrite drop_spaces_id; [apply rev_involutive|]. now apply Forall_rev.
Qed.

Lemma dc_not_space (l : list ascii) : Forall is_dc l -> Forall (fun c => is_py_space c = false) l.
Proof.
  intros H. eapply Forall_impl; [exact H|]. intros c [d [Hd ->]].
  now destruct (digit_char_spec d Hd) as (_ & _ & ? & _).
Qed.

Lemma dc_not_colon (l : list ascii) : Forall is_dc l -> Forall (fun c => Ascii.eqb c ":"%char = false) l.
Proof.
  intros H. eapply Forall_impl; [exact H|]. intros c [d [Hd ->]].
  now destruct (digit_char_spec d Hd) as (_ & _ & _ & ? & _).
Qed.

Lemma format_02d_shape (z : Z) :
  Forall (fun c => Ascii.eqb c ":"%char = false) (format_02d z) /\
  Forall (fun c => is_py_space c = false) (format_02d z).
Proof.
  unfold format_02d. destruct (str_of_N_spec (Z.to_N (- z))) as (_ & Hn & _).
  destruct (str_of_N_spec (Z.to_N z)) as (_ & Hp & _).
  destruct (z <? 0).
  - split; constructor; try reflexivity; [apply dc_not_colon|apply dc_not_space]; exact Hn.
  - assert (Forall is_dc (repeat "0"%char (2 - length (str_of_N (Z.to_N z))) ++ str_of_N (Z.to_N z))).
    { apply Forall_app; split; [apply Forall_repeat_dc|exact Hp]. }
    split; [apply dc_not_colon|apply dc_not_space]; assumption.
Qed.

Lemma py_int_format_02d (z : Z) : py_int (format_02d z) = Some z.
Proof.
  unfold py_int. rewrite strip_id by apply format_02d_shape.
  unfold format_02d. destruct (Z.ltb_spec z 0) as [Hneg|Hnn].
  - simpl. destruct (str_of_N_spec (Z.to_N (- z))) as (Hne & Hall & Hv).
    rewrite parse_digits_dc by assumption. simpl. fold (value (str_of_N (Z.to_N (- z)))).
    rewrite Hv. f_equal. lia.
  - destruct (str_of_N_spec (Z.to_N z)) as (Hne & Hall & Hv).
    set (s := str_of_N (Z.to_N z)) in *.
    assert (Hl : Forall is_dc (repeat "0"%char (2 - length s) ++ s)).
    { apply Forall_app; split; [apply Forall_repeat_dc|exact Hall]. }
    destruct (repeat "0"%char (2 - length s) ++ s) as [|c r] eqn:E.
    { destruct s; [congruence|]. destruct (2 - length (a :: s))%nat; discriminate. }
    inversion Hl as [|? ? [d [Hd ->]] _]; subst.
    destruct (digit_char_spec d Hd) as (_ & _ & _ & _ & Hm & Hp).
    rewrite Hm, Hp. rewrite <- E. rewrite parse_digits_dc by (rewrite E; discriminate || assumption).
    simpl. rewrite fold_zeros. fold (value s). rewrite Hv. f_equal. lia.
Qed.

Lemma split_on_no_sep (sep : ascii) (a : list ascii) :
  Forall (fun c => Ascii.eqb c sep = false) a -> split_on sep a = [a].
Proof.
  induction a as [|c a IH]; intros H; [reflexivity|]. inversion H; subst.
  simpl. rewrite IH by assumption. now rewrite H2.
Qed.

Lemma split_on_app_sep (sep : ascii) (a rest : list ascii) :
  Forall (fun c => Ascii.eqb c sep = false) a ->
  split_on sep (a ++ sep :: rest) = a :: split_on sep rest.
Proof.
  induction a as [|c a IH]; intros H; simpl.
  - now rewrite Ascii.eqb_refl.
  - inversion H; subst. rewrite IH by assumption. now rewrite H2.
Qed.

End CodecFacts.

(** Round trip of the time codec on every integer (negative ones included). *)
Lemma parse_format_seconds (s : Z) : _parse_time_string (_format_seconds s) = Some s.
Proof.
  unfold _parse_time_string, _format_seconds.
  rewrite list_ascii_of_string_of_list_ascii.
  rewrite CodecFacts.split_on_app_sep by apply CodecFacts.format_02d_shape.
  rewrite CodecFacts.split_on_app_sep by apply CodecFacts.format_02d_shape.
  rewrite CodecFacts.split_on_no_sep by apply CodecFacts.format_02d_shape.
  rewrite !CodecFacts.py_int_format_02d. f_equal.
  pose proof (Z.div_mod s 3600 ltac:(lia)).
  pose proof (Z.div_mod (s mod 3600) 60 ltac:(lia)).
  assert (Hm : (s mod 3600) mod 60 = s mod 60).
  { rewrite (Z.div_mod s 3600) at 2 by lia.
    replace (3600 * (s / 3600) + s mod 3600) with (s mod 3600 + (60 * (s / 3600)) * 60) by lia.
    now rewrite Z_mod_plus_full. }
  lia.
Qed.

(** ** Constraint checker and scheduler *)

Lemma lcg_random_in_range : rand_below_in_range Z.
Proof.
  intros n g Hn. simpl. destruct (Z.leb_spec n 0); [lia|]. apply Z.mod_pos_bound. lia.
Qed.

Lemma swap_perm {A} (i j : nat) (xs : list A) : swap i j xs ≡ₚ xs.
Proof.
  unfold swap. destruct (xs !! i) eqn:Ei, (xs !! j) eqn:Ej; try reflexivity.
  now apply Permutation_insert_swap.
Qed.

Section SchedulerFacts.
Context {G : Type} `{NumpyRandom G}.

Lemma shuffle_from_ok {A} (i : nat) (xs : list A) (g : G) :
  exists xs' g', shuffle_from i xs g = Ok xs' g' /\ xs' ≡ₚ xs.
Proof.
  revert xs g. induction i as [|i IH]; intros xs g.
  - exists xs, g. split; reflexivity.
  - cbn [shuffle_from]. unfold m_bind, draw_below. destruct (rand_below _ g) as [j g1].
    destruct (IH (swap (S i) (Z.to_nat j) xs) g1) as (xs' & g' & E & P).
    exists xs', g'. split; [exact E|]. rewrite P. apply swap_perm.
Qed.

Lemma shuffle_ok {A} (xs : list A) (g : G) :
  exists xs' g', shuffle xs g = Ok xs' g' /\ xs' ≡ₚ xs.
Proof.
  unfold shuffle. destruct (length xs).
  - exists xs, g. split; reflexivity.
  - apply shuffle_from_ok.
Qed.

End SchedulerFacts.

Lemma where_idx_fold {A} (p : A -> bool) (xs : list A) (acc : list nat) (i : nat) :
  Forall (fun k => k < i + length xs)%nat acc ->
  Forall (fun k => k < i + length xs)%nat
    (fst (fold_left (fun '(acc, i) x => (if p x then acc ++ [i] else acc, S i)) xs (acc, i))).
Proof.
  revert acc i. induction xs as [|x xs IH]; intros acc i Hacc; [exact Hacc|].
  simpl. simpl in Hacc. replace (i + S (length xs))%nat with (S i + length xs)%nat by lia.
  apply IH. replace (S i + length xs)%nat with (i + S (length xs))%nat by lia.
  destruct (p x); [|exact Hacc].
  apply Forall_app; split; [exact Hacc|]. constructor; [simpl; lia|constructor].
Qed.

Lemma where_idx_bound {A} (p : A -> bool) (xs : list A) :
  Forall (fun k => k < length xs)%nat (where_idx p xs).
Proof. apply (where_idx_fold p xs [] 0). constructor. Qed.

Lemma gather_ok {A} (xs : list A) (idx : list nat) :
  Forall (fun k => k < length xs)%nat idx -> exists ys, gather xs idx = inr ys.
Proof.
  unfold gather. induction idx as [|i idx IH]; intros Hb; [eexists; reflexivity|].
  inversion Hb as [|? ? Hi Hr]; subst. simpl.
  destruct (lookup_lt_is_Some_2 xs i Hi) as [x Ex]. rewrite Ex.
  destruct (IH Hr) as [ys Eys]. rewrite Eys. eexists; reflexivity.
Qed.

Lemma py_slice_window_nonempty {A} (xs : list A) (i : Z) :
  0 <= i < Z.of_nat (length xs) -> py_slice xs i (i + 3) <> [].
Proof.
  intros Hi. unfold py_slice, slice_index.
  destruct (Z.ltb_spec i 0); [lia|]. destruct (Z.ltb_spec (i + 3) 0); [lia|].
  destruct (drop (Z.to_nat (Z.min i (Z.of_nat (length xs)))) xs) as [|y ys] eqn:E.
  - apply (f_equal length) in E. rewrite length_drop in E. simpl in E. lia.
  - destruct (Z.to_nat (Z.min (i + 3) (Z.of_nat (length xs)) - Z.min i (Z.of_nat (length xs))))
      eqn:E2; [lia|]. simpl. discriminate.
Qed.

Lemma has_repeated_from_ok (k : nat) (i : Z) (array : list string) (max_repeats : Z) :
  0 <= i -> i + Z.of_nat k <= Z.of_nat (length array) - 2 ->
  exists b, has_repeated_from k i array max_repeats 3 = inr b.
Proof.
  revert i. induction k as [|k IH]; intros i Hi Hk; [eexists; reflexivity|].
  cbn [has_repeated_from]. unfold window_exceeds.
  destruct (py_slice array i (i + 3)) eqn:E.
  { exfalso. refine (py_slice_window_nonempty array i _ E). lia. }
  cbn [exc_bind]. destruct (existsb _ _); [eexists; reflexivity|].
  apply IH; lia.
Qed.

Lemma has_repeated_values_ok (array : list string) (max_repeats : Z) :
  exists b, _has_repeated_values array max_repeats 3 = inr b.
Proof.
  unfold _has_repeated_values.
  destruct (Z.to_nat (Z.of_nat (length array) - 3 + 1)) eqn:E; [eexists; reflexivity|].
  rewrite <- E. apply has_repeated_from_ok; lia.
Qed.

(** On aligned inputs the checker never raises. *)
Lemma check_task_times_comply_total (task_types : list string) (event_times : list Z)
    (b a m c1 c2 c3 L r : Z) :
  length task_types = length event_times ->
  exists c, _check_task_times_comply task_types event_times b a m c1 c2 c3 L r 3 = inr c.
Proof.
  intros Hlen. unfold _check_task_times_comply.
  repeat match goal with
  | |- context [gather ?xs ?idx] =>
      let l := fresh "l" in let E := fresh "E" in
      destruct (gather_ok xs idx) as [l E];
      [first [rewrite Hlen; apply where_idx_bound | rewrite <- Hlen; apply where_idx_bound]
      | rewrite E; cbn [exc_bind]]
  end.
  destruct (has_repeated_values_ok task_types r) as [rb Erb]. rewrite Erb. cbn [exc_bind].
  repeat match goal with |- context [if ?c then _ else _] => destruct c end;
  eexists; reflexivity.
Qed.

Section EnsureLoop.
Context {G : Type} `{NumpyRandom G}.
Variables (event_times : list Z) (b a m L : Z).

Let check (t : list string) : Exc bool :=
  _check_task_times_comply t event_times b a m 30 15 10 L 2 3.

Lemma ensure_loop_complied (f : nat) (n : Z) (tt : list string) (g : G) :
  ensure_loop f n true tt event_times b a m L g = Ok (n, true, tt) g.
Proof. destruct f; reflexivity. Qed.

Lemma ensure_loop_spec (f : nat) (n : Z) (tt : list string) (g : G) :
  length tt = length event_times -> (1 <= f)%nat ->
  n + Z.of_nat f = _N_ATTEMPTS_CHECK_TASK_TIME_COMPLY ->
  exists k comply tt' g',
    (1 <= k <= f)%nat /\
    shuffles k tt g = Ok tt' g' /\
    ensure_loop f n false tt event_times b a m L g = Ok (n + Z.of_nat k, comply, tt') g' /\
    check tt' = inr comply /\
    (forall j tj gj, (1 <= j < k)%nat -> shuffles j tt g = Ok tj gj -> check tj = inr false) /\
    (comply = false -> k = f) /\
    tt' ≡ₚ tt.
Proof.
  revert n tt g. induction f as [|f IH]; intros n tt g Hlen Hf Hn; [lia|].
  cbn [ensure_loop]. unfold _N_ATTEMPTS_CHECK_TASK_TIME_COMPLY in *.
  destruct (Z.ltb_spec n 100000); [|lia]. cbn [negb andb]. unfold m_bind at 1.
  destruct (shuffle_ok tt g) as (t1 & g1 & Es & Ps). rewrite Es.
  assert (Hl1 : length t1 = length event_times) by (rewrite (Permutation_length Ps); exact Hlen).
  destruct (check_task_times_comply_total t1 event_times b a m 30 15 10 L 2 Hl1) as [c1 Ec].
  unfold m_bind. rewrite Ec. cbn [m_lift m_ret].
  assert (Hs1 : shuffles 1 tt g = Ok t1 g1) by (cbn [shuffles]; unfold m_bind; rewrite Es; reflexivity).
  destruct c1.
  - rewrite ensure_loop_complied. exists 1%nat, true, t1, g1.
    repeat split; try lia; auto; intros j tj gj Hj; lia.
  - destruct f as [|f].
    + exists 1%nat, false, t1, g1. cbn [ensure_loop]. repeat split; try lia; auto;
      intros j tj gj Hj; lia.
    + destruct (IH (n + 1) t1 g1 Hl1 ltac:(lia) ltac:(lia))
        as (k & comply & tt' & g' & Hk & Esh & Eloop & Ech & Hprev & Hfail & Hp).
      exists (S k), comply, tt', g'. split; [lia|]. split.
      { cbn [shuffles]. unfold m_bind. rewrite Es. exact Esh. }
      split; [rewrite Eloop; f_equal; f_equal; f_equal; lia|].
      split; [exact Ech|]. split.
      { intros j tj gj Hj Ej. destruct j as [|[|j]]; [lia| |].
        - rewrite Hs1 in Ej. injection Ej as <- <-. exact Ec.
        - apply (Hprev (S j) tj gj); [lia|].
          cbn [shuffles] in Ej. unfold m_bind in Ej. rewrite Es in Ej. exact Ej. }
      split; [intros Hc; specialize (Hfail Hc); lia|].
      rewrite Hp. exact Ps.
Qed.

End EnsureLoop.

(** C1. On a task-type sequence aligned with [event_times],
    [ensure_task_times_comply] never raises.  It runs [k] attempts, with
    [1 <= k <= 100000]; attempt [j] is the [j]-th in-place [np.random.shuffle]
    of the array followed by the checker on the unchanged [event_times] (and
    the default thresholds).  Every attempt before the last is
    non-compliant; the returned flag is the verdict of the last attempt, and it
    is [False] only when all 100000 attempts were made.  The returned array is
    the last shuffle, a permutation of the input. *)
Theorem ensure_task_times_comply_spec {G} `{NumpyRandom G} (task_types : list string)
    (event_times : list Z) (before after min_fix L : Z) (g : G) :
  length task_types = length event_times ->
  exists k comply task_types' g',
    1 <= Z.of_nat k <= _N_ATTEMPTS_CHECK_TASK_TIME_COMPLY /\
    shuffles k task_types g = Ok task_types' g' /\
    ensure_loop (Z.to_nat _N_ATTEMPTS_CHECK_TASK_TIME_COMPLY) 0 false task_types event_times
      before after min_fix L g = Ok (Z.of_nat k, comply, task_types') g' /\
    ensure_task_times_comply task_types event_times before after min_fix L g
      = Ok (comply, task_types') g' /\
    _check_task_times_comply task_types' event_times before after min_fix 30 15 10 L 2 3
      = inr comply /\
    (forall j tj gj, (1 <= j < k)%nat -> shuffles j task_types g = Ok tj gj ->
       _check_task_times_comply tj event_times before after min_fix 30 15 10 L 2 3 = inr false) /\
    (comply = false -> Z.of_nat k = _N_ATTEMPTS_CHECK_TASK_TIME_COMPLY) /\
    task_types' ≡ₚ task_types.
Proof.
  intros Hlen.
  destruct (ensure_loop_spec event_times before after min_fix L
              (Z.to_nat _N_ATTEMPTS_CHECK_TASK_TIME_COMPLY) 0 task_types g Hlen)
    as (k & comply & tt' & g' & Hk & Esh & Eloop & Ech & Hprev & Hfail & Hp);
    [unfold _N_ATTEMPTS_CHECK_TASK_TIME_COMPLY; lia | unfold _N_ATTEMPTS_CHECK_TASK_TIME_COMPLY; lia |].
  exists k, comply, tt', g'. rewrite Z.add_0_l in Eloop.
  split; [unfold _N_ATTEMPTS_CHECK_TASK_TIME_COMPLY in *; lia|].
  split; [exact Esh|]. split; [exact Eloop|]. split.
  { unfold ensure_task_times_comply, m_bind. rewrite Eloop. reflexivity. }
  split; [exact Ech|]. split; [exact Hprev|]. split; [|exact Hp].
  intros Hc. rewrite (Hfail Hc). unfold _N_ATTEMPTS_CHECK_TASK_TIME_COMPLY. lia.
Qed.

Lemma ensure_task_times_comply_spec_witness :
  length ["comm-own"; "resman"; "sysmon-light"] = length [10; 50; 100] /\
  exists comply task_types' g',
    ensure_task_times_comply ["comm-own"; "resman"; "sysmon-light"] [10; 50; 100] 30 5 20 600 7
      = Ok (comply, task_types') g' /\
    task_types' ≡ₚ ["comm-own"; "resman"; "sysmon-light"].
Proof.
  split; [reflexivity|].
  destruct (ensure_task_times_comply_spec ["comm-own"; "resman"; "sysmon-light"] [10; 50; 100]
              30 5 20 600 7 eq_refl)
    as (k & comply & tt' & g' & _ & _ & _ & E & _ & _ & _ & P).
  exists comply, tt', g'. split; [exact E|exact P].
Defined.

(** C6. The checker accepts the specification's scenario: task types
    resman, sysmon-light, sysmon-scale, comm-own, sysmon-scale at times
    5, 20, 40, 50, 60 with the default thresholds are compliant. *)
Example check_task_times_comply_scenario :
  _check_task_times_comply ["resman"; "sysmon-light"; "sysmon-scale"; "comm-own"; "sysmon-scale"]
    [5; 20; 40; 50; 60] 30 5 20 30 15 10 600 2 3 = inr true.
Proof. vm_compute. reflexivity. Qed.

(** C8. For every integer [s] in [0, 359999],
    [_parse_time_string (_format_seconds s) = s]. *)
Theorem time_codec_roundtrip (s : Z) :
  0 <= s <= 359999 -> _parse_time_string (_format_seconds s) = Some s.
Proof. intros _. apply parse_format_seconds. Qed.

Lemma time_codec_roundtrip_witness :
  0 <= 359999 <= 359999 /\ _parse_time_string (_format_seconds 359999) = Some 359999.
Proof. split; [lia|]. apply (time_codec_roundtrip 359999). lia. Defined.

(** ** Task-type allocator *)

Section AllocatorFacts.
Context {G : Type} `{NumpyRandom G}.
Hypothesis rand_ok : rand_below_in_range G.

Lemma pad_task_types_spec (k : nat) (task_types : list string) (g : G) :
  exists pad,
    pad_task_types k task_types g = Ok (task_types ++ pad) (snd (draws k 5 g)) /\
    Forall2 (fun i lbl => task_type_vocabulary !! Z.to_nat i = Some lbl) (fst (draws k 5 g)) pad.
Proof.
  revert task_types g. induction k as [|k IH]; intros task_types g.
  - exists []. rewrite app_nil_r. split; [reflexivity|constructor].
  - cbn [pad_task_types draws]. unfold m_bind at 1, choice_list.
    replace (length task_type_vocabulary =? 0)%nat with false by reflexivity.
    change (Z.of_nat (length task_type_vocabulary)) with 5.
    unfold m_bind, draw_below.
    pose proof (rand_ok 5 g ltac:(lia)) as Hx.
    destruct (rand_below 5 g) as [x g1]. simpl in Hx. cbn beta iota zeta.
    destruct (task_type_vocabulary !! Z.to_nat x) as [lbl|] eqn:El;
      [|apply lookup_ge_None in El; simpl in El; lia].
    destruct (IH (task_types ++ [lbl]) g1) as (pad & E & F).
    destruct (draws k 5 g1) as [xs g2]. simpl in *.
    exists (lbl :: pad). rewrite <- app_assoc in E. split; [exact E|]. constructor; assumption.
Qed.

End AllocatorFacts.

Lemma draws_length {G} `{NumpyRandom G} (k : nat) (n : Z) (g : G) : length (fst (draws k n g)) = k.
Proof.
  revert g. induction k as [|k IH]; intros g; [reflexivity|].
  cbn [draws]. destruct (rand_below n g) as [x g1]. specialize (IH g1).
  destruct (draws k n g1) as [xs g2]. simpl in *. now rewrite IH.
Qed.

(** C7. [_adjust_task_types] returns a sequence as long as [event_times],
    together with the original number of task types and the number of event
    times.  A longer sequence is cut to its prefix of that length (no draw
    is made); a shorter one is extended by labels [task_type_vocabulary[i]]
    where the indices [i] are successive draws [randint(0, 5)], i.e.
    [np.random.choice] over the five-category vocabulary, with replacement. *)
Theorem adjust_task_types_spec {G} `{NumpyRandom G} (task_types : list string)
    (event_times : list Z) (g : G) :
  rand_below_in_range G ->
  exists task_types' g',
    _adjust_task_types task_types event_times g
      = Ok (task_types', Z.of_nat (length task_types), Z.of_nat (length event_times)) g' /\
    length task_types' = length event_times /\
    ((length event_times < length task_types)%nat ->
       task_types' = take (length event_times) task_types /\ g' = g) /\
    ((length task_types <= length event_times)%nat ->
       exists pad, task_types' = task_types ++ pad /\
         g' = snd (draws (length event_times - length task_types) 5 g) /\
         Forall2 (fun i lbl => task_type_vocabulary !! Z.to_nat i = Some lbl)
           (fst (draws (length event_times - length task_types) 5 g)) pad).
Proof.
  intros Hr. unfold _adjust_task_types.
  destruct (Nat.ltb_spec (length event_times) (length task_types)) as [Hlt|Hge].
  - exists (take (length event_times) task_types), g.
    split; [reflexivity|]. split; [rewrite length_take; lia|].
    split; [auto|]. intros; lia.
  - destruct (pad_task_types_spec Hr (length event_times - length task_types) task_types g)
      as (pad & E & F).
    pose proof (Forall2_length _ _ _ F) as Hpl. rewrite draws_length in Hpl.
    exists (task_types ++ pad), (snd (draws (length event_times - length task_types) 5 g)).
    assert (Hlen : length (task_types ++ pad) = length event_times)
      by (rewrite length_app; lia).
    destruct (Nat.ltb_spec (length task_types) (length event_times)).
    + unfold m_bind. rewrite E. split; [reflexivity|]. split; [exact Hlen|].
      split; [intros; lia|]. intros _. exists pad. auto.
    + assert (Hk : (length event_times - length task_types = 0)%nat) by lia.
      rewrite Hk in E, F |- *. inversion F; subst. rewrite app_nil_r.
      split; [reflexivity|]. split; [rewrite app_nil_r in Hlen; exact Hlen|].
      split; [intros; lia|]. intros _. exists []. rewrite app_nil_r. auto.
Qed.

Lemma adjust_task_types_spec_witness :
  rand_below_in_range Z /\
  exists task_types' g',
    _adjust_task_types ["resman"] [10; 20; 30] 0 = Ok (task_types', 1, 3) g' /\
    length task_types' = 3%nat.
Proof.
  split; [exact lcg_random_in_range|].
  destruct (adjust_task_types_spec ["resman"] [10; 20; 30] 0 lcg_random_in_range)
    as (tt' & g' & E & L & _).
  exists tt', g'. split; [exact E|exact L].
Defined.

(** ** Event-time sampler *)

Lemma draws_arange_range {G} `{NumpyRandom G} (k : nat) (lo hi : Z) (g : G) xs g' :
  rand_below_in_range G -> lo < hi -> draws_arange k lo hi g = Ok xs g' ->
  Forall (fun x => lo <= x < hi) xs.
Proof.
  intros Hr Hlt. revert g xs g'. induction k as [|k IH]; intros g xs g' E.
  - cbn in E. injection E as <- _. constructor.
  - cbn [draws_arange] in E. unfold m_bind, draw_below in E.
    pose proof (Hr (hi - lo) g ltac:(lia)) as Hx.
    destruct (rand_below (hi - lo) g) as [x g1]. simpl in Hx.
    destruct (draws_arange k lo hi g1) as [ys g2|e] eqn:Ed; [|discriminate].
    cbn in E. injection E as <- _. constructor; [lia|]. exact (IH g1 ys g2 Ed).
Qed.

Lemma wrap64_id (z : Z) : - 2 ^ 63 <= z < 2 ^ 63 -> wrap64 z = z.
Proof. intros Hz. unfold wrap64. rewrite Z.mod_small by lia. lia. Qed.

Lemma draws_arange_length {G} `{NumpyRandom G} (k : nat) (lo hi : Z) (g : G) xs g' :
  draws_arange k lo hi g = Ok xs g' -> length xs = k.
Proof.
  revert g xs g'. induction k as [|k IH]; intros g xs g' E.
  - cbn in E. injection E as <- _. reflexivity.
  - cbn [draws_arange] in E. unfold m_bind, draw_below in E.
    destruct (rand_below (hi - lo) g) as [x g1].
    destruct (draws_arange k lo hi g1) as [ys g2|e] eqn:Ed; [|discriminate].
    cbn in E. injection E as <- _. cbn [length]. f_equal. exact (IH g1 ys g2 Ed).
Qed.

Lemma round_half_even_le (a b : Z) : 1 <= b -> round_half_even a b <= Z.max a 0 + 1.
Proof.
  intros Hb. unfold round_half_even. destruct (Z.ltb_spec b 0); [lia|].
  pose proof (Z.mul_div_le a b ltac:(lia)) as Hd.
  assert (Hq : a / b <= Z.max a 0).
  { destruct (Z.leb_spec 0 (a / b)); [nia|lia]. }
  repeat match goal with |- context [if ?c then _ else _] => destruct c end; lia.
Qed.

(** Below [2^63] the [int64] cumulative sums of positive gaps do not wrap. *)
Lemma cumsum_from_increasing (mn B acc : Z) (xs : list Z) :
  1 <= mn -> 0 <= acc -> Forall (fun d => mn <= d <= B) xs ->
  acc + Z.of_nat (length xs) * B < 2 ^ 63 ->
  StronglySorted Z.lt (cumsum_from acc xs) /\ Forall (fun t => acc + mn <= t) (cumsum_from acc xs).
Proof.
  intros Hmn. revert acc. induction xs as [|x xs IH]; intros acc Hacc Hall Hb.
  - split; constructor.
  - inversion Hall as [|? ? Hx Hr]; subst. cbn [cumsum_from].
    cbn [length] in Hb. rewrite Nat2Z.inj_succ in Hb.
    rewrite wrap64_id by nia.
    destruct (IH (acc + x) ltac:(lia) Hr ltac:(nia)) as [Hs Hf].
    split.
    + constructor; [exact Hs|]. eapply Forall_impl; [exact Hf|]. intros t Ht; simpl in Ht; lia.
    + constructor; [lia|]. eapply Forall_impl; [exact Hf|]. intros t Ht; simpl in Ht; lia.
Qed.

Lemma StronglySorted_filter_lt (f : Z -> bool) (l : list Z) :
  StronglySorted Z.lt l -> StronglySorted Z.lt (List.filter f l).
Proof.
  induction l as [|x l IH]; intros Hs; [constructor|].
  apply StronglySorted_inv in Hs as [Hs Hf]. simpl. destruct (f x); [|auto].
  constructor; [auto|]. apply List.Forall_forall. intros y Hy.
  apply filter_In in Hy as [Hy _]. exact (proj1 (List.Forall_forall _ _) Hf y Hy).
Qed.

(** C4 as stated fails: with [min_seconds_event_diff = 10],
    [max_seconds_event_diff = 11] and [session_duration_seconds = 35] the
    sampler returns [[10]], and [10 < 35 - 25] is false (the filter keeps
    [t <= session_duration_seconds - 25]). *)
Lemma generate_random_events_keeps_boundary :
  ~ (forall ts g', generate_random_events 10 11 35 0 = Ok ts g' ->
       StronglySorted Z.lt ts /\ Forall (fun t => 10 <= t < 35 - 25) ts).
Proof.
  intros H.
  assert (E : exists g', generate_random_events 10 11 35 0 = Ok [10] g')
    by (eexists; vm_compute; reflexivity).
  destruct E as [g' E]. destruct (H _ _ E) as [_ Hf].
  inversion Hf as [|? ? Ht _]; subst. lia.
Qed.

(** C4 (corrected). For [1 <= min_seconds_event_diff < max_seconds_event_diff <= 2^31]
    and [session_duration_seconds <= 2^31] (so that the [int64] cumulative
    sums of the at most [2^31 + 1] gaps cannot wrap around), every array
    returned by [generate_random_events] is strictly increasing, and each
    element [t] satisfies
    [min_seconds_event_diff <= t <= session_duration_seconds - 25]: the
    candidate cumulative sums strictly above [session_duration_seconds - 25]
    are discarded, and one equal to it is kept. *)
Theorem generate_random_events_spec {G} `{NumpyRandom G} (min_diff max_diff L : Z) (g : G)
    (event_times : list Z) (g' : G) :
  rand_below_in_range G -> 1 <= min_diff < max_diff -> max_diff <= 2 ^ 31 -> L <= 2 ^ 31 ->
  generate_random_events min_diff max_diff L g = Ok event_times g' ->
  StronglySorted Z.lt event_times /\ Forall (fun t => min_diff <= t <= L - 25) event_times.
Proof.
  intros Hr Hd Hmax HL E. unfold generate_random_events in E.
  destruct (Z.eqb_spec min_diff 0); [lia|]. unfold m_bind, choice_arange_size in E.
  pose proof (round_half_even_le L min_diff ltac:(lia)) as Hsize.
  set (size := round_half_even L min_diff) in E, Hsize.
  destruct (Z.ltb_spec size 0); [discriminate|].
  destruct (Z.eqb_spec size 0).
  { cbn in E. injection E as <- _. split; constructor. }
  destruct (Z.leb_spec max_diff min_diff); [lia|].
  destruct (draws_arange (Z.to_nat size) min_diff max_diff g) as [diffs g1|e] eqn:Ed;
    [|discriminate].
  cbn in E. injection E as <- _.
  pose proof (draws_arange_range (Z.to_nat size) min_diff max_diff g diffs g1 Hr ltac:(lia) Ed) as Hdiffs.
  pose proof (draws_arange_length (Z.to_nat size) min_diff max_diff g diffs g1 Ed) as Hlen.
  assert (Hb : 0 + Z.of_nat (length diffs) * (max_diff - 1) < 2 ^ 63).
  { rewrite Hlen, Z2Nat.id by lia.
    assert (size * (max_diff - 1) <= (2 ^ 31 + 1) * (2 ^ 31 - 1))
      by (apply Z.mul_le_mono_nonneg; lia).
    lia. }
  destruct (cumsum_from_increasing min_diff (max_diff - 1) 0 diffs ltac:(lia) ltac:(lia)) as [Hs Hf];
    [eapply Forall_impl; [exact Hdiffs|]; intros x Hx; simpl in Hx; lia|exact Hb|].
  split; [apply StronglySorted_filter_lt; exact Hs|].
  apply List.Forall_forall. intros t Ht. apply filter_In in Ht as [Hin Hle].
  unfold _GRACE_SECONDS_BEFORE_SESSION_DURATION in Hle. apply Z.leb_le in Hle.
  pose proof (proj1 (List.Forall_forall _ _) Hf t Hin) as Hlo. simpl in Hlo. lia.
Qed.

Lemma generate_random_events_spec_witness :
  rand_below_in_range Z /\ 1 <= 10 < 35 /\ 35 <= 2 ^ 31 /\ 600 <= 2 ^ 31 /\
  exists event_times g', generate_random_events 10 35 600 0 = Ok event_times g' /\
    StronglySorted Z.lt event_times /\ Forall (fun t => 10 <= t <= 600 - 25) event_times.
Proof.
  split; [exact lcg_random_in_range|]. split; [lia|]. split; [lia|]. split; [lia|].
  destruct (generate_random_events 10 35 600 0) as [ts g'|e] eqn:E;
    [|vm_compute in E; discriminate].
  exists ts, g'. split; [reflexivity|].
  exact (generate_random_events_spec 10 35 600 0 ts g' lcg_random_in_range ltac:(lia) ltac:(lia)
           ltac:(lia) E).
Defined.

(** ** Determinism of the generator *)

(** C3. With [random_state = Some seed], the result of
    [matbii_generate_random_xml] (XML text, task-type count and event-time
    count, or the exception raised) does not depend on numpy's random state
    before the call: two calls with the same seed and parameters return the
    same value (and leave the same random state). *)
Theorem matbii_generate_random_xml_deterministic {G} `{NumpyRandom G} (fuel : nat)
    (ext : External) (seed : Z) (p : MatbiiParams) (comm_stems_path : option string)
    (g1 g2 : G) :
  matbii_generate_random_xml fuel ext (Some seed) p comm_stems_path g1 =
  matbii_generate_random_xml fuel ext (Some seed) p comm_stems_path g2.
Proof.
  (* the first action, [np.random.seed], overwrites the state *)
  unfold matbii_generate_random_xml, matbii_task_phase, _initialize_matbii_generation, m_seed.
  destruct ((0 <=? seed) && (seed <? 2 ^ 32)); reflexivity.
Qed.

(** ** Outer retry loop *)

Section SaveFacts.
Context {G : Type} `{NumpyRandom G}.
Variables (generate : Z -> M G (string * Z * Z)) (n_tt n_et : Z -> Z) (max_attempts : Z).
Hypothesis generate_counts :
  forall s g, exists xml g', generate s g = Ok (xml, n_tt s, n_et s) g'.

(** [k] calls that all return mismatched counts. *)
Lemma save_loop_mismatches (k : nat) : forall f attempts seed nt ne rx g,
  nt <> ne -> (k <= f)%nat -> attempts + Z.of_nat k <= max_attempts ->
  (forall i, (i < k)%nat -> n_tt (seed + Z.of_nat i) <> n_et (seed + Z.of_nat i)) ->
  exists rx' g' nt' ne', nt' <> ne' /\
    save_loop f generate max_attempts nt ne attempts seed rx g =
    save_loop (f - k) generate max_attempts nt' ne' (attempts + Z.of_nat k) (seed + Z.of_nat k) rx' g'.
Proof.
  induction k as [|k IH]; intros f attempts seed nt ne rx g Hne Hf Ha Hmis.
  - exists rx, g, nt, ne. split; [exact Hne|]. now rewrite Nat.sub_0_r, !Z.add_0_r.
  - destruct f as [|f]; [lia|]. cbn [save_loop].
    destruct (Z.eqb_spec nt ne); [contradiction|].
    destruct (Z.ltb_spec attempts max_attempts); [|lia]. cbn [negb andb].
    unfold m_bind. destruct (generate_counts seed g) as (xml & g1 & E). rewrite E.
    destruct (IH f (attempts + 1) (seed + 1) (n_tt seed) (n_et seed) (Some xml) g1)
      as (rx' & g' & nt' & ne' & Hne' & Eq).
    + specialize (Hmis 0%nat ltac:(lia)). rewrite Z.add_0_r in Hmis. exact Hmis.
    + lia.
    + lia.
    + intros i Hi. specialize (Hmis (S i) ltac:(lia)).
      replace (seed + 1 + Z.of_nat i) with (seed + Z.of_nat (S i)) by lia. exact Hmis.
    + exists rx', g', nt', ne'. split; [exact Hne'|]. rewrite Eq. simpl (S f - S k)%nat.
      f_equal; lia.
Qed.

End SaveFacts.

(** C2 fails on the code: with the default [max_attempts = 100], when the
    first 99 calls of the generator return mismatched counts and the 100th
    (seed + 99) returns equal counts, the loop stops with [attempts = 100]
    and [generate_and_save_xml] logs the error and writes no file. *)
Theorem generate_and_save_xml_drops_last_match {G} `{NumpyRandom G}
    (generate : Z -> M G (string * Z * Z)) (n_tt n_et : Z -> Z) (seed : Z)
    (condition version : string) (tutorial_minutes : Z) (g : G) :
  (forall s g, exists xml g', generate s g = Ok (xml, n_tt s, n_et s) g') ->
  (forall i, 0 <= i < 99 -> n_tt (seed + i) <> n_et (seed + i)) ->
  n_tt (seed + 99) = n_et (seed + 99) ->
  exists g', generate_and_save_xml generate seed condition version tutorial_minutes MAX_ATTEMPTS g
             = Ok LoggedError g'.
Proof.
  intros Hgen Hmis Hlast. unfold generate_and_save_xml, MAX_ATTEMPTS.
  destruct (save_loop_mismatches generate n_tt n_et 100 Hgen 99 (Z.to_nat 100) 0 seed (-1) 0 None g)
    as (rx' & g' & nt' & ne' & Hne & Eq); [lia|cbn; lia|lia| |].
  { intros i Hi. apply Hmis. lia. }
  unfold m_bind at 1. rewrite Eq.
  replace (Z.to_nat 100 - 99)%nat with 1%nat by reflexivity.
  replace (0 + Z.of_nat 99) with 99 by reflexivity.
  replace (seed + Z.of_nat 99) with (seed + 99) by lia.
  cbn [save_loop]. destruct (Z.eqb_spec nt' ne'); [contradiction|].
  replace (99 <? 100) with true by reflexivity. cbn [negb andb].
  unfold m_bind. destruct (Hgen (seed + 99) g') as (xml & g1 & E). rewrite E.
  (* the 100th call is the last one whatever its counts: [attempts] is now 100 *)
  cbn [save_loop m_ret].
  exists g1. reflexivity.
Qed.

Lemma generate_and_save_xml_drops_last_match_witness :
  exists g', generate_and_save_xml (counts_match_only_at 99) 0 "high" "a" 10 MAX_ATTEMPTS 0
             = Ok LoggedError g'.
Proof.
  apply (generate_and_save_xml_drops_last_match (counts_match_only_at 99) (fun _ => 27)
           (fun s => if s =? 99 then 27 else 26) 0 "high" "a" 10 0).
  - intros s g. exists "<MATB-EVENTS/>", g. reflexivity.
  - intros i Hi. destruct (Z.eqb_spec (0 + i) 99); lia.
  - reflexivity.
Defined.

(** The same run, evaluated: seeds 0 .. 98 give 27 task types and 26 event
    times, seed 99 gives 27 and 27, and no file is written. *)
Example generate_and_save_xml_last_attempt_run :
  generate_and_save_xml (counts_match_only_at 99) 0 "high" "a" 10 MAX_ATTEMPTS 0 = Ok LoggedError 0.
Proof. vm_compute. reflexivity. Qed.

(** ** Resource-management placement *)

Lemma pump_name_in_range (x : Z) :
  0 <= x < 7 -> In (String.append "P" (py_str_Z (1 + x))) ["P1"; "P2"; "P3"; "P4"; "P5"; "P6"; "P7"].
Proof.
  intros Hx.
  assert (Hc : x = 0 \/ x = 1 \/ x = 2 \/ x = 3 \/ x = 4 \/ x = 5 \/ x = 6) by lia.
  destruct Hc as [->|[->|[->|[->|[->|[->| ->]]]]]]; vm_compute; tauto.
Qed.

(** C5 fails on the code: the pump is ["P" + str(np.random.randint(1, 8))],
    and [randint]'s upper bound is exclusive, so every placement picks one of
    the seven units P1 .. P7; the unit P8, whose bitmap [_generate_tasks]
    allocates, is never selected. *)
Theorem select_pump_only_seven_units {G} `{NumpyRandom G} (fuel : nat)
    (fail_time_seconds fix_time_seconds : Z) (pump_failed_dict : gmap string (list Z)) (g : G)
    pump pump_failed_dict' g' :
  rand_below_in_range G ->
  select_pump fuel fail_time_seconds fix_time_seconds pump_failed_dict g
    = Ok (pump, pump_failed_dict') g' ->
  In pump ["P1"; "P2"; "P3"; "P4"; "P5"; "P6"; "P7"] /\ pump <> "P8".
Proof.
  intros Hr. revert g. induction fuel as [|fuel IH]; intros g E; [discriminate|].
  cbn [select_pump] in E. unfold m_bind at 1, randint in E.
  replace (8 <=? 1) with false in E by reflexivity.
  unfold m_bind, draw_below in E. pose proof (Hr (8 - 1) g ltac:(lia)) as Hx.
  destruct (rand_below (8 - 1) g) as [x g1]. simpl in Hx. cbn [m_ret] in E.
  destruct (pump_failed_dict !! String.append "P" (py_str_Z (1 + x))) as [bm|]; [|discriminate].
  destruct (all_zero_slice bm fail_time_seconds fix_time_seconds).
  - injection E as <- _ _. pose proof (pump_name_in_range x ltac:(lia)) as Hin.
    split; [exact Hin|]. intros Heq. rewrite Heq in Hin. vm_compute in Hin. intuition discriminate.
  - exact (IH g1 E).
Qed.

Lemma select_pump_only_seven_units_witness :
  rand_below_in_range Z /\
  exists pump d' g',
    select_pump 10 100 130
      (match initial_pump_failed_dict 200 with inr d => d | inl _ => ∅ end) 0
      = Ok (pump, d') g' /\ pump <> "P8".
Proof.
  split; [exact lcg_random_in_range|].
  set (d0 := match initial_pump_failed_dict 200 with inr d => d | inl _ => ∅ end).
  assert (Hok : match select_pump 10 100 130 d0 0 with Ok _ _ => True | Err _ => False end)
    by (vm_compute; exact I).
  destruct (select_pump 10 100 130 d0 0) as [[pump d'] g'|e] eqn:E; [|contradiction].
  exists pump, d', g'. split; [reflexivity|].
  exact (proj2 (select_pump_only_seven_units 10 100 130 d0 0 pump d' g' lcg_random_in_range E)).
Defined.

Section ResmanFacts.
Context {G : Type} `{NumpyRandom G}.

Lemma draw_fix_time_spec (f : nat) (time : string) (mn mx len fail0 fix0 : Z) (g : G) a b g' :
  draw_fix_time f time mn mx len fail0 fix0 g = Ok (a, b) g' ->
  (a = fail0 /\ b = fix0 /\ fix0 < len - 1) \/ (_parse_time_string time = Some a /\ b < len - 1).
Proof.
  revert fail0 fix0 g. induction f as [|f IH]; intros fail0 fix0 g E;
    cbn [draw_fix_time] in E; rewrite Z.geb_leb in E;
    (destruct (Z.leb_spec (len - 1) fix0); [|injection E as -> -> _; left; auto]).
  - discriminate.
  - unfold m_bind in E. destruct (choice_arange mn mx g) as [diff g1|e]; [|discriminate].
    destruct (_parse_time_string time) as [s|] eqn:Ep; [|discriminate].
    cbn [m_ret] in E. destruct (IH _ _ _ E) as [(-> & -> & Hlt)|Hr]; right; auto.
Qed.

Lemma select_pump_spec (f : nat) (a b : Z) (d : gmap string (list Z)) (g : G) pump d' g' :
  select_pump f a b d g = Ok (pump, d') g' ->
  exists bm, d !! pump = Some bm /\ all_zero_slice bm a b = true /\
             d' = <[pump := set_slice bm a b 1]> d.
Proof.
  revert g. induction f as [|f IH]; intros g E; [discriminate|].
  cbn [select_pump] in E. unfold m_bind at 1, randint in E.
  replace (8 <=? 1) with false in E by reflexivity.
  unfold m_bind, draw_below in E. destruct (rand_below (8 - 1) g) as [x g1]. cbn [m_ret] in E.
  destruct (d !! String.append "P" (py_str_Z (1 + x))) as [bm|] eqn:Ebm; [|discriminate].
  destruct (all_zero_slice bm a b) eqn:Hz.
  - injection E as <- <- _. eauto.
  - exact (IH g1 E).
Qed.

End ResmanFacts.

Lemma slice_index_in (len x : Z) : 0 <= x <= len -> slice_index len x = x.
Proof. intros Hx. unfold slice_index. destruct (Z.ltb_spec x 0); lia. Qed.

Lemma all_zero_slice_spec (bm : list Z) (a b : Z) :
  0 <= a -> b <= Z.of_nat (length bm) -> all_zero_slice bm a b = true ->
  forall i, a <= i < b -> bm !! Z.to_nat i = Some 0.
Proof.
  intros Ha Hb Hz i Hi. unfold all_zero_slice, py_slice in Hz.
  rewrite !slice_index_in in Hz by lia.
  destruct (lookup_lt_is_Some_2 bm (Z.to_nat i)) as [x Ex]; [lia|].
  assert (Hl : take (Z.to_nat (b - a)) (drop (Z.to_nat a) bm) !! Z.to_nat (i - a) = Some x).
  { rewrite lookup_take_lt by lia. rewrite lookup_drop.
    replace (Z.to_nat a + Z.to_nat (i - a))%nat with (Z.to_nat i) by lia. exact Ex. }
  apply list_elem_of_lookup_2, list_elem_of_In in Hl.
  pose proof (proj1 (forallb_forall _ _) Hz x Hl) as Hx. apply Z.eqb_eq in Hx. subst. exact Ex.
Qed.

Lemma set_slice_length (bm : list Z) (a b v : Z) : length (set_slice bm a b v) = length bm.
Proof. apply length_imap. Qed.

Lemma set_slice_keeps (bm : list Z) (a b : Z) (i : nat) :
  bm !! i = Some 1 -> set_slice bm a b 1 !! i = Some 1.
Proof.
  intros Ei. unfold set_slice. rewrite list_lookup_imap, Ei. simpl.
  destruct (_ && _); reflexivity.
Qed.

Lemma set_slice_marks (bm : list Z) (a b i : Z) :
  0 <= a -> b <= Z.of_nat (length bm) -> a <= i < b -> set_slice bm a b 1 !! Z.to_nat i = Some 1.
Proof.
  intros Ha Hb Hi. unfold set_slice. rewrite list_lookup_imap.
  destruct (lookup_lt_is_Some_2 bm (Z.to_nat i)) as [x ->]; [lia|]. simpl.
  rewrite !slice_index_in by lia.
  destruct (Z.leb_spec a (Z.of_nat (Z.to_nat i))); [|lia].
  destruct (Z.ltb_spec (Z.of_nat (Z.to_nat i)) b); [reflexivity|lia].
Qed.

Lemma resman_invariant_initial (L : Z) (d : gmap string (list Z)) :
  initial_pump_failed_dict L = inr d -> resman_invariant (Z.to_nat L) d [].
Proof.
  intros E. unfold initial_pump_failed_dict, np_zeros in E.
  destruct (Z.ltb_spec L 0); [discriminate|]. unfold exc_bind in E.
  assert (Ed : d = list_to_map (map (fun k => (k, repeat 0 (Z.to_nat L))) pump_keys))
    by congruence.
  split; [|split].
  - intros p bm Ep. rewrite Ed in Ep.
    apply elem_of_list_to_map_2, list_elem_of_In, in_map_iff in Ep.
    destruct Ep as (k & Ek & _). injection Ek as _ <-. apply repeat_length.
  - intros p a b [].
  - intros j k p a b a' b' _ Ej. rewrite lookup_nil in Ej. discriminate.
Qed.

(** C9. Placing one resman task preserves [resman_invariant]: if the failures
    placed so far satisfy it and the task's time is a non-negative second
    [t], then [_generate_resman_task] adds a fail event at [t] and a fix event
    at some [fix_time_seconds] for one unit, and the invariant holds with
    that failure [(unit, t, fix_time_seconds)] added.  In particular the
    intervals of one unit stay pairwise disjoint: the unit is only marked
    after its bitmap was checked to be all zero over the new interval. *)
Theorem resman_placement_preserves_disjointness {G} `{NumpyRandom G} (fuel : nat)
    (root : list event) (time : string) (min_fix max_fix : Z)
    (d : gmap string (list Z)) (placed : list placement) (L : nat) (t : Z) (g : G)
    root' d' g' :
  resman_invariant L d placed ->
  _parse_time_string time = Some t -> 0 <= t ->
  _generate_resman_task fuel root time min_fix max_fix d g = Ok (root', d') g' ->
  exists pump fix_time_seconds,
    root' = root ++ [mk_event time (Some "Resman task - Fail") (ResmanFail pump);
                     mk_event (_format_seconds fix_time_seconds) (Some "Resman task - Fix")
                       (ResmanFix pump)] /\
    resman_invariant L d' (placed ++ [(pump, t, fix_time_seconds)]).
Proof.
  intros (Hlen & Hmark & Hdisj) Ht Ht0 E.
  unfold _generate_resman_task in E. destruct (d !! "P1") as [p1|] eqn:E1; [|discriminate].
  unfold m_bind in E.
  destruct (draw_fix_time fuel time min_fix max_fix (Z.of_nat (length p1)) 0
              (Z.of_nat (length p1)) g) as [[a b] g1|e] eqn:Ed; [|discriminate].
  apply draw_fix_time_spec in Ed as [(_ & _ & Hc)|(Ha & Hb)]; [lia|].
  rewrite Ht in Ha. injection Ha as <-.
  destruct (select_pump fuel t b d g1) as [[pump d2] g2|e] eqn:Es; [|discriminate].
  cbn [m_ret] in E. injection E as <- <- _.
  apply select_pump_spec in Es as (bm & Ebm & Hz & ->).
  pose proof (Hlen _ _ E1) as Hp1. pose proof (Hlen _ _ Ebm) as Hbm.
  (* the new interval [t, b) is free in the unit's bitmap *)
  assert (Hfree : forall i, t <= i < b -> bm !! Z.to_nat i = Some 0)
    by (apply all_zero_slice_spec; [lia|lia|exact Hz]).
  assert (Hold : forall a1 b1 i, In (pump, a1, b1) placed -> ~ (a1 <= i < b1 /\ t <= i < b)).
  { intros a1 b1 i Hin [Hi1 Hi2]. destruct (Hmark _ _ _ Hin) as (_ & bm' & Ep & Hm).
    rewrite Ebm in Ep. injection Ep as <-. specialize (Hm i Hi1). rewrite (Hfree i Hi2) in Hm.
    discriminate. }
  exists pump, b. split; [reflexivity|]. split; [|split].
  - intros p bm' Ep. destruct (decide (p = pump)) as [->|Hne].
    + rewrite lookup_insert_eq in Ep. injection Ep as <-. rewrite set_slice_length. exact Hbm.
    + rewrite lookup_insert_ne in Ep by congruence. eauto.
  - intros p a' b' Hin. apply in_app_or in Hin as [Hin|[Heq|[]]].
    + destruct (Hmark p a' b' Hin) as (Ha' & bm' & Ep & Hm). split; [exact Ha'|].
      destruct (decide (p = pump)) as [->|Hne].
      * rewrite Ebm in Ep. injection Ep as <-. exists (set_slice bm t b 1).
        split; [apply lookup_insert_eq|]. intros i Hi. apply set_slice_keeps, Hm, Hi.
      * exists bm'. rewrite lookup_insert_ne by congruence. auto.
    + injection Heq as <- <- <-. split; [exact Ht0|]. exists (set_slice bm t b 1).
      split; [apply lookup_insert_eq|]. intros i Hi. apply set_slice_marks; lia.
  - intros j k p a1 b1 a2 b2 Hjk Ej Ek i.
    apply lookup_app_Some in Ej, Ek.
    destruct Ej as [Ej|[Hj Ej]], Ek as [Ek|[Hk Ek]].
    + exact (Hdisj j k p a1 b1 a2 b2 Hjk Ej Ek i).
    + apply list_lookup_singleton_Some in Ek as [_ Ek]. injection Ek as <- <- <-.
      apply Hold. apply list_elem_of_In. exact (list_elem_of_lookup_2 _ _ _ Ej).
    + apply list_lookup_singleton_Some in Ej as [_ Ej]. injection Ej as <- <- <-.
      intros [Hi1 Hi2]. apply (Hold a2 b2 i); [|tauto].
      apply list_elem_of_In. exact (list_elem_of_lookup_2 _ _ _ Ek).
    + apply list_lookup_singleton_Some in Ej as [Hj0 _].
      apply list_lookup_singleton_Some in Ek as [Hk0 _]. lia.
Qed.

Lemma resman_placement_preserves_disjointness_witness :
  let d0 := match initial_pump_failed_dict 200 with inr d => d | inl _ => ∅ end in
  resman_invariant 200 d0 [] /\ _parse_time_string (_format_seconds 100) = Some 100 /\
  exists root' d' g',
    _generate_resman_task 100 [] (_format_seconds 100) 20 90 d0 0 = Ok (root', d') g' /\
    exists pump fix_time_seconds, resman_invariant 200 d' [(pump, 100, fix_time_seconds)].
Proof.
  intros d0.
  assert (Hinv : resman_invariant 200 d0 []) by (apply (resman_invariant_initial 200); reflexivity).
  assert (Hp : _parse_time_string (_format_seconds 100) = Some 100) by (vm_compute; reflexivity).
  split; [exact Hinv|]. split; [exact Hp|].
  assert (Hok : match _generate_resman_task 100 [] (_format_seconds 100) 20 90 d0 0 with
                | Ok _ _ => True | Err _ => False end) by (vm_compute; exact I).
  destruct (_generate_resman_task 100 [] (_format_seconds 100) 20 90 d0 0)
    as [[root' d'] g'|e] eqn:E; [|contradiction].
  exists root', d', g'. split; [reflexivity|].
  destruct (resman_placement_preserves_disjointness 100 [] (_format_seconds 100) 20 90 d0 []
              200 100 0 root' d' g' Hinv Hp ltac:(lia) E) as (pump & fx & _ & Hi).
  exists pump, fx. exact Hi.
Defined.

(** ** Session framing of a tree without communication events *)

Lemma insert_by_key_in (x y : Z * event) (l : list (Z * event)) :
  In y (insert_by_key x l) -> y = x \/ In y l.
Proof.
  induction l as [|z l IH]; cbn [insert_by_key].
  - intros [H|[]]; left; congruence.
  - destruct (fst x <? fst z); cbn [In].
    + intros [H|H]; [left; congruence|right; exact H].
    + intros [H|H]; [right; left; exact H|]. destruct (IH H); [left|right; right]; auto.
Qed.

Lemma fold_insert_in (l acc : list (Z * event)) (y : Z * event) :
  In y (fold_left (fun acc x => insert_by_key x acc) l acc) -> In y l \/ In y acc.
Proof.
  revert acc. induction l as [|x l IH]; intros acc H; cbn [fold_left] in H; [right; exact H|].
  destruct (IH _ H) as [H1|H1]; [left; right; exact H1|].
  apply insert_by_key_in in H1 as [->|H1]; [left; left; reflexivity|right; exact H1].
Qed.

Lemma exc_mapM_total {A B} (f : A -> Exc B) (xs : list A) :
  Forall (fun x => exists y, f x = inr y) xs -> exists ys, exc_mapM f xs = inr ys.
Proof.
  induction 1 as [|x xs [y Hy] _ [ys Hys]]; [exists []; reflexivity|].
  exists (y :: ys). cbn [exc_mapM]. rewrite Hy, Hys. reflexivity.
Qed.

(** [sorted] only rearranges the events of the tree. *)
Lemma sort_events_in (root sorted : list event) (e : event) :
  _sort_events_by_seconds root = inr sorted -> In e sorted -> In e root.
Proof.
  unfold _sort_events_by_seconds, exc_bind.
  destruct (exc_mapM (fun e => match _parse_time_string (startTime e) with
                               | Some k => inr k | None => inl ValueError end) root)
    as [|keys]; [discriminate|].
  intros Hs Hin. injection Hs as <-.
  apply in_map_iff in Hin as ([k e'] & <- & Hin).
  apply fold_insert_in in Hin as [Hin|[]]. exact (in_combine_r _ _ _ _ Hin).
Qed.

(** The sort raises only when a [startTime] cannot be parsed. *)
Lemma sort_events_total (root : list event) :
  Forall has_time root -> exists sorted, _sort_events_by_seconds root = inr sorted.
Proof.
  intros Hall. unfold _sort_events_by_seconds.
  destruct (exc_mapM_total (fun e => match _parse_time_string (startTime e) with
                                     | Some k => inr k | None => inl ValueError end) root)
    as [keys Ek].
  { eapply Forall_impl; [exact Hall|]. intros e [y Hy]. exists y. rewrite Hy. reflexivity. }
  rewrite Ek. eexists. reflexivity.
Qed.

Lemma get_comm_task_times_none (root : list event) :
  no_comm_events root = true -> _get_comm_task_times root = inr [].
Proof.
  unfold no_comm_events, _get_comm_task_times. intros Hn.
  replace (List.filter is_comm_event root) with (@nil event); [reflexivity|].
  induction root as [|e r IH]; [reflexivity|]. cbn [forallb] in Hn.
  apply andb_prop in Hn as [He Hr]. cbn [List.filter].
  destruct (is_comm_event e); [discriminate|]. exact (IH Hr).
Qed.

Lemma no_comm_events_in (l l' : list event) :
  (forall e, In e l' -> In e l) -> no_comm_events l = true -> no_comm_events l' = true.
Proof.
  unfold no_comm_events. rewrite !forallb_forall. intros Hsub Hl e He. exact (Hl e (Hsub e He)).
Qed.

Lemma has_time_format (s : Z) (c : option string) (b : action) :
  has_time (mk_event (_format_seconds s) c b).
Proof. unfold has_time. cbn [startTime]. rewrite parse_format_seconds. eexists; reflexivity. Qed.

#[local] Hint Resolve has_time_format : core.

(** [_generate_auto_and_comm_start_stop] on a tree with no comm event: the
    automation draw [np.random.choice(np.arange(5, max_seconds_auto))] raises
    [ValueError] when the range is empty; otherwise [comm_task_times[0]] raises
    [IndexError]. *)
Lemma auto_and_comm_without_comm {G} `{NumpyRandom G} (root : list event)
    (L auto no_comm before after : Z) (g : G) :
  Forall has_time root -> no_comm_events root = true ->
  _generate_auto_and_comm_start_stop root L auto no_comm before after g =
  Err (if 5 <? L - auto * 60 - 5 then IndexError else ValueError).
Proof.
  intros Ht Hn. unfold _generate_auto_and_comm_start_stop, choice_arange, randint.
  cbv zeta. destruct (Z.leb_spec (L - auto * 60 - 5) 5) as [Hle|Hlt].
  - replace (5 <? L - auto * 60 - 5) with false by (symmetry; apply Z.ltb_ge; lia). reflexivity.
  - replace (5 <? L - auto * 60 - 5) with true by (symmetry; apply Z.ltb_lt; lia).
    unfold m_bind, draw_below, m_ret. destruct (rand_below (L - auto * 60 - 5 - 5) g) as [x g1].
    set (root2 := _generate_auto_task root (5 + x) auto L).
    assert (Ht2 : Forall has_time root2).
    { unfold root2, _generate_auto_task. apply Forall_app; split; [exact Ht|].
      repeat (constructor; [apply has_time_format|]); constructor. }
    assert (Hn2 : no_comm_events root2 = true).
    { unfold root2, _generate_auto_task, no_comm_events. rewrite forallb_app.
      unfold no_comm_events in Hn. rewrite Hn. reflexivity. }
    destruct (sort_events_total root2 Ht2) as [sorted Es].
    unfold _generate_all_comm_start_stop, exc_bind. rewrite Es.
    rewrite get_comm_task_times_none.
    + reflexivity.
    + apply (no_comm_events_in root2); [|exact Hn2]. intros e. apply sort_events_in. exact Es.
Qed.

Lemma resman_task_shape {G} `{NumpyRandom G} (fuel : nat) (root : list event) (time : string)
    (mn mx : Z) (d : gmap string (list Z)) (g : G) root' d' g' :
  _generate_resman_task fuel root time mn mx d g = Ok (root', d') g' ->
  exists pump fix_time_seconds,
    root' = root ++ [mk_event time (Some "Resman task - Fail") (ResmanFail pump);
                     mk_event (_format_seconds fix_time_seconds) (Some "Resman task - Fix")
                       (ResmanFix pump)].
Proof.
  unfold _generate_resman_task, m_bind. intros E.
  destruct (d !! "P1") as [p1|]; [|discriminate].
  destruct (draw_fix_time fuel time mn mx (Z.of_nat (length p1)) 0 (Z.of_nat (length p1)) g)
    as [[a b] g1|e]; [|discriminate].
  destruct (select_pump fuel a b d g1) as [[pump d2] g2|e]; [|discriminate].
  cbn [m_ret] in E. injection E as <- _ _. eauto.
Qed.

Lemma sysmon_task_shape {G} `{NumpyRandom G} (root : list event) (time sub : string) (g : G)
    root' g' :
  _generate_sysmon_task root time sub g = Ok root' g' ->
  exists e, root' = root ++ [e] /\ startTime e = time /\ is_comm_event e = false.
Proof.
  unfold _generate_sysmon_task, m_bind. intros E. destruct (String.eqb sub "light").
  - destruct (choice_list ["GREEN"; "RED"] g) as [c g1|e]; [|discriminate].
    cbn [m_ret] in E. injection E as <- _. eexists; split; [reflexivity|auto].
  - destruct (choice_list ["ONE"; "TWO"; "THREE"; "FOUR"] g) as [n g1|e]; [|discriminate].
    destruct (choice_list ["UP"; "DOWN"] g1) as [dir g2|e]; [|discriminate].
    cbn [m_ret] in E. injection E as <- _. eexists; split; [reflexivity|auto].
Qed.

Lemma comm_task_shape (root : list event) (time stem : string) root' :
  _generate_comm_task root time stem = inr root' ->
  exists e, root' = root ++ [e] /\ startTime e = time.
Proof.
  unfold _generate_comm_task, exc_bind. cbv zeta. intros E.
  repeat (cbv beta iota in E;
          match type of E with
          | context [match ?x with Some _ => _ | None => _ end] => destruct x
          end; try discriminate E).
  injection E as <-. eexists; split; reflexivity.
Qed.

(** One materialisation step appends events with parseable times, and no
    comm event for a resman or sysmon label. *)
Lemma random_task_step_shape {G} `{NumpyRandom G} (fuel : nat) (mn mx : Z)
    (st : list event * gmap string (list Z) * gmap string (list string))
    (tt : string) (et : Z) (g : G) st' g' :
  random_task_step fuel mn mx st tt et g = Ok st' g' ->
  exists added, fst (fst st') = fst (fst st) ++ added /\ Forall has_time added /\
    (non_comm_label tt -> no_comm_events added = true).
Proof.
  destruct st as [[root d] stems]. unfold random_task_step, m_bind. intros E.
  destruct (String.eqb tt "resman") eqn:Er.
  - destruct (_generate_resman_task fuel root (_format_seconds et) mn mx d g)
      as [[root' d'] g1|e] eqn:E1; [|discriminate].
    cbn [m_ret] in E. injection E as <- _.
    apply resman_task_shape in E1 as (pump & fx & ->).
    eexists; split; [reflexivity|]. split; [|reflexivity].
    repeat (constructor; [apply has_time_format|]); constructor.
  - destruct (String.eqb (default EmptyString (py_split "-" tt !! 0%nat)) "sysmon") eqn:Es.
    + destruct (py_split "-" tt !! 1%nat) as [sub|]; [|discriminate].
      destruct (_generate_sysmon_task root (_format_seconds et) sub g) as [root' g1|e] eqn:E1;
        [|discriminate].
      cbn [m_ret] in E. injection E as <- _.
      apply sysmon_task_shape in E1 as (e & -> & Et & Ec).
      exists [e]. split; [reflexivity|]. split.
      * constructor; [|constructor]. unfold has_time. rewrite Et, parse_format_seconds.
        eexists; reflexivity.
      * intros _. unfold no_comm_events. cbn [forallb]. rewrite Ec. reflexivity.
    + destruct (String.eqb (default EmptyString (py_split "-" tt !! 0%nat)) "comm") eqn:Ec.
      * destruct (py_split "-" tt !! 1%nat) as [s|]; [|discriminate].
        destruct (stems !! py_upper s) as [stems_s|]; [|discriminate].
        destruct (last stems_s) as [stem|]; [|discriminate].
        destruct (_generate_comm_task root (_format_seconds et) stem) as [e|root'] eqn:E1;
          [discriminate|].
        cbn [m_lift m_ret] in E. injection E as <- _.
        apply comm_task_shape in E1 as (e & -> & Et).
        exists [e]. split; [reflexivity|]. split.
        -- constructor; [|constructor]. unfold has_time. rewrite Et, parse_format_seconds.
           eexists; reflexivity.
        -- unfold non_comm_label; intros [-> | [-> | ->]]; vm_compute in Er, Es; discriminate.
      * cbn [m_ret] in E. injection E as <- _. exists []. rewrite app_nil_r.
        split; [reflexivity|]. split; [constructor|reflexivity].
Qed.

Lemma random_tasks_shape {G} `{NumpyRandom G} (fuel : nat) (tts : list string) (ets : list Z)
    (mn mx : Z) (st : list event * gmap string (list Z) * gmap string (list string)) (g : G)
    st' g' :
  _generate_random_tasks fuel tts ets mn mx st g = Ok st' g' ->
  exists added, fst (fst st') = fst (fst st) ++ added /\ Forall has_time added /\
    (Forall non_comm_label tts -> no_comm_events added = true).
Proof.
  revert ets st g. induction tts as [|t tts IH]; intros ets st g E.
  - cbn [_generate_random_tasks m_ret] in E. injection E as <- _.
    exists []. rewrite app_nil_r. split; [reflexivity|]. split; [constructor|reflexivity].
  - destruct ets as [|et ets]; cbn [_generate_random_tasks] in E.
    + cbn [m_ret] in E. injection E as <- _.
      exists []. rewrite app_nil_r. split; [reflexivity|]. split; [constructor|reflexivity].
    + unfold m_bind in E.
      destruct (random_task_step fuel mn mx st t et g) as [st1 g1|e] eqn:E1; [|discriminate].
      apply random_task_step_shape in E1 as (a1 & H1 & T1 & C1).
      destruct (IH ets st1 g1 E) as (a2 & H2 & T2 & C2).
      exists (a1 ++ a2). rewrite H2, H1, app_assoc. split; [reflexivity|].
      split; [apply Forall_app; split; assumption|].
      intros Hall. inversion Hall as [|? ? Ht Hts]; subst.
      unfold no_comm_events in *. rewrite forallb_app, C1, C2 by assumption. reflexivity.
Qed.

Lemma ensure_loop_perm {G} `{NumpyRandom G} (f : nat) (n : Z) (c : bool) (tt : list string)
    (ets : list Z) (b a m L : Z) (g : G) n' c' tt' g' :
  ensure_loop f n c tt ets b a m L g = Ok (n', c', tt') g' -> tt' ≡ₚ tt.
Proof.
  revert n c tt g. induction f as [|f IH]; intros n c tt g E; cbn [ensure_loop] in E.
  - cbn [m_ret] in E. injection E as _ _ <- _. reflexivity.
  - destruct (negb c && (n <? _N_ATTEMPTS_CHECK_TASK_TIME_COMPLY)).
    + unfold m_bind in E. destruct (shuffle_ok tt g) as (t1 & g1 & Es & Ps). rewrite Es in E.
      destruct (m_lift (_check_task_times_comply t1 ets b a m 30 15 10 L 2 3) g1)
        as [c1 g2|e]; [|discriminate].
      rewrite (IH _ _ _ _ E). exact Ps.
    + cbn [m_ret] in E. injection E as _ _ <- _. reflexivity.
Qed.

Lemma ensure_perm {G} `{NumpyRandom G} (tt : list string) (ets : list Z) (b a m L : Z) (g : G)
    c' tt' g' :
  ensure_task_times_comply tt ets b a m L g = Ok (c', tt') g' -> tt' ≡ₚ tt.
Proof.
  unfold ensure_task_times_comply, m_bind. intros E.
  destruct (ensure_loop (Z.to_nat _N_ATTEMPTS_CHECK_TASK_TIME_COMPLY) 0 false tt ets b a m L g)
    as [[[n c] t] g1|e] eqn:E1; [|discriminate].
  cbn [m_ret] in E. injection E as _ <- _. exact (ensure_loop_perm _ _ _ _ _ _ _ _ _ _ _ _ _ _ E1).
Qed.

(** [_generate_tasks] appends events with parseable times; it appends none
    when the scheduler gives up, and no comm event when every label is a
    resman or sysmon label. *)
Lemma generate_tasks_shape {G} `{NumpyRandom G} (fuel : nat) (root : list event)
    (tts : list string) (ets : list Z) (stems : gmap string (list string))
    (mn mx L b a : Z) (g : G) root' g' :
  _generate_tasks fuel root tts ets stems mn mx L b a g = Ok root' g' ->
  exists added, root' = root ++ added /\ Forall has_time added /\
    (Forall non_comm_label tts -> no_comm_events added = true) /\
    (forall tt1 g1, ensure_task_times_comply tts ets b a mn L g = Ok (false, tt1) g1 ->
                    added = []).
Proof.
  unfold _generate_tasks, m_bind. intros E.
  destruct (initial_pump_failed_dict L) as [e|d]; cbn [m_lift m_raise m_ret] in E;
    [discriminate|].
  destruct (ensure_task_times_comply tts ets b a mn L g) as [[comply tt1] g1|e] eqn:Ee;
    [|discriminate].
  destruct comply.
  - destruct (_generate_random_tasks fuel tt1 ets mn mx (root, d, stems) g1)
      as [[[r1 d1] s1] g2|e] eqn:Er; [|discriminate].
    cbn [m_ret] in E. injection E as <- _.
    apply random_tasks_shape in Er as (added & H1 & T1 & C1). cbn [fst] in H1.
    exists added. split; [exact H1|]. split; [exact T1|]. split.
    + intros Hall. apply C1. rewrite (ensure_perm _ _ _ _ _ _ _ _ _ _ Ee). exact Hall.
    + intros tt2 g3 Ee'. discriminate Ee'.
  - cbn [m_ret] in E. injection E as <- _. exists []. rewrite app_nil_r.
    split; [reflexivity|]. split; [constructor|]. split; [reflexivity|auto].
Qed.

Lemma initial_events_have_time : Forall has_time initial_events.
Proof. repeat constructor; unfold has_time; vm_compute; eexists; reflexivity. Qed.

Lemma task_phase_has_time {G} `{NumpyRandom G} (fuel : nat) (ext : External)
    (random_state : option Z) (p : MatbiiParams) (comm_stems_path : option string) (g : G)
    root n1 n2 g1 :
  matbii_task_phase fuel ext random_state p comm_stems_path g = Ok (root, n1, n2) g1 ->
  Forall has_time root.
Proof.
  unfold matbii_task_phase, _initialize_matbii_generation, m_bind, m_ret. intros E.
  destruct (m_seed random_state g) as [[] g0|e]; [|discriminate].
  destruct (_get_comm_stems ext comm_stems_path g0) as [stems g2|e]; [|discriminate].
  repeat (cbv beta iota zeta in E;
          match type of E with
          | context [match ?c with Ok _ _ => _ | Err _ => _ end] =>
              let Ec := fresh "Ec" in destruct c eqn:Ec; [|discriminate E]
          | context [match ?v with pair _ _ => _ end] => is_var v; destruct v
          end).
  match goal with
  | Eg : _generate_tasks _ _ _ _ _ _ _ _ _ _ _ = Ok _ _ |- _ =>
      apply generate_tasks_shape in Eg as (added & -> & T & _)
  end.
  cbv beta iota in E. injection E as <- _ _ _.
  change (Forall has_time (initial_events ++ added)).
  apply Forall_app; split; [exact initial_events_have_time|exact T].
Qed.

(** C10 (as stated: always [IndexError]).  In a one-minute session with one
    minute of automation and a single sysmon-light task, the tree reaching
    session framing has no comm event, yet [matbii_generate_random_xml]
    raises [ValueError], not [IndexError]: [np.random.choice(np.arange(5, -5))]
    draws from an empty range before the comm task times are read. *)
Lemma framing_without_comm_not_index_error :
  ~ (forall (g : Z) root n1 n2 g1,
       matbii_task_phase 10 no_stems_external (Some 0) one_minute_params None g =
         Ok (root, n1, n2) g1 ->
       no_comm_events root = true ->
       matbii_generate_random_xml 10 no_stems_external (Some 0) one_minute_params None g =
         Err IndexError).
Proof.
  intros Hall.
  assert (Hok : match matbii_task_phase 10 no_stems_external (Some 0) one_minute_params None 0 with
                | Ok (root, _, _) _ => no_comm_events root = true
                | Err _ => False end) by (vm_compute; reflexivity).
  destruct (matbii_task_phase 10 no_stems_external (Some 0) one_minute_params None 0)
    as [[[root n1] n2] g1|e] eqn:E; [|contradiction].
  specialize (Hall 0 root n1 n2 g1 E Hok).
  assert (Hv : matbii_generate_random_xml 10 no_stems_external (Some 0) one_minute_params None 0
               = Err ValueError) by (vm_compute; reflexivity).
  rewrite Hv in Hall. discriminate.
Qed.

(** C10 (corrected).  If the event tree built before session framing has no
    communication event, [matbii_generate_random_xml] raises instead of
    returning: [IndexError] (from [comm_task_times[0]] in
    [_generate_all_comm_start_stop]) when the automation-start range
    [[5, session_duration_seconds - total_auto_minutes * 60 - 5)] is non-empty,
    and otherwise [ValueError] from [np.random.choice] on that empty range,
    raised first.  Such a tree arises because the initial tree has no comm
    event and [_generate_tasks] adds none: it leaves the tree unchanged when
    [ensure_task_times_comply] returns [False], and it adds no comm event when
    every task type is resman, sysmon-light or sysmon-scale. *)
Theorem framing_without_comm_raises {G} `{NumpyRandom G} (fuel : nat) (ext : External)
    (random_state : option Z) (p : MatbiiParams) (comm_stems_path : option string) (g : G)
    (root : list event) (n_task_types n_event_times : Z) (g1 : G) :
  matbii_task_phase fuel ext random_state p comm_stems_path g =
    Ok (root, n_task_types, n_event_times) g1 ->
  no_comm_events root = true ->
  matbii_generate_random_xml fuel ext random_state p comm_stems_path g =
    Err (if 5 <? session_duration_minutes p * 60 - total_auto_minutes p * 60 - 5
         then IndexError else ValueError) /\
  no_comm_events initial_events = true /\
  (forall root0 tts ets stems mn mx L b a g0 root' g' tt1 g2,
     _generate_tasks fuel root0 tts ets stems mn mx L b a g0 = Ok root' g' ->
     ensure_task_times_comply tts ets b a mn L g0 = Ok (false, tt1) g2 ->
     root' = root0) /\
  (forall root0 tts ets stems mn mx L b a g0 root' g',
     Forall non_comm_label tts ->
     _generate_tasks fuel root0 tts ets stems mn mx L b a g0 = Ok root' g' ->
     no_comm_events root' = no_comm_events root0).
Proof.
  intros Ep Hn. split; [|split; [reflexivity|split]].
  - pose proof (task_phase_has_time fuel ext random_state p comm_stems_path g root
                  n_task_types n_event_times g1 Ep) as Ht.
    unfold matbii_generate_random_xml, m_bind. cbv beta. rewrite Ep. cbv beta iota zeta.
    rewrite (auto_and_comm_without_comm root _ _ _ _ _ g1 Ht Hn). reflexivity.
  - intros root0 tts ets stems mn mx L b a g0 root' g' tt1 g2 Eg Ee.
    apply generate_tasks_shape in Eg as (added & -> & _ & _ & Hf).
    rewrite (Hf tt1 g2 Ee). apply app_nil_r.
  - intros root0 tts ets stems mn mx L b a g0 root' g' Hall Eg.
    apply generate_tasks_shape in Eg as (added & -> & _ & Hc & _).
    unfold no_comm_events in *. rewrite forallb_app, (Hc Hall). apply andb_true_r.
Qed.

Lemma framing_without_comm_raises_witness :
  exists root n1 n2 g1,
    matbii_task_phase 10 no_stems_external (Some 0) one_minute_params None 0 =
      Ok (root, n1, n2) g1 /\
    no_comm_events root = true /\
    matbii_generate_random_xml 10 no_stems_external (Some 0) one_minute_params None 0 =
      Err ValueError.
Proof.
  assert (Hok : match matbii_task_phase 10 no_stems_external (Some 0) one_minute_params None 0 with
                | Ok (root, _, _) _ => no_comm_events root = true
                | Err _ => False end) by (vm_compute; reflexivity).
  destruct (matbii_task_phase 10 no_stems_external (Some 0) one_minute_params None 0)
    as [[[root n1] n2] g1|e] eqn:E; [|contradiction].
  exists root, n1, n2, g1. split; [reflexivity|]. split; [exact Hok|].
  exact (proj1 (framing_without_comm_raises 10 no_stems_external (Some 0) one_minute_params None
                  0 root n1 n2 g1 E Hok)).
Defined.


Module TextFacts.

Lemma not_boundary_not_cr (c : ascii) :
  is_line_boundary c = false -> Ascii.eqb c (ascii_of_nat 13) = false.
Proof.
  intros H. destruct (Ascii.eqb_spec c (ascii_of_nat 13)) as [->|]; [discriminate H|reflexivity].
Qed.

Lemma splitlines_no_boundary (n : nat) (l : list ascii) : (length l <= n)%nat ->
  Forall (fun line => Forall (fun c => is_line_boundary c = false) line) (splitlines l).
Proof.
  revert l. induction n as [|n IH]; intros [|c r] Hl; cbn [length] in Hl;
    try (cbn; constructor); try lia.
  cbn [splitlines].
  destruct (Ascii.eqb c (ascii_of_nat 13)) eqn:Ecr.
  - destruct r as [|d r'].
    + repeat constructor.
    + cbn [length] in Hl.
      destruct (Ascii.eqb d newline); constructor; try constructor; apply IH; cbn [length]; lia.
  - destruct (is_line_boundary c) eqn:Eb.
    + constructor; [constructor | apply IH; lia].
    + pose proof (IH r ltac:(lia)) as Hr. destruct (splitlines r) as [|p ps].
      * repeat constructor. exact Eb.
      * inversion Hr; subst. constructor; [constructor; assumption | assumption].
Qed.

Lemma splitlines_single (l : list ascii) :
  l <> [] -> Forall (fun c => is_line_boundary c = false) l -> splitlines l = [l].
Proof.
  induction l as [|c r IH]; intros Hne H; [congruence|].
  inversion H; subst. cbn [splitlines].
  rewrite not_boundary_not_cr by assumption. rewrite H2.
  destruct r as [|d r']; [reflexivity|].
  rewrite IH by (congruence || assumption). reflexivity.
Qed.

Lemma splitlines_app_newline (l rest : list ascii) :
  Forall (fun c => is_line_boundary c = false) l ->
  splitlines (l ++ newline :: rest) = l :: splitlines rest.
Proof.
  induction l as [|c r IH]; intros H; [reflexivity|].
  inversion H; subst. cbn [app splitlines].
  rewrite not_boundary_not_cr by assumption. rewrite H2.
  rewrite IH by assumption. reflexivity.
Qed.

Lemma splitlines_join (ls : list (list ascii)) :
  Forall (fun l => l <> [] /\ Forall (fun c => is_line_boundary c = false) l) ls ->
  splitlines (py_join [newline] ls) = ls.
Proof.
  induction ls as [|l ls IH]; intros H; [reflexivity|].
  inversion H as [|? ? [Hne Hb] Hls]; subst.
  destruct ls as [|l2 ls'].
  - cbn [py_join]. now apply splitlines_single.
  - change (py_join [newline] (l :: l2 :: ls')) with (l ++ [newline] ++ py_join [newline] (l2 :: ls')).
    cbn [app]. rewrite splitlines_app_newline by assumption. now rewrite IH.
Qed.

Lemma filter_idem {A} (p : A -> bool) (l : list A) :
  List.filter p (List.filter p l) = List.filter p l.
Proof.
  induction l as [|x l IH]; [reflexivity|]. cbn [List.filter].
  destruct (p x) eqn:E; cbn [List.filter]; [rewrite E|]; congruence.
Qed.

Lemma strip_nonempty (l : list ascii) : strip l <> [] -> l <> [].
Proof. intros H ->. apply H. reflexivity. Qed.

(** [_remove_blank_lines] keeps exactly the lines whose stripped text is not empty, in order, and applying it twice gives the same text as applying it once. *)
Theorem remove_blank_lines_spec (txt : list ascii) :
  splitlines (_remove_blank_lines txt) =
    List.filter (fun line => match strip line with [] => false | _ => true end) (splitlines txt) /\
  _remove_blank_lines (_remove_blank_lines txt) = _remove_blank_lines txt.
Proof.
  assert (Hs : splitlines (_remove_blank_lines txt) =
    List.filter (fun line => match strip line with [] => false | _ => true end) (splitlines txt)).
  { unfold _remove_blank_lines. apply splitlines_join.
    pose proof (splitlines_no_boundary (length txt) txt (le_n _)) as Hb.
    induction (splitlines txt) as [|l ls IH]; [constructor|].
    inversion Hb; subst. cbn [List.filter].
    destruct (strip l) eqn:Es; [now apply IH|].
    constructor; [|now apply IH]. split; [|assumption].
    apply strip_nonempty. rewrite Es. discriminate. }
  split; [exact Hs|].
  unfold _remove_blank_lines at 1. rewrite Hs.
  unfold _remove_blank_lines. f_equal. apply filter_idem.
Qed.

Lemma is_prefix_app (p s : list ascii) : is_prefix p (p ++ s) = true.
Proof. induction p as [|c p IH]; [reflexivity|]. cbn. now rewrite Ascii.eqb_refl, IH. Qed.

Lemma is_infix_notin (c : ascii) (p s : list ascii) : ~ In c s -> is_infix (c :: p) s = false.
Proof.
  induction s as [|d s IH]; intros H; [reflexivity|].
  cbn [is_infix is_prefix]. destruct (Ascii.eqb_spec c d) as [->|]; [now destruct H; left|].
  cbn. apply IH. intros Hin. apply H. now right.
Qed.

Lemma is_prefix_tabs_short (m k : nat) (s : list ascii) :
  (k < m)%nat -> ~ In tab s -> is_prefix (tabs m) (tabs k ++ s) = false.
Proof.
  revert m. induction k as [|k IH]; intros m Hlt Hs.
  - destruct m as [|m]; [lia|]. destruct s as [|d s]; [reflexivity|].
    change (tabs (S m)) with (tab :: tabs m). cbn [app is_prefix tabs repeat].
    destruct (Ascii.eqb_spec tab d) as [Heq|]; [subst d; now destruct Hs; left|reflexivity].
  - destruct m as [|m]; [lia|].
    change (tabs (S m)) with (tab :: tabs m). change (tabs (S k)) with (tab :: tabs k).
    cbn [app is_prefix]. rewrite Ascii.eqb_refl. apply IH; [lia|assumption].
Qed.

Lemma is_infix_tabs_short (m k : nat) (s : list ascii) :
  (k < m)%nat -> ~ In tab s -> is_infix (tabs m) (tabs k ++ s) = false.
Proof.
  intros Hlt Hs. destruct m as [|m]; [lia|].
  induction k as [|k IH].
  - apply is_infix_notin. exact Hs.
  - assert (Hp := is_prefix_tabs_short (S m) (S k) s ltac:(lia) Hs).
    change (tabs (S k) ++ s) with (tab :: (tabs k ++ s)) in *.
    cbn [is_infix]. rewrite Hp. cbn [orb]. apply IH. lia.
Qed.

Lemma py_replace_fuel_notin (f : nat) (p new s : list ascii) :
  ~ In tab s -> py_replace_fuel f (tab :: p) new s = s.
Proof.
  revert s. induction f as [|f IH]; intros s Hs; [reflexivity|].
  destruct s as [|d s]; [reflexivity|]. cbn [py_replace_fuel is_prefix].
  destruct (Ascii.eqb_spec tab d) as [Heq|]; [subst d; now destruct Hs; left|].
  cbn [andb]. rewrite IH; [reflexivity|]. intros Hin. apply Hs. now right.
Qed.

Lemma py_replace_tabs (k : nat) (s : list ascii) :
  ~ In tab s -> py_replace (tabs (S k)) (tabs k) (tabs (S k) ++ s) = tabs k ++ s.
Proof.
  intros Hs. unfold py_replace.
  assert (Hp := is_prefix_app (tabs (S k)) s).
  assert (Hd : drop (length (tabs (S k))) (tabs (S k) ++ s) = s) by apply drop_app_length.
  change (tabs (S k) ++ s) with (tab :: (tabs k ++ s)) in *.
  cbn [py_replace_fuel]. rewrite Hp, Hd. f_equal.
  change (tabs (S k)) with (tab :: tabs k). apply py_replace_fuel_notin. exact Hs.
Qed.

Lemma is_infix_of_prefix (p l : list ascii) : is_prefix p l = true -> is_infix p l = true.
Proof. intros H. destruct l; cbn [is_infix]; rewrite H; reflexivity. Qed.

Lemma remove_indent_loop_removed (js : list nat) (line : list ascii) :
  remove_indent_loop js line true = line.
Proof.
  induction js as [|j js IH]; [reflexivity|]. cbn. rewrite andb_false_r. exact IH.
Qed.

Lemma remove_indent_loop_untouched (js : list nat) (s : list ascii) :
  ~ In tab s -> remove_indent_loop js s false = s.
Proof.
  intros Hs. induction js as [|j js IH]; [reflexivity|]. cbn [remove_indent_loop].
  change (tabs (S j)) with (tab :: tabs j). rewrite is_infix_notin by exact Hs. exact IH.
Qed.

Lemma remove_indent_loop_seq (n k : nat) (s : list ascii) :
  (1 <= k <= n)%nat -> ~ In tab s ->
  remove_indent_loop (rev (seq 0 n)) (tabs k ++ s) false = tabs (k - 1) ++ s.
Proof.
  intros Hk Hs. induction n as [|n IH]; [lia|].
  rewrite seq_S, rev_app_distr. cbn [rev app remove_indent_loop].
  destruct (Nat.eq_dec k (S n)) as [->|Hne].
  - rewrite is_infix_of_prefix by apply is_prefix_app. cbn [negb andb].
    rewrite remove_indent_loop_removed, py_replace_tabs by exact Hs.
    now replace (S n - 1)%nat with n by lia.
  - rewrite is_infix_tabs_short by (lia || exact Hs). cbn [andb].
    apply IH. lia.
Qed.

Lemma tabs_no_newline (k : nat) (s : list ascii) :
  ~ In newline s -> Forall (fun c => Ascii.eqb c newline = false) (tabs k ++ s).
Proof.
  intros Hs. apply Forall_app. split.
  - apply List.Forall_forall. intros x Hx. unfold tabs in Hx.
    apply repeat_spec in Hx. subst x. reflexivity.
  - apply List.Forall_forall. intros x Hx.
    destruct (Ascii.eqb_spec x newline) as [Heq|]; [subst x; contradiction|reflexivity].
Qed.

Lemma split_on_join (ls : list (list ascii)) :
  ls <> [] -> Forall (Forall (fun c => Ascii.eqb c newline = false)) ls ->
  split_on newline (py_join [newline] ls) = ls.
Proof.
  induction ls as [|l ls IH]; intros Hne H; [congruence|].
  inversion H; subst. destruct ls as [|l2 ls'].
  - cbn [py_join]. now apply CodecFacts.split_on_no_sep.
  - change (py_join [newline] (l :: l2 :: ls')) with (l ++ [newline] ++ py_join [newline] (l2 :: ls')).
    cbn [app]. rewrite CodecFacts.split_on_app_sep by assumption.
    rewrite IH by (congruence || assumption). reflexivity.
Qed.

Lemma remove_indent_loop_line (m k : nat) (s : list ascii) :
  (k <= m)%nat -> ~ In tab s ->
  remove_indent_loop (rev (seq 0 m)) (tabs k ++ s) false = tabs (k - 1) ++ s.
Proof.
  intros Hk Hs. destruct k as [|k].
  - apply remove_indent_loop_untouched. exact Hs.
  - apply remove_indent_loop_seq; [lia | exact Hs].
Qed.

(** On lines indented by at most [max_indent] tabs, and containing no other tab, [_remove_one_level_indent] removes exactly one leading tab from each indented line and leaves unindented lines alone. *)
Theorem remove_one_level_indent_spec (m : nat) (lines : list (nat * list ascii)) :
  lines <> [] ->
  Forall (fun '(k, s) => (k <= m)%nat /\ ~ In tab s /\ ~ In newline s) lines ->
  _remove_one_level_indent (py_join [newline] (map (fun '(k, s) => tabs k ++ s) lines)) (Z.of_nat m) =
  py_join [newline] (map (fun '(k, s) => tabs (k - 1) ++ s) lines).
Proof.
  intros Hne H. unfold _remove_one_level_indent. rewrite Nat2Z.id.
  rewrite split_on_join.
  - f_equal. rewrite map_map. apply List.map_ext_in. intros [k s] Hin.
    rewrite List.Forall_forall in H. destruct (H (k, s) Hin) as [Hk [Ht _]].
    now apply remove_indent_loop_line.
  - destruct lines; cbn; congruence.
  - apply Forall_map. eapply Forall_impl; [exact H|].
    intros [k s] [_ [_ Hn]]. now apply tabs_no_newline.
Qed.

Lemma remove_one_level_indent_spec_witness :
  let lines := [(2%nat, ["x"%char]); (0%nat, ["y"%char; " "%char])] in
  lines <> [] /\
  Forall (fun '(k, s) => (k <= 3)%nat /\ ~ In tab s /\ ~ In newline s) lines /\
  _remove_one_level_indent (py_join [newline] (map (fun '(k, s) => tabs k ++ s) lines)) (Z.of_nat 3) =
  py_join [newline] (map (fun '(k, s) => tabs (k - 1) ++ s) lines).
Proof.
  intros lines.
  assert (H1 : lines <> []) by discriminate.
  assert (H2 : Forall (fun '(k, s) => (k <= 3)%nat /\ ~ In tab s /\ ~ In newline s) lines)
    by (repeat constructor; cbn; try lia;
        intros Hc; repeat destruct Hc as [Hc|Hc]; try discriminate; contradiction).
  split; [exact H1|]. split; [exact H2|].
  exact (remove_one_level_indent_spec 3 lines H1 H2).
Defined.

End TextFacts.



Module CheckerFacts.

Lemma where_idx_from {A} (p : A -> bool) (xs : list A) :
  where_idx p xs = where_from p xs 0.
Proof.
  unfold where_idx.
  assert (Hg : forall acc i, fst (fold_left (fun '(acc, i) x => (if p x then acc ++ [i] else acc, S i))
                                 xs (acc, i)) = acc ++ where_from p xs i).
  { induction xs as [|x xs IH]; intros acc i; [now rewrite app_nil_r|].
    cbn [fold_left where_from]. rewrite IH. destruct (p x); [|reflexivity].
    now rewrite <- app_assoc. }
  apply Hg.
Qed.

Lemma where_from_S {A} (p : A -> bool) (xs : list A) (i : nat) :
  where_from p xs (S i) = map S (where_from p xs i).
Proof.
  revert i. induction xs as [|x xs IH]; intros i; [reflexivity|].
  cbn [where_from]. rewrite (IH (S i)), (IH i). now destruct (p x).
Qed.

Lemma gather_shift {A} (y : A) (ys : list A) (idx : list nat) :
  gather (y :: ys) (map S idx) = gather ys idx.
Proof.
  unfold gather. induction idx as [|i idx IH]; [reflexivity|].
  cbn [map exc_mapM]. change ((y :: ys) !! S i) with (ys !! i). now rewrite IH.
Qed.

Lemma gather_where {A B} (p : A -> bool) (xs : list A) (ys : list B) :
  length xs = length ys ->
  gather ys (where_idx p xs) = inr (map snd (List.filter (fun xy => p (fst xy)) (zip xs ys))).
Proof.
  rewrite where_idx_from. revert ys.
  induction xs as [|x xs IH]; intros [|y ys] Hlen; try discriminate; [reflexivity|].
  cbn in Hlen. injection Hlen as Hlen.
  cbn [where_from zip zip_with List.filter fst]. rewrite where_from_S.
  destruct (p x).
  - unfold gather at 1. cbn [exc_mapM]. change ((y :: ys) !! 0%nat) with (Some y).
    fold (gather (y :: ys) (map S (where_from p xs 0))). rewrite gather_shift, IH by exact Hlen.
    reflexivity.
  - rewrite gather_shift. now apply IH.
Qed.

Lemma in_times_filter {A B} (p : A -> bool) (xs : list A) (ys : list B) x y :
  In (x, y) (zip xs ys) -> p x = true ->
  In y (map snd (List.filter (fun xy => p (fst xy)) (zip xs ys))).
Proof.
  intros Hin Hp. apply in_map_iff. exists (x, y). split; [reflexivity|].
  apply filter_In. split; assumption.
Qed.

Lemma zip_swap_in {A B} (xs : list A) (ys : list B) x y :
  In (x, y) (zip xs ys) -> In (y, x) (zip ys xs).
Proof.
  revert ys. induction xs as [|a xs IH]; intros [|b ys] Hin; try contradiction.
  destruct Hin as [Heq|Hin]; [injection Heq as -> ->; now left|].
  right. now apply IH.
Qed.

Lemma in_zip_r {A B} (xs : list A) (ys : list B) x y :
  In (x, y) (zip xs ys) -> In y ys.
Proof.
  revert ys. induction xs as [|a xs IH]; intros [|b ys] Hin; try contradiction.
  destruct Hin as [Heq|Hin]; [injection Heq as -> ->; now left|].
  right. now apply (IH ys).
Qed.

Lemma times_of_forall (P : Z -> Prop) (p : string -> bool) (task_types : list string)
    (event_times : list Z) :
  Forall P event_times -> Forall P (times_of p task_types event_times).
Proof.
  intros H. apply List.Forall_forall. intros y Hy. unfold times_of in Hy.
  apply in_map_iff in Hy as [[x y'] [Hy Hin]]. cbn in Hy. subst y'.
  apply filter_In in Hin as [Hin _]. apply in_zip_r in Hin.
  exact (proj1 (List.Forall_forall _ _) H y Hin).
Qed.

(** Times in [-2^62 .. 2^62) have [int64] differences that do not wrap. *)
Lemma wrap64_diff (x y : Z) :
  - 2 ^ 62 <= x < 2 ^ 62 -> - 2 ^ 62 <= y < 2 ^ 62 -> wrap64 (y - x) = y - x.
Proof. intros Hx Hy. apply wrap64_id. lia. Qed.

Lemma any_diff_lt_false (d : Z) (xs : list Z) :
  Forall (fun t => - 2 ^ 62 <= t < 2 ^ 62) xs ->
  any_diff_lt d xs = false -> gaps_at_least d xs.
Proof.
  unfold gaps_at_least. induction xs as [|a xs IH]; intros Hr H k x y Hx Hy; [discriminate Hx|].
  destruct xs as [|b xs]; [destruct k; discriminate Hy|].
  inversion Hr as [|? ? Ha Hr']; subst. inversion Hr' as [|? ? Hb _]; subst.
  cbn [any_diff_lt] in H. apply orb_false_iff in H as [Hab Hrest].
  destruct k as [|k].
  - cbn in Hx, Hy. injection Hx as <-. injection Hy as <-. apply Z.ltb_ge in Hab.
    rewrite wrap64_diff in Hab by assumption. lia.
  - apply (IH Hr' Hrest k); assumption.
Qed.

Lemma existsb_app_false {A} (f : A -> bool) (l1 l2 : list A) :
  existsb f (l1 ++ l2) = false -> existsb f l1 = false /\ existsb f l2 = false.
Proof. rewrite existsb_app. apply orb_false_iff. Qed.

Lemma existsb_false_in {A} (f : A -> bool) (l : list A) x :
  existsb f l = false -> In x l -> f x = false.
Proof.
  intros H Hin. destruct (f x) eqn:E; [|reflexivity].
  assert (existsb f l = true) by (apply existsb_exists; eauto). congruence.
Qed.

Lemma py_slice_three {A} (xs : list A) (j : nat) x y z :
  xs !! j = Some x -> xs !! S j = Some y -> xs !! S (S j) = Some z ->
  py_slice xs (Z.of_nat j) (Z.of_nat j + 3) = [x; y; z].
Proof.
  intros Hx Hy Hz.
  assert (Hlen : (S (S j) < length xs)%nat) by (apply lookup_lt_is_Some_1; eauto).
  unfold py_slice, slice_index.
  destruct (Z.ltb_spec (Z.of_nat j) 0); [lia|]. destruct (Z.ltb_spec (Z.of_nat j + 3) 0); [lia|].
  rewrite Z.min_l by lia. rewrite Z.min_l by lia.
  replace (Z.to_nat (Z.of_nat j + 3 - Z.of_nat j)) with 3%nat by lia. rewrite Nat2Z.id.
  rewrite <- (take_drop j xs) in Hx, Hy, Hz.
  rewrite lookup_app_r in Hx, Hy, Hz by (rewrite length_take; lia).
  rewrite length_take, Nat.min_l in Hx, Hy, Hz by lia.
  rewrite Nat.sub_diag in Hx. replace (S j - j)%nat with 1%nat in Hy by lia.
  replace (S (S j) - j)%nat with 2%nat in Hz by lia.
  destruct (drop j xs) as [|a [|b [|c r]]]; try discriminate.
  cbn in Hx, Hy, Hz |- *. rewrite take_0. congruence.
Qed.

Lemma has_repeated_from_false (k : nat) (i : Z) (tt : list string) :
  0 <= i -> has_repeated_from k i tt 2 3 = inr false ->
  forall j x, i <= Z.of_nat j < i + Z.of_nat k ->
  tt !! j = Some x -> tt !! S j = Some x -> tt !! S (S j) <> Some x.
Proof.
  revert i. induction k as [|k IH]; intros i Hi H j x Hj Hx1 Hx2 Hx3; [lia|].
  cbn [has_repeated_from] in H.
  destruct (Z.eq_dec (Z.of_nat j) i) as [<-|Hne].
  - rewrite (py_slice_three tt j x x x Hx1 Hx2 Hx3) in H.
    cbn in H. rewrite String.eqb_refl in H. discriminate H.
  - destruct (window_exceeds _ _) as [e|[|]]; cbn [exc_bind] in H; try discriminate.
    apply (IH (i + 1)) with (j := j) (x := x); auto; lia.
Qed.

Lemma has_repeated_values_false (tt : list string) :
  _has_repeated_values tt 2 3 = inr false ->
  forall j x, tt !! j = Some x -> tt !! S j = Some x -> tt !! S (S j) <> Some x.
Proof.
  intros H j x Hx1 Hx2 Hx3.
  assert (Hlen : (S (S j) < length tt)%nat) by (apply lookup_lt_is_Some_1; eauto).
  apply (has_repeated_from_false _ 0 tt ltac:(lia) H j x); auto. lia.
Qed.

Lemma in_filter_times {A B} (p : A -> bool) (xs : list A) (ys : list B) y :
  In y (map snd (List.filter (fun xy => p (fst xy)) (zip xs ys))) ->
  exists x, In (x, y) (zip xs ys) /\ p x = true.
Proof.
  intros Hin. apply in_map_iff in Hin as [[x y'] [Hy Hin]]. cbn in Hy. subst y'.
  apply filter_In in Hin as [Hin Hp]. eauto.
Qed.

Lemma existsb_none {A} (f : A -> bool) (l : list A) :
  (forall x, In x l -> f x = false) -> existsb f l = false.
Proof.
  intros H. destruct (existsb f l) eqn:E; [|reflexivity].
  apply existsb_exists in E as [x [Hin Hx]]. rewrite H in Hx by exact Hin. discriminate.
Qed.

Lemma gaps_any_diff_lt (d : Z) (xs : list Z) :
  Forall (fun t => - 2 ^ 62 <= t < 2 ^ 62) xs ->
  gaps_at_least d xs -> any_diff_lt d xs = false.
Proof.
  unfold gaps_at_least. induction xs as [|a xs IH]; intros Hr H; [reflexivity|].
  destruct xs as [|b xs]; [reflexivity|].
  inversion Hr as [|? ? Ha Hr']; subst. inversion Hr' as [|? ? Hb _]; subst.
  cbn [any_diff_lt]. apply orb_false_iff. split.
  - apply Z.ltb_ge. rewrite wrap64_diff by assumption. apply (H 0%nat); reflexivity.
  - apply (IH Hr'). intros k x y Hx Hy. apply (H (S k)); assumption.
Qed.

Lemma window_three_ok (x y z : string) :
  ~ (x = y /\ y = z) -> window_exceeds [x; y; z] 2 = inr false.
Proof.
  intros Hne. unfold window_exceeds, count_str. f_equal. cbn [existsb List.filter].
  repeat match goal with
  | |- context [String.eqb ?a ?b] => destruct (String.eqb_spec a b); subst
  end; cbn; try reflexivity; exfalso; apply Hne; auto.
Qed.

Lemma has_repeated_from_none (k : nat) (i : Z) (tt : list string) :
  0 <= i -> i + Z.of_nat k <= Z.of_nat (length tt) - 2 ->
  (forall j x, tt !! j = Some x -> tt !! S j = Some x -> tt !! S (S j) <> Some x) ->
  has_repeated_from k i tt 2 3 = inr false.
Proof.
  revert i. induction k as [|k IH]; intros i Hi Hk Hno; [reflexivity|].
  cbn [has_repeated_from].
  destruct (lookup_lt_is_Some_2 tt (Z.to_nat i) ltac:(lia)) as [x Hx].
  destruct (lookup_lt_is_Some_2 tt (S (Z.to_nat i)) ltac:(lia)) as [y Hy].
  destruct (lookup_lt_is_Some_2 tt (S (S (Z.to_nat i))) ltac:(lia)) as [z Hz].
  pose proof (py_slice_three tt (Z.to_nat i) x y z Hx Hy Hz) as Hs.
  rewrite Z2Nat.id in Hs by lia. rewrite Hs.
  rewrite window_three_ok; [cbn [exc_bind]; apply IH; auto; lia|].
  intros [<- <-]. exact (Hno _ _ Hx Hy Hz).
Qed.

Lemma has_repeated_values_none (tt : list string) :
  (forall j x, tt !! j = Some x -> tt !! S j = Some x -> tt !! S (S j) <> Some x) ->
  _has_repeated_values tt 2 3 = inr false.
Proof.
  intros Hno. unfold _has_repeated_values.
  destruct (Z.ltb_spec (Z.of_nat (length tt) - 3 + 1) 1).
  - replace (Z.to_nat (Z.of_nat (length tt) - 3 + 1)) with 0%nat by lia. reflexivity.
  - apply has_repeated_from_none; [lia| |exact Hno]. rewrite Z2Nat.id by lia. lia.
Qed.

End CheckerFacts.

Lemma check_task_times_comply_sound (task_types : list string) (event_times : list Z)
    (b a m c1 c2 c3 L : Z) :
  length task_types = length event_times ->
  Forall (fun t => - 2 ^ 62 <= t < 2 ^ 62) event_times ->
  _check_task_times_comply task_types event_times b a m c1 c2 c3 L 2 3 = inr true ->
  (forall t e, In (t, e) (zip task_types event_times) -> is_comm t = true -> a < e < L - b) /\
  (forall e, In ("resman", e) (zip task_types event_times) -> e < L - m - 1) /\
  gaps_at_least c1 (times_of is_comm task_types event_times) /\
  gaps_at_least c2 (times_of (String.eqb "sysmon-light") task_types event_times) /\
  gaps_at_least c3 (times_of (String.eqb "sysmon-scale") task_types event_times) /\
  (forall i t, task_types !! i = Some t -> task_types !! S i = Some t ->
     task_types !! S (S i) <> Some t).
Proof.
  intros Hlen Hrng H. unfold _check_task_times_comply in H.
  rewrite !CheckerFacts.gather_where in H by (exact Hlen || symmetry; exact Hlen).
  cbn [exc_bind] in H.
  repeat match type of H with
  | context [if ?c then _ else _] => let E := fresh "E" in destruct c eqn:E; [discriminate H|]
  end.
  destruct (_has_repeated_values task_types 2 3) as [e|[|]] eqn:Erep; cbn [exc_bind] in H;
    try discriminate H.
  apply CheckerFacts.existsb_app_false in E as [Elate Eearly].
  split; [|split; [|split; [|split; [|split]]]].
  - intros t e Hin Hc. apply CheckerFacts.zip_swap_in in Hin.
    split.
    + destruct (Z.leb_spec e a); [|lia].
      assert (Hin' := CheckerFacts.in_times_filter (fun t => t <=? a) _ _ e t Hin
                        ltac:(apply Z.leb_le; lia)).
      rewrite (CheckerFacts.existsb_false_in _ _ t Eearly Hin') in Hc. discriminate.
    + destruct (Z.leb_spec (L - b) e); [|lia].
      assert (Hin' := CheckerFacts.in_times_filter (fun t => L - b <=? t) _ _ e t Hin
                        ltac:(apply Z.leb_le; lia)).
      rewrite (CheckerFacts.existsb_false_in _ _ t Elate Hin') in Hc. discriminate.
  - intros e Hin. apply CheckerFacts.zip_swap_in in Hin.
    destruct (Z.leb_spec (L - m - 1) e); [|lia].
    assert (Hin' := CheckerFacts.in_times_filter (fun t => L - m - 1 <=? t) _ _ e _ Hin
                      ltac:(apply Z.leb_le; lia)).
    pose proof (CheckerFacts.existsb_false_in _ _ _ E1 Hin') as Hr.
    rewrite String.eqb_refl in Hr. discriminate.
  - apply CheckerFacts.any_diff_lt_false; [now apply CheckerFacts.times_of_forall|assumption].
  - apply CheckerFacts.any_diff_lt_false; [now apply CheckerFacts.times_of_forall|assumption].
  - apply CheckerFacts.any_diff_lt_false; [now apply CheckerFacts.times_of_forall|assumption].
  - now apply CheckerFacts.has_repeated_values_false.
Qed.

Lemma check_task_times_comply_complete (task_types : list string) (event_times : list Z)
    (b a m c1 c2 c3 L : Z) :
  length task_types = length event_times ->
  Forall (fun t => - 2 ^ 62 <= t < 2 ^ 62) event_times ->
  (forall t e, In (t, e) (zip task_types event_times) -> is_comm t = true -> a < e < L - b) ->
  (forall e, In ("resman", e) (zip task_types event_times) -> e < L - m - 1) ->
  gaps_at_least c1 (times_of is_comm task_types event_times) ->
  gaps_at_least c2 (times_of (String.eqb "sysmon-light") task_types event_times) ->
  gaps_at_least c3 (times_of (String.eqb "sysmon-scale") task_types event_times) ->
  (forall i t, task_types !! i = Some t -> task_types !! S i = Some t ->
     task_types !! S (S i) <> Some t) ->
  _check_task_times_comply task_types event_times b a m c1 c2 c3 L 2 3 = inr true.
Proof.
  intros Hlen Hrng Hcomm Hres Hg1 Hg2 Hg3 Hrep. unfold _check_task_times_comply.
  rewrite !CheckerFacts.gather_where by (exact Hlen || symmetry; exact Hlen).
  cbn [exc_bind].
  rewrite CheckerFacts.existsb_none.
  2:{ intros t Hin. apply in_app_or in Hin.
      destruct (is_comm t) eqn:Ec; [exfalso|reflexivity].
      destruct Hin as [Hin|Hin];
        [apply (CheckerFacts.in_filter_times (fun x => L - b <=? x)) in Hin as [e [Hin He]]
        |apply (CheckerFacts.in_filter_times (fun x => x <=? a)) in Hin as [e [Hin He]]];
        apply CheckerFacts.zip_swap_in in Hin; specialize (Hcomm t e Hin Ec);
        apply Z.leb_le in He; lia. }
  rewrite (CheckerFacts.gaps_any_diff_lt c1) by (exact Hg1 || now apply CheckerFacts.times_of_forall).
  rewrite CheckerFacts.existsb_none.
  2:{ intros t Hin. destruct (String.eqb_spec "resman" t) as [<-|]; [exfalso|reflexivity].
      apply (CheckerFacts.in_filter_times (fun x => L - m - 1 <=? x)) in Hin as [e [Hin He]].
      apply CheckerFacts.zip_swap_in in Hin. specialize (Hres e Hin).
      apply Z.leb_le in He. lia. }
  rewrite (CheckerFacts.gaps_any_diff_lt c2) by (exact Hg2 || now apply CheckerFacts.times_of_forall).
  rewrite (CheckerFacts.gaps_any_diff_lt c3) by (exact Hg3 || now apply CheckerFacts.times_of_forall).
  rewrite CheckerFacts.has_repeated_values_none by exact Hrep. reflexivity.
Qed.


Module SaveLoopFacts.

Lemma save_loop_matched {G} `{NumpyRandom G} (f : nat) (gen : Z -> M G (string * Z * Z))
    (ma n attempts seed : Z) (rx : option string) (g : G) :
  save_loop f gen ma n n attempts seed rx g = Ok (n, n, attempts, seed, rx) g.
Proof. destruct f; cbn; [reflexivity|]. now rewrite Z.eqb_refl. Qed.

(** With a generator that ignores the random state, the values computed by
    the retry loop do not depend on it either. *)
Lemma save_loop_outcome {G} `{NumpyRandom G} (f : nat) (gen : Z -> M G (string * Z * Z))
    (ma nt ne attempts seed : Z) (rx : option string) (g1 g2 : G) :
  (forall s g g', gen s g = gen s g') ->
  outcome (save_loop f gen ma nt ne attempts seed rx g1) =
  outcome (save_loop f gen ma nt ne attempts seed rx g2).
Proof.
  intros Hgen. destruct f as [|f]; [reflexivity|]. cbn [save_loop].
  destruct (negb (nt =? ne) && (attempts <? ma)); [|reflexivity].
  unfold m_bind. now rewrite (Hgen seed g1 g2).
Qed.

Lemma generate_and_save_xml_same_xml {G} `{NumpyRandom G} (gen : Z -> M G (string * Z * Z))
    (seed t ma : Z) (c1 v1 c2 v2 : string) (g1 g2 g1' g2' : G) (o1 o2 : SaveOutcome) :
  (forall s g g', gen s g = gen s g') ->
  generate_and_save_xml gen seed c1 v1 t ma g1 = Ok o1 g1' ->
  generate_and_save_xml gen seed c2 v2 t ma g2 = Ok o2 g2' ->
  (o1 = LoggedError /\ o2 = LoggedError) \/
  exists st1 st2 xml, o1 = Written st1 xml /\ o2 = Written st2 xml.
Proof.
  intros Hgen E1 E2. unfold generate_and_save_xml, m_bind in E1, E2.
  pose proof (save_loop_outcome (Z.to_nat ma) gen ma (-1) 0 0 seed None g1 g2 Hgen) as Eo.
  destruct (save_loop _ _ _ _ _ _ _ _ g1) as [[[[[? ?] a1] s1] r1] h1|e1];
    [|discriminate E1].
  destruct (save_loop _ _ _ _ _ _ _ _ g2) as [[[[[? ?] a2] s2] r2] h2|e2];
    [|discriminate E2].
  cbn in Eo. injection Eo as -> -> -> -> ->.
  destruct (a2 =? ma).
  - left. unfold m_ret in E1, E2. split; congruence.
  - right. destruct r2 as [xml|]; [|discriminate E1].
    unfold m_ret in E1, E2. injection E1 as <- _. injection E2 as <- _. eauto.
Qed.

Lemma save_versions_calls {G} `{NumpyRandom G} (gen : MatbiiParams -> Z -> M G (string * Z * Z))
    (p : MatbiiParams) (c : string) (t ma seed : Z) (vs : list string) (g g' : G) outs :
  save_versions gen p c t ma seed vs g = Ok outs g' ->
  map fst outs = List.filter (fun v => negb (String.eqb c "high" && String.eqb v "c")) vs /\
  forall v o, In (v, o) outs -> exists g0 g0', generate_and_save_xml (gen p) seed c v t ma g0 = Ok o g0'.
Proof.
  revert g g' outs. induction vs as [|v vs IH]; intros g g' outs E.
  - cbn in E. injection E as <- _. split; [reflexivity|intros ? ? []].
  - cbn [save_versions List.filter] in E |- *.
    destruct (negb (String.eqb c "high" && String.eqb v "c")); [|now apply (IH g g')].
    unfold m_bind in E. destruct (generate_and_save_xml _ _ _ _ _ _ g) as [o g1|e] eqn:Eg;
      [|discriminate E].
    destruct (save_versions _ _ _ _ _ _ vs g1) as [rest g2|e] eqn:Er; [|discriminate E].
    unfold m_ret in E. injection E as <- _.
    destruct (IH g1 g2 rest Er) as [Hfst Hin]. split; [cbn; now rewrite Hfst|].
    intros v' o' [Heq|Hin']; [injection Heq as <- <-; eauto|eauto].
Qed.

Lemma matbii_generate_random_xml_seeded {G} `{NumpyRandom G} (fuel : nat) (ext : External)
    (p : MatbiiParams) (s : Z) (g g' : G) :
  matbii_generate_random_xml fuel ext (Some s) p None g =
  matbii_generate_random_xml fuel ext (Some s) p None g'.
Proof.
  unfold matbii_generate_random_xml, matbii_task_phase, _initialize_matbii_generation, m_seed.
  destruct ((0 <=? s) && (s <? 2 ^ 32)); reflexivity.
Qed.

End SaveLoopFacts.

(** If attempt [k] (with [k < max_attempts]) is the first whose counts match, [generate_and_save_xml] writes the XML generated from seed [seed + k - 1] under a file stem built from seed [seed + k]. *)
Theorem generate_and_save_xml_first_match {G} `{NumpyRandom G}
    (generate : Z -> M G (string * Z * Z)) (xml_of : Z -> string) (n_tt n_et : Z -> Z)
    (seed : Z) (condition version : string) (tutorial_minutes max_attempts k : Z) (g : G) :
  (forall s g, exists g', generate s g = Ok (xml_of s, n_tt s, n_et s) g') ->
  1 <= k < max_attempts ->
  (forall i, 0 <= i < k - 1 -> n_tt (seed + i) <> n_et (seed + i)) ->
  n_tt (seed + k - 1) = n_et (seed + k - 1) ->
  exists g', generate_and_save_xml generate seed condition version tutorial_minutes max_attempts g
             = Ok (Written (file_stem_of condition version tutorial_minutes (seed + k))
                           (xml_of (seed + k - 1))) g'.
Proof.
  intros Hgen Hk Hmis Hmatch. unfold generate_and_save_xml.
  assert (Hgen' : forall s g, exists xml g', generate s g = Ok (xml, n_tt s, n_et s) g').
  { intros s g0. destruct (Hgen s g0) as [g1 E]. eauto. }
  destruct (save_loop_mismatches generate n_tt n_et max_attempts Hgen' (Z.to_nat (k - 1))
              (Z.to_nat max_attempts) 0 seed (-1) 0 None g)
    as (rx' & g' & nt' & ne' & Hne & Eq); [lia|lia|lia| |].
  { intros i Hi. apply Hmis. lia. }
  unfold m_bind at 1. rewrite Eq.
  rewrite Z2Nat.id by lia.
  destruct (Z.to_nat max_attempts - Z.to_nat (k - 1))%nat as [|f] eqn:Ef; [lia|].
  cbn [save_loop]. destruct (Z.eqb_spec nt' ne'); [contradiction|].
  destruct (Z.ltb_spec (0 + (k - 1)) max_attempts); [|lia]. cbn [negb andb].
  unfold m_bind. destruct (Hgen (seed + (k - 1)) g') as (g1 & E). rewrite E.
  replace (seed + (k - 1)) with (seed + k - 1) by lia. rewrite Hmatch.
  rewrite SaveLoopFacts.save_loop_matched.
  destruct (Z.eqb_spec (0 + (k - 1) + 1) max_attempts); [lia|].
  exists g1. unfold m_ret. do 3 f_equal. lia.
Qed.

Lemma generate_and_save_xml_first_match_witness :
  (forall s g, exists g', counts_match_only_at 5 s g = Ok ("<MATB-EVENTS/>", 27, if s =? 5 then 27 else 26) g') /\
  1 <= 3 < 100 /\
  (forall i, 0 <= i < 3 - 1 -> 27 <> (if (3 + i) =? 5 then 27 else 26)) /\
  27 = (if 3 + 3 - 1 =? 5 then 27 else 26) /\
  exists g', generate_and_save_xml (counts_match_only_at 5) 3 "high" "a" 10 100 0
             = Ok (Written (file_stem_of "high" "a" 10 (3 + 3)) "<MATB-EVENTS/>") g'.
Proof.
  assert (H1 : forall s g, exists g', counts_match_only_at 5 s g = Ok ("<MATB-EVENTS/>", 27, if s =? 5 then 27 else 26) g')
    by (intros s g; exists g; reflexivity).
  assert (H2 : 1 <= 3 < 100) by lia.
  assert (H3 : forall i, 0 <= i < 3 - 1 -> 27 <> (if (3 + i) =? 5 then 27 else 26))
    by (intros i Hi; destruct (Z.eqb_spec (3 + i) 5); lia).
  assert (H4 : 27 = (if 3 + 3 - 1 =? 5 then 27 else 26)) by reflexivity.
  split; [exact H1|]. split; [exact H2|]. split; [exact H3|]. split; [exact H4|].
  exact (generate_and_save_xml_first_match (counts_match_only_at 5) (fun _ => "<MATB-EVENTS/>")
           (fun _ => 27) (fun s => if s =? 5 then 27 else 26) 3 "high" "a" 10 100 3 0 H1 H2 H3 H4).
Defined.

(** With [max_attempts <= 0] no XML is generated: [max_attempts = 0] logs the error, and a negative value raises [UnboundLocalError] because [random_xml] is read before assignment. *)
Theorem generate_and_save_xml_no_attempts {G} `{NumpyRandom G}
    (generate : Z -> M G (string * Z * Z)) (seed : Z) (condition version : string)
    (tutorial_minutes max_attempts : Z) (g : G) :
  max_attempts <= 0 ->
  generate_and_save_xml generate seed condition version tutorial_minutes max_attempts g =
  if max_attempts =? 0 then Ok LoggedError g else Err UnboundLocalError.
Proof.
  intros Hma. unfold generate_and_save_xml.
  replace (Z.to_nat max_attempts) with 0%nat by lia. cbn [save_loop].
  unfold m_bind, m_ret. now destruct (Z.eqb_spec 0 max_attempts), (Z.eqb_spec max_attempts 0); try lia.
Qed.

Lemma generate_and_save_xml_no_attempts_witness :
  -1 <= 0 /\
  generate_and_save_xml (counts_match_only_at 0) 0 "low" "c" 10 (-1) 0 = Err UnboundLocalError.
Proof.
  split; [lia|]. exact (generate_and_save_xml_no_attempts (counts_match_only_at 0) 0 "low" "c" 10 (-1) 0
                          ltac:(lia)).
Defined.


(** Every version written by [_create_matbii_scenarios] uses seed 0, so all versions get the same XML document (or all fail); only the file stems differ. *)
Theorem create_matbii_scenarios_same_document {G} `{NumpyRandom G} (fuel : nat) (ext : External)
    (params : gmap string MatbiiParams) (condition : string) (max_attempts : Z) (g g' : G)
    (outs : list (string * SaveOutcome)) :
  _create_matbii_scenarios (fun p s => matbii_generate_random_xml fuel ext (Some s) p None)
    params condition max_attempts g = Ok (ScenariosSaved outs) g' ->
  map fst outs = (if String.eqb condition "high" then ["a"; "b"] else ["a"; "b"; "c"]) /\
  ((forall v o, In (v, o) outs -> o = LoggedError) \/
   exists xml, forall v o, In (v, o) outs -> exists stem, o = Written stem xml).
Proof.
  set (gen := fun p s => matbii_generate_random_xml fuel ext (Some s) p None).
  assert (Hseed : forall p s g1 g2, gen p s g1 = gen p s g2)
    by (intros; apply SaveLoopFacts.matbii_generate_random_xml_seeded).
  intros E. unfold _create_matbii_scenarios in E.
  destruct (params !! "MATBII_HIGH_PARAMS") as [high|]; [|discriminate E].
  assert (Hrun : forall p,
    (outs' <- save_versions gen p condition
                (match params !! "MATBII_LOW_PARAMS" with Some p => session_duration_minutes p | None => 0 end)
                max_attempts 0 ["a"; "b"; "c"] ;; m_ret (ScenariosSaved outs')) g = Ok (ScenariosSaved outs) g' ->
    map fst outs = (if String.eqb condition "high" then ["a"; "b"] else ["a"; "b"; "c"]) /\
    ((forall v o, In (v, o) outs -> o = LoggedError) \/
     exists xml, forall v o, In (v, o) outs -> exists stem, o = Written stem xml)).
  { intros p Ep. unfold m_bind in Ep.
    destruct (save_versions gen p _ _ _ _ _ g) as [outs' g1|e] eqn:Es; [|discriminate Ep].
    unfold m_ret in Ep. injection Ep as <- _.
    destruct (SaveLoopFacts.save_versions_calls gen p _ _ _ _ _ g g1 outs' Es) as [Hfst Hin].
    split; [rewrite Hfst; now destruct (String.eqb condition "high")|].
    destruct outs' as [|[v0 o0] rest]; [destruct (String.eqb condition "high"); discriminate Hfst|].
    destruct (Hin v0 o0 (or_introl eq_refl)) as (g0 & g0' & E0).
    destruct o0 as [st0 xml0|].
    - right. exists xml0. intros v o Hvo. destruct (Hin v o Hvo) as (g2 & g2' & E2).
      destruct (SaveLoopFacts.generate_and_save_xml_same_xml (gen p) 0 _ max_attempts
                  condition v0 condition v g0 g2 g0' g2' _ _ (Hseed p) E0 E2)
        as [[Hc _]|(st1 & st2 & xml & Hc1 & Hc2)]; [discriminate Hc|].
      injection Hc1 as <- <-. eauto.
    - left. intros v o Hvo. destruct (Hin v o Hvo) as (g2 & g2' & E2).
      destruct (SaveLoopFacts.generate_and_save_xml_same_xml (gen p) 0 _ max_attempts
                  condition v0 condition v g0 g2 g0' g2' _ _ (Hseed p) E0 E2)
        as [[_ Hc]|(st1 & st2 & xml & Hc1 & _)]; [exact Hc|discriminate Hc1]. }
  destruct (String.eqb condition "high") eqn:Eh; [now apply (Hrun high)|].
  destruct (String.eqb condition "low"); [|discriminate E].
  destruct (params !! "MATBII_LOW_PARAMS") as [low|] eqn:El; [|discriminate E].
  exact (Hrun low E).
Qed.

Lemma create_matbii_scenarios_same_document_witness :
  exists outs g',
    _create_matbii_scenarios (fun p s => matbii_generate_random_xml 10 demo_external (Some s) p None)
      (<["MATBII_LOW_PARAMS" := default_params]> (<["MATBII_HIGH_PARAMS" := default_params]> ∅))
      "high" 3 0 = Ok (ScenariosSaved outs) g' /\
    map fst outs = (if String.eqb "high" "high" then ["a"; "b"] else ["a"; "b"; "c"]) /\
    ((forall v o, In (v, o) outs -> o = LoggedError) \/
     exists xml, forall v o, In (v, o) outs -> exists stem, o = Written stem xml).
Proof.
  assert (Hok : match _create_matbii_scenarios
                  (fun p s => matbii_generate_random_xml 10 demo_external (Some s) p None)
                  (<["MATBII_LOW_PARAMS" := default_params]> (<["MATBII_HIGH_PARAMS" := default_params]> ∅))
                  "high" 3 0 with
                | Ok (ScenariosSaved _) _ => True | _ => False end)
    by (vm_compute; exact I).
  destruct (_create_matbii_scenarios _ _ _ _ _) as [[outs| |] g'|e] eqn:E; try contradiction.
  exists outs, g'. split; [reflexivity|].
  exact (create_matbii_scenarios_same_document 10 demo_external _ "high" 3 0 g' outs E).
Defined.

(** [_create_matbii_scenarios]: a missing HIGH parameter set fails the assertion, an unknown condition is rejected, and a missing LOW parameter set raises [KeyError] for the low condition. *)
Theorem create_matbii_scenarios_edges {G} `{NumpyRandom G}
    (generate : MatbiiParams -> Z -> M G (string * Z * Z))
    (params : gmap string MatbiiParams) (condition : string) (max_attempts : Z) (g : G) :
  (params !! "MATBII_HIGH_PARAMS" = None ->
   _create_matbii_scenarios generate params condition max_attempts g = Ok AssertionFailed g) /\
  (is_Some (params !! "MATBII_HIGH_PARAMS") -> condition <> "high" -> condition <> "low" ->
   _create_matbii_scenarios generate params condition max_attempts g = Ok InvalidCondition g) /\
  (is_Some (params !! "MATBII_HIGH_PARAMS") -> params !! "MATBII_LOW_PARAMS" = None ->
   _create_matbii_scenarios generate params "low" max_attempts g = Err KeyError).
Proof.
  unfold _create_matbii_scenarios. split; [|split].
  - intros Hh. now rewrite Hh.
  - intros [high Hh] Hc1 Hc2. rewrite Hh.
    destruct (String.eqb_spec condition "high"); [contradiction|].
    destruct (String.eqb_spec condition "low"); [contradiction|]. reflexivity.
  - intros [high Hh] Hl. rewrite Hh, Hl. reflexivity.
Qed.

Lemma create_matbii_scenarios_edges_witness :
  _create_matbii_scenarios (fun p s => matbii_generate_random_xml 10 demo_external (Some s) p None)
    (<["MATBII_HIGH_PARAMS" := default_params]> ∅) "low" 3 0 = Err KeyError.
Proof.
  refine (proj2 (proj2 (create_matbii_scenarios_edges
    (fun p s => matbii_generate_random_xml 10 demo_external (Some s) p None)
    (<["MATBII_HIGH_PARAMS" := default_params]> ∅) "low" 3 0)) _ _).
  - exists default_params. reflexivity.
  - reflexivity.
Defined.



Module SortFacts.


Lemma insert_sorted (x : Z * event) (l : list (Z * event)) :
  Sorted key_le l -> Sorted key_le (insert_by_key x l).
Proof.
  unfold key_le. induction l as [|y l IH]; intros H; cbn [insert_by_key]; [repeat constructor|].
  destruct (Z.ltb_spec (fst x) (fst y)).
  - constructor; [exact H|constructor; lia].
  - inversion H as [|? ? Hl Hhd]; subst. constructor; [now apply IH|].
    destruct l as [|z l]; cbn [insert_by_key]; [constructor; lia|].
    destruct (Z.ltb_spec (fst x) (fst z)); constructor; [lia|]. now inversion Hhd.
Qed.

Lemma insert_perm (x : Z * event) (l : list (Z * event)) : insert_by_key x l ≡ₚ x :: l.
Proof.
  induction l as [|y l IH]; cbn [insert_by_key]; [reflexivity|].
  destruct (fst x <? fst y); [reflexivity|]. rewrite IH. apply perm_swap.
Qed.

Lemma sorted_ge (y : Z * event) (l : list (Z * event)) :
  Sorted key_le (y :: l) -> Forall (fun z => fst y <= fst z) l.
Proof.
  intros H. apply Sorted_StronglySorted in H; [|unfold key_le; intros ? ? ? ? ?; lia].
  inversion H as [|? ? _ Hf]; subst. exact Hf.
Qed.

Lemma filter_above (k : Z) (l : list (Z * event)) :
  Forall (fun z => k < fst z) l -> List.filter (fk k) l = [].
Proof.
  induction 1 as [|z l Hz _ IH]; [reflexivity|]. cbn [List.filter]. unfold fk at 1.
  destruct (Z.eqb_spec (fst z) k); [lia|exact IH].
Qed.

Lemma insert_filter (x : Z * event) (l : list (Z * event)) (k : Z) :
  Sorted key_le l ->
  List.filter (fk k) (insert_by_key x l) =
  if fk k x then List.filter (fk k) l ++ [x] else List.filter (fk k) l.
Proof.
  induction l as [|y l IH]; intros H; cbn [insert_by_key].
  - cbn [List.filter]. now destruct (fk k x).
  - destruct (Z.ltb_spec (fst x) (fst y)) as [Hlt|Hge].
    + pose proof (sorted_ge y l H) as Hf.
      destruct (fk k x) eqn:Ex; cbn [List.filter]; rewrite Ex; [|reflexivity].
      unfold fk in Ex. apply Z.eqb_eq in Ex.
      assert (Ey : fk k y = false) by (unfold fk; apply Z.eqb_neq; lia).
      rewrite Ey, filter_above; [reflexivity|].
      eapply Forall_impl; [exact Hf|]. cbn. intros z Hz. lia.
    + inversion H as [|? ? Hl _]; subst. cbn [List.filter]. rewrite (IH Hl).
      destruct (fk k y), (fk k x); reflexivity.
Qed.

Lemma fold_insert_spec (xs acc : list (Z * event)) :
  Sorted key_le acc ->
  let r := fold_left (fun acc x => insert_by_key x acc) xs acc in
  Sorted key_le r /\ r ≡ₚ acc ++ xs /\
  forall k, List.filter (fk k) r = List.filter (fk k) acc ++ List.filter (fk k) xs.
Proof.
  revert acc. induction xs as [|x xs IH]; intros acc Hs; cbn [fold_left].
  - split; [exact Hs|]. split; [now rewrite app_nil_r|]. intros k. now rewrite app_nil_r.
  - destruct (IH (insert_by_key x acc) (insert_sorted x acc Hs)) as (Hs' & Hp & Hf).
    split; [exact Hs'|]. split.
    + rewrite Hp, insert_perm. apply Permutation_middle.
    + intros k. rewrite Hf, insert_filter by exact Hs. cbn [List.filter].
      destruct (fk k x); [now rewrite <- app_assoc|reflexivity].
Qed.

Lemma sort_keys (root : list event) :
  exc_mapM (fun e => match _parse_time_string (startTime e) with
                     | Some k => inr k | None => inl ValueError end) root =
  if forallb (fun e => bool_decide (is_Some (_parse_time_string (startTime e)))) root
  then inr (map event_seconds root) else inl ValueError.
Proof.
  induction root as [|e root IH]; [reflexivity|]. cbn [exc_mapM forallb map].
  unfold event_seconds at 1.
  destruct (_parse_time_string (startTime e)) as [s|]; cbn [andb]; [|reflexivity].
  rewrite IH. rewrite bool_decide_true by (eexists; reflexivity).
  now destruct (forallb _ root).
Qed.

Lemma combine_keys (root : list event) :
  combine (map event_seconds root) root = map (fun e => (event_seconds e, e)) root.
Proof. induction root as [|e root IH]; [reflexivity|]. cbn. now rewrite IH. Qed.

Lemma sorted_map_snd (l : list (Z * event)) :
  Forall keyed l -> Sorted key_le l ->
  Sorted (fun a b => event_seconds a <= event_seconds b) (map snd l).
Proof.
  unfold keyed, key_le. induction l as [|x l IH]; intros Hk Hs; [constructor|].
  inversion Hk as [|? ? Hx Hl]; subst. inversion Hs as [|? ? Hsl Hhd]; subst.
  cbn [map]. constructor; [now apply IH|].
  destruct l as [|y l]; [constructor|]. cbn [map]. constructor.
  inversion Hhd; subst. inversion Hl; subst. lia.
Qed.

Lemma filter_map_snd (k : Z) (l : list (Z * event)) :
  Forall keyed l ->
  List.filter (fun e => event_seconds e =? k) (map snd l) = map snd (List.filter (fk k) l).
Proof.
  unfold keyed, fk. induction 1 as [|x l Hx _ IH]; [reflexivity|]. cbn [map List.filter].
  rewrite Hx, IH. now destruct (event_seconds (snd x) =? k).
Qed.

End SortFacts.

Lemma sort_events_cases (root : list event) :
  match _sort_events_by_seconds root with
  | inl e => e = ValueError /\ exists ev, In ev root /\ _parse_time_string (startTime ev) = None
  | inr sorted =>
      sorted ≡ₚ root /\
      Sorted (fun a b => event_seconds a <= event_seconds b) sorted /\
      forall k, List.filter (fun e => event_seconds e =? k) sorted =
                List.filter (fun e => event_seconds e =? k) root
  end.
Proof.
  unfold _sort_events_by_seconds. rewrite SortFacts.sort_keys.
  destruct (forallb _ root) eqn:Eall; cbn [exc_bind].
  - rewrite SortFacts.combine_keys.
    set (xs := map (fun e => (event_seconds e, e)) root).
    destruct (SortFacts.fold_insert_spec xs [] ltac:(constructor)) as (Hs & Hp & Hf).
    set (r := fold_left _ xs []) in *.
    assert (Hk : Forall keyed r).
    { apply List.Forall_forall. intros p Hin. apply (Permutation_in _ Hp) in Hin.
      unfold xs in Hin. cbn in Hin. apply in_map_iff in Hin as (e & <- & _). reflexivity. }
    assert (Hxs : Forall keyed xs).
    { apply List.Forall_forall. intros p Hin. unfold xs in Hin.
      apply in_map_iff in Hin as (e & <- & _). reflexivity. }
    assert (Hroot : map snd xs = root).
    { unfold xs. rewrite map_map. apply map_id. }
    split; [|split].
    + rewrite Hp. cbn [app]. now rewrite Hroot.
    + now apply SortFacts.sorted_map_snd.
    + intros k. rewrite SortFacts.filter_map_snd by exact Hk.
      rewrite Hf. cbn [List.filter app]. rewrite <- SortFacts.filter_map_snd by exact Hxs.
      now rewrite Hroot.
  - split; [reflexivity|]. revert Eall.
    induction root as [|e root IH]; intros Eall; [discriminate Eall|].
    cbn [forallb] in Eall. destruct (_parse_time_string (startTime e)) eqn:Ep.
    + rewrite bool_decide_true in Eall by (eexists; reflexivity). cbn [andb] in Eall.
      destruct (IH Eall) as (e' & Hin & He'). exists e'. split; [right|]; assumption.
    + exists e. split; [left; reflexivity|exact Ep].
Qed.

(** [_sort_events_by_seconds] raises [ValueError] only when some event time cannot be parsed; otherwise it returns a permutation of the events, sorted by seconds, and stable: events with the same time keep their order. *)
Theorem sort_events_by_seconds_spec (root : list event) :
  match _sort_events_by_seconds root with
  | inl e => e = ValueError /\ exists ev, In ev root /\ _parse_time_string (startTime ev) = None
  | inr sorted =>
      sorted ≡ₚ root /\
      Sorted (fun a b => event_seconds a <= event_seconds b) sorted /\
      forall k, List.filter (fun e => event_seconds e =? k) sorted =
                List.filter (fun e => event_seconds e =? k) root
  end.
Proof. exact (sort_events_cases root). Qed.

Module FinalizeFacts.

Lemma sorted_last_max (l : list event) (z : event) :
  Sorted (fun a b => event_seconds a <= event_seconds b) l -> last l = Some z ->
  forall y, In y l -> event_seconds y <= event_seconds z.
Proof.
  intros Hs Hl. apply last_Some in Hl as (l' & ->).
  apply Sorted_StronglySorted in Hs; [|intros ? ? ? ? ?; lia].
  intros y Hy. apply in_app_or in Hy as [Hy|[<-|[]]]; [|lia].
  induction l' as [|a l' IH]; [destruct Hy|].
  inversion Hs as [|? ? Hs' Hf]; subst.
  destruct Hy as [<-|Hy]; [|now apply IH].
  rewrite List.Forall_forall in Hf. apply Hf. apply in_or_app. right. now left.
Qed.

Lemma last_filter {A} (p : A -> bool) (l : list A) (z : A) :
  last l = Some z -> p z = true -> last (List.filter p l) = Some z.
Proof.
  intros Hl Hp. apply last_Some in Hl as (l' & ->).
  rewrite List.filter_app. cbn [List.filter]. rewrite Hp. apply last_snoc.
Qed.

End FinalizeFacts.

(** When every event time is at most the session duration, [_finalize_matbii_generation] serialises the events plus the rate START and control END events, sorted, and the END event is last. *)
Theorem finalize_matbii_generation_ends_with_end (ext : External) (root : list event) (L : Z) :
  Forall (fun e => exists s, _parse_time_string (startTime e) = Some s /\ s <= L) root ->
  exists sorted,
    _finalize_matbii_generation ext root L = inr (pretty_xml ext xml_declaration sorted) /\
    sorted ≡ₚ root ++ [mk_event (_format_seconds (L - 2)) None (Rate "START");
                       mk_event (_format_seconds L) None (Control "END")] /\
    last sorted = Some (mk_event (_format_seconds L) None (Control "END")).
Proof.
  intros Hroot. unfold _finalize_matbii_generation.
  set (endE := mk_event (_format_seconds L) None (Control "END")).
  set (rateE := mk_event (_format_seconds (L - 2)) None (Rate "START")).
  set (input := root ++ [rateE; endE]).
  assert (Hend : event_seconds endE = L) by (unfold event_seconds; cbn; now rewrite parse_format_seconds).
  assert (Hrate : event_seconds rateE = L - 2) by (unfold event_seconds; cbn; now rewrite parse_format_seconds).
  assert (Hle : forall e, In e input -> event_seconds e <= L).
  { intros e Hin. apply in_app_or in Hin as [Hin|[<-|[<-|[]]]]; [|lia|lia].
    rewrite List.Forall_forall in Hroot. destruct (Hroot e Hin) as (s & Hs & HsL).
    unfold event_seconds. now rewrite Hs. }
  pose proof (sort_events_cases input) as Hspec.
  destruct (_sort_events_by_seconds input) as [e|sorted] eqn:Es.
  - exfalso. destruct Hspec as [_ (ev & Hin & Hnone)].
    apply in_app_or in Hin as [Hin|[<-|[<-|[]]]].
    + rewrite List.Forall_forall in Hroot. destruct (Hroot ev Hin) as (s & Hs & _). congruence.
    + cbn in Hnone. now rewrite parse_format_seconds in Hnone.
    + cbn in Hnone. now rewrite parse_format_seconds in Hnone.
  - destruct Hspec as (Hp & Hs & Hf). exists sorted.
    split; [reflexivity|]. split; [exact Hp|].
    destruct (last sorted) as [z|] eqn:Ez.
    + assert (Hin_end : In endE sorted).
      { apply (Permutation_in _ (symmetry Hp)). apply in_or_app. right. right. now left. }
      assert (Hz_in : In z sorted).
      { apply last_Some in Ez as (l' & ->). apply in_or_app. right. now left. }
      assert (Hzk : event_seconds z = L).
      { pose proof (FinalizeFacts.sorted_last_max sorted z Hs Ez endE Hin_end).
        pose proof (Hle z (Permutation_in _ Hp Hz_in)). lia. }
      pose proof (FinalizeFacts.last_filter (fun e => event_seconds e =? L) sorted z Ez
                    ltac:(now apply Z.eqb_eq)) as Hl1.
      rewrite Hf in Hl1. unfold input in Hl1. rewrite List.filter_app in Hl1.
      cbn [List.filter] in Hl1. rewrite Hrate, Hend in Hl1.
      replace (L - 2 =? L) with false in Hl1 by (symmetry; apply Z.eqb_neq; lia).
      rewrite Z.eqb_refl, last_snoc in Hl1. now rewrite Hl1.
    + exfalso. apply last_None in Ez. subst sorted.
      apply Permutation_nil in Hp. destruct root; discriminate Hp.
Qed.

Lemma finalize_matbii_generation_ends_with_end_witness :
  Forall (fun e => exists s, _parse_time_string (startTime e) = Some s /\ s <= 600) initial_events /\
  exists sorted,
    _finalize_matbii_generation no_stems_external initial_events 600 =
      inr (pretty_xml no_stems_external xml_declaration sorted) /\
    sorted ≡ₚ initial_events ++ [mk_event (_format_seconds (600 - 2)) None (Rate "START");
                                 mk_event (_format_seconds 600) None (Control "END")] /\
    last sorted = Some (mk_event (_format_seconds 600) None (Control "END")).
Proof.
  assert (H : Forall (fun e => exists s, _parse_time_string (startTime e) = Some s /\ s <= 600)
                initial_events).
  { repeat constructor; eexists; split; [vm_compute; reflexivity|lia|vm_compute; reflexivity|lia
                                         |vm_compute; reflexivity|lia]. }
  split; [exact H|]. exact (finalize_matbii_generation_ends_with_end no_stems_external initial_events 600 H).
Defined.



Module CommFramingFacts.

Lemma fold_intervals (ivs : list (Z * Z)) (root : list event) :
  exists added,
    fold_left (fun r '(stop, start) =>
                 _generate_comm_sched_task
                   (_generate_comm_sched_task r (_format_seconds stop) "STOP")
                   (_format_seconds start) "START") ivs root = root ++ added /\
    length added = (2 * length ivs)%nat /\
    forall i e, added !! i = Some e ->
      comm_sched_act e = Some (if Nat.even i then "STOP" else "START").
Proof.
  revert root. induction ivs as [|[stop start] ivs IH]; intros root.
  - exists []. rewrite app_nil_r. split; [reflexivity|]. split; [reflexivity|]. intros i e H. discriminate H.
  - cbn [fold_left].
    destruct (IH (_generate_comm_sched_task
                    (_generate_comm_sched_task root (_format_seconds stop) "STOP")
                    (_format_seconds start) "START")) as (added & Ea & Hl & Hi).
    exists ([mk_event (_format_seconds stop) (Some "Sched task") (Sched "COMM" "STOP" "NULL" "NULL");
             mk_event (_format_seconds start) (Some "Sched task") (Sched "COMM" "START" "NULL" "NULL")] ++ added).
    split; [rewrite Ea; unfold _generate_comm_sched_task; now rewrite <- !app_assoc|].
    split; [cbn [length app]; lia|].
    intros [|[|i]] e H; cbn in H.
    + injection H as <-. reflexivity.
    + injection H as <-. reflexivity.
    + rewrite (Hi i e H). now rewrite Nat.even_succ_succ.
Qed.

Lemma comm_times_nil_no_comm (root : list event) :
  _get_comm_task_times root = inr [] -> no_comm_events root = true.
Proof.
  unfold _get_comm_task_times, no_comm_events.
  induction root as [|e root IH]; intros H; [reflexivity|].
  cbn [List.filter forallb] in *. destruct (is_comm_event e); cbn [negb andb].
  - cbn [exc_mapM] in H. destruct (_parse_time_string (startTime e)); cbn in H; [|discriminate H].
    match type of H with context [exc_mapM ?f ?l] => destruct (exc_mapM f l) end; discriminate H.
  - now apply IH.
Qed.

Lemma get_comm_task_times_total (root : list event) :
  Forall has_time root -> exists ts, _get_comm_task_times root = inr ts.
Proof.
  intros Hall. unfold _get_comm_task_times. apply exc_mapM_total.
  apply List.Forall_forall. intros e Hin. apply filter_In in Hin as [Hin _].
  rewrite List.Forall_forall in Hall. destruct (Hall e Hin) as [s Hs].
  exists s. now rewrite Hs.
Qed.

End CommFramingFacts.

(** [_generate_all_comm_start_stop] can only raise [IndexError], and only on a tree without comm task; otherwise it sorts the tree and appends an even number (at least two) of COMM scheduling events alternating START, STOP, ..., STOP. *)
Theorem all_comm_start_stop_spec (root : list event)
    (min_seconds_to_indicate_no_comm seconds_before_comm_stop seconds_after_comm_start
     session_duration_seconds : Z) :
  Forall has_time root ->
  match _generate_all_comm_start_stop root min_seconds_to_indicate_no_comm
          seconds_before_comm_stop seconds_after_comm_start session_duration_seconds with
  | inl e => e = IndexError /\ no_comm_events root = true
  | inr out =>
      exists sorted added n,
        _sort_events_by_seconds root = inr sorted /\ out = sorted ++ added /\
        length added = (2 * n + 2)%nat /\
        forall i e, added !! i = Some e ->
          comm_sched_act e = Some (if Nat.even i then "START" else "STOP")
  end.
Proof.
  intros Hall. unfold _generate_all_comm_start_stop.
  destruct (sort_events_total root Hall) as [sorted Es]. rewrite Es. cbn [exc_bind].
  assert (Hall' : Forall has_time sorted).
  { apply List.Forall_forall. intros e Hin. rewrite List.Forall_forall in Hall.
    apply Hall. exact (sort_events_in root sorted e Es Hin). }
  destruct (CommFramingFacts.get_comm_task_times_total sorted Hall') as [ts Ets].
  rewrite Ets. cbn [exc_bind].
  destruct ts as [|t0 ts'] eqn:Ets'.
  - split; [reflexivity|]. apply CommFramingFacts.comm_times_nil_no_comm in Ets.
    apply (no_comm_events_in sorted root); [|exact Ets].
    intros e Hin. pose proof (sort_events_cases root) as Hspec.
    rewrite Es in Hspec. destruct Hspec as (Hp & _). exact (Permutation_in _ (symmetry Hp) Hin).
  - cbn [exc_bind]. rewrite <- Ets'.
    destruct (last ts) as [tl|] eqn:El; [|subst ts; now apply last_None in El].
    cbn [exc_bind].
    match goal with
    | |- context [fold_left ?f ?ivs ?r] =>
        destruct (CommFramingFacts.fold_intervals ivs r) as (added & Ea & Hl & Hi);
        rewrite Ea; exists sorted; eexists; exists (length ivs)
    end.
    unfold _generate_comm_sched_task. rewrite <- !app_assoc.
    split; [reflexivity|]. split; [reflexivity|].
    split.
    + rewrite !length_app, Hl. cbn [length]. lia.
    + intros [|i] e H; cbn [app lookup list_lookup] in H.
      * injection H as <-. reflexivity.
      * apply lookup_app_Some in H as [H|[Hlen H]].
        -- rewrite (Hi i e H). now destruct (Nat.even i) eqn:Ev; rewrite Nat.even_succ, <- Nat.negb_even, Ev.
        -- apply list_lookup_singleton_Some in H as [Hi0 <-].
           destruct (Nat.even (S i)) eqn:Ev; [exfalso|reflexivity].
           apply Nat.even_spec in Ev as [m Hm]. lia.
Qed.


Section TaskFacts.
Context {G : Type} `{NumpyRandom G}.
Hypothesis rand_ok : rand_below_in_range G.

Lemma randint_ok (lo hi : Z) (g : G) :
  lo < hi -> exists x g', randint lo hi g = Ok x g' /\ lo <= x < hi.
Proof.
  intros Hlt. unfold randint. destruct (Z.leb_spec hi lo); [lia|].
  unfold m_bind, draw_below. pose proof (rand_ok (hi - lo) g ltac:(lia)) as Hr.
  destruct (rand_below (hi - lo) g) as [x g1]. cbn in Hr. exists (lo + x), g1.
  split; [reflexivity|lia].
Qed.

Lemma randint_range (lo hi : Z) (g : G) x g' :
  randint lo hi g = Ok x g' -> lo <= x < hi.
Proof.
  unfold randint. destruct (Z.leb_spec hi lo); [discriminate|].
  unfold m_bind, draw_below. pose proof (rand_ok (hi - lo) g ltac:(lia)) as Hr.
  destruct (rand_below (hi - lo) g) as [y g1]. cbn in Hr. intros E. injection E as <- _. lia.
Qed.

Lemma choice_list_in {A} (xs : list A) (g : G) :
  xs <> [] -> exists x g', choice_list xs g = Ok x g' /\ In x xs.
Proof.
  intros Hne. unfold choice_list. destruct xs as [|y ys]; [congruence|].
  cbn [length Nat.eqb]. unfold m_bind, draw_below.
  pose proof (rand_ok (Z.of_nat (length (y :: ys))) g ltac:(cbn [length]; lia)) as Hr.
  destruct (rand_below _ g) as [i g1]. cbn [fst] in Hr.
  destruct (lookup_lt_is_Some_2 (y :: ys) (Z.to_nat i) ltac:(lia)) as [x Hx].
  rewrite Hx. exists x, g1. split; [reflexivity|].
  apply list_elem_of_In. eapply list_elem_of_lookup_2. exact Hx.
Qed.

Lemma draw_fix_time_window (f : nat) (time : string) (t mn mx len fail0 fix0 : Z) (g : G) a b g' :
  _parse_time_string time = Some t -> fix_window_int64 t mn mx ->
  draw_fix_time f time mn mx len fail0 fix0 g = Ok (a, b) g' ->
  (a = fail0 /\ b = fix0 /\ fix0 < len - 1) \/
  (a = t /\ t + mn <= b < t + mx /\ b < len - 1).
Proof.
  intros Ht Hw. unfold fix_window_int64 in Hw.
  revert fail0 fix0 g. induction f as [|f IH]; intros fail0 fix0 g E;
    cbn [draw_fix_time] in E; rewrite Z.geb_leb in E;
    (destruct (Z.leb_spec (len - 1) fix0); [|injection E as -> -> _; left; auto]).
  - discriminate.
  - unfold m_bind, choice_arange in E.
    destruct (randint mn mx g) as [diff g1|e] eqn:Ed; [|discriminate].
    apply randint_range in Ed. rewrite Ht in E.
    cbn [m_ret] in E. rewrite wrap64_id in E by lia.
    destruct (IH _ _ _ E) as [(-> & -> & Hlt)|Hr]; right; auto.
    split; [reflexivity|]. split; [lia|exact Hlt].
Qed.

Lemma draw_fix_time_hangs (f : nat) (time : string) (mn mx len fail0 fix0 t : Z) (g : G) :
  _parse_time_string time = Some t -> mn < mx -> fix_window_int64 t mn mx ->
  len - 1 <= t + mn -> len - 1 <= fix0 ->
  draw_fix_time f time mn mx len fail0 fix0 g = Err NonTermination.
Proof.
  intros Ht Hmn Hw Hlen. unfold fix_window_int64 in Hw.
  revert fail0 fix0 g. induction f as [|f IH]; intros fail0 fix0 g Hfix;
    cbn [draw_fix_time]; rewrite Z.geb_leb; (destruct (Z.leb_spec (len - 1) fix0); [|lia]);
    [reflexivity|].
  unfold m_bind, choice_arange.
  destruct (randint_ok mn mx g Hmn) as (diff & g1 & Ed & Hd). rewrite Ed, Ht.
  cbn [m_ret]. rewrite wrap64_id by lia. apply IH. lia.
Qed.

Lemma select_pump_hangs (f : nat) (a b : Z) (d : gmap string (list Z)) (g : G) :
  (forall k, 1 <= k <= 7 -> exists bm, d !! String.append "P" (py_str_Z k) = Some bm /\
                                      all_zero_slice bm a b = false) ->
  select_pump f a b d g = Err NonTermination.
Proof.
  intros Hbusy. revert g. induction f as [|f IH]; intros g; [reflexivity|].
  cbn [select_pump]. unfold m_bind at 1.
  destruct (randint_ok 1 8 g ltac:(lia)) as (k & g1 & Ek & Hk). rewrite Ek.
  destruct (Hbusy k ltac:(lia)) as (bm & Ebm & Hz). rewrite Ebm, Hz. apply IH.
Qed.

End TaskFacts.

(** [_generate_sysmon_task] appends one event and never raises: a light task is GREEN or RED, active exactly when GREEN; a scale task has a number from ONE to FOUR and a direction UP or DOWN. *)
Theorem generate_sysmon_task_spec {G} `{NumpyRandom G} (root : list event) (time sysmon_subtype : string) (g : G) :
  rand_below_in_range G ->
  exists e g', _generate_sysmon_task root time sysmon_subtype g = Ok (root ++ [e]) g' /\
    startTime e = time /\ comment e = Some "System Monitoring task" /\
    if String.eqb sysmon_subtype "light" then
      exists color, body e = SysmonLight color (String.eqb color "GREEN") /\ In color ["GREEN"; "RED"]
    else
      exists number direction, body e = SysmonScale number direction /\
        In number ["ONE"; "TWO"; "THREE"; "FOUR"] /\ In direction ["UP"; "DOWN"].
Proof.
  intros Hr. unfold _generate_sysmon_task, m_bind.
  destruct (String.eqb sysmon_subtype "light").
  - destruct (choice_list_in Hr ["GREEN"; "RED"] g ltac:(discriminate)) as (c & g1 & Ec & Hc).
    rewrite Ec. eexists _, g1. split; [reflexivity|]. cbn. split; [reflexivity|].
    split; [reflexivity|]. eauto.
  - destruct (choice_list_in Hr ["ONE"; "TWO"; "THREE"; "FOUR"] g ltac:(discriminate))
      as (n & g1 & En & Hn). rewrite En.
    destruct (choice_list_in Hr ["UP"; "DOWN"] g1 ltac:(discriminate)) as (dir & g2 & Ed & Hd).
    rewrite Ed. eexists _, g2. split; [reflexivity|]. cbn. split; [reflexivity|].
    split; [reflexivity|]. eauto.
Qed.

(** When the failure time and the fix delays fit numpy's [int64] without wrapping ([fix_window_int64]), a successful [_generate_resman_task] fixes the pump between [min_seconds_fail_fix] (inclusive) and [max_seconds_fail_fix] (exclusive) seconds after the failure and before the last second of the session, on a pump that was free over that window, and marks the window busy on that pump only. *)
Theorem generate_resman_task_window {G} `{NumpyRandom G} (fuel : nat) (root : list event)
    (time : string) (t min_fix max_fix : Z) (d : gmap string (list Z)) (g : G) root' d' g' :
  rand_below_in_range G -> _parse_time_string time = Some t -> fix_window_int64 t min_fix max_fix ->
  _generate_resman_task fuel root time min_fix max_fix d g = Ok (root', d') g' ->
  exists pump fix_time_seconds p1 bm,
    d !! "P1" = Some p1 /\
    t + min_fix <= fix_time_seconds < t + max_fix /\
    fix_time_seconds < Z.of_nat (length p1) - 1 /\
    root' = root ++ [mk_event time (Some "Resman task - Fail") (ResmanFail pump);
                     mk_event (_format_seconds fix_time_seconds) (Some "Resman task - Fix")
                       (ResmanFix pump)] /\
    d !! pump = Some bm /\ all_zero_slice bm t fix_time_seconds = true /\
    d' = <[pump := set_slice bm t fix_time_seconds 1]> d.
Proof.
  intros Hr Ht Hw E. unfold _generate_resman_task, m_bind in E.
  destruct (d !! "P1") as [p1|] eqn:Ep1; [|discriminate E].
  destruct (draw_fix_time fuel time min_fix max_fix (Z.of_nat (length p1)) 0
              (Z.of_nat (length p1)) g) as [[a b] g1|e] eqn:Ed; [|discriminate E].
  destruct (draw_fix_time_window Hr _ _ _ _ _ _ _ _ _ _ _ _ Ht Hw Ed)
    as [(_ & _ & Hlt)|(-> & Hb & Hlen)]; [lia|].
  destruct (select_pump fuel t b d g1) as [[pump d2] g2|e] eqn:Es; [|discriminate E].
  cbn [m_ret] in E. injection E as <- <- _.
  destruct (select_pump_spec _ _ _ _ _ _ _ _ Es) as (bm & Ebm & Hz & ->).
  exists pump, b, p1, bm. repeat split; auto; lia.
Qed.

(** When the failure time and the fix delays fit numpy's [int64] without wrapping ([fix_window_int64]) and every fix time the first loop can draw is too late for the session, [_generate_resman_task] never leaves its first [while] loop. *)
Theorem generate_resman_task_hangs {G} `{NumpyRandom G} (fuel : nat) (root : list event)
    (time : string) (t min_fix max_fix : Z) (d : gmap string (list Z)) (p1 : list Z) (g : G) :
  rand_below_in_range G -> _parse_time_string time = Some t -> min_fix < max_fix ->
  fix_window_int64 t min_fix max_fix ->
  d !! "P1" = Some p1 -> Z.of_nat (length p1) - 1 <= t + min_fix ->
  _generate_resman_task fuel root time min_fix max_fix d g = Err NonTermination.
Proof.
  intros Hr Ht Hmn Hw Hp1 Hlen. unfold _generate_resman_task. rewrite Hp1. unfold m_bind at 1.
  rewrite (draw_fix_time_hangs Hr fuel time min_fix max_fix _ 0 _ t g Ht Hmn Hw Hlen); [reflexivity|lia].
Qed.

(** When pumps P1 to P7 are all busy somewhere in the window, the pump-selection loop of [_generate_resman_task] never ends. *)
Theorem select_pump_hangs_when_all_busy {G} `{NumpyRandom G} (fuel : nat) (a b : Z)
    (d : gmap string (list Z)) (g : G) :
  rand_below_in_range G ->
  (forall k, 1 <= k <= 7 -> exists bm, d !! String.append "P" (py_str_Z k) = Some bm /\
                                      all_zero_slice bm a b = false) ->
  select_pump fuel a b d g = Err NonTermination.
Proof. intros Hr Hbusy. now apply select_pump_hangs. Qed.

(** A task type that is not resman and whose prefix before '-' is neither sysmon nor comm is skipped: the state and the random generator are unchanged. *)
Theorem random_task_step_passthrough {G} `{NumpyRandom G} (fuel : nat) (mn mx : Z)
    (st : list event * gmap string (list Z) * gmap string (list string))
    (task_type : string) (event_time : Z) (g : G) :
  task_type <> "resman" ->
  default EmptyString (py_split "-"%char task_type !! 0%nat) <> "sysmon" ->
  default EmptyString (py_split "-"%char task_type !! 0%nat) <> "comm" ->
  random_task_step fuel mn mx st task_type event_time g = Ok st g.
Proof.
  intros Hr Hs Hc. destruct st as [[root d] stems]. unfold random_task_step.
  destruct (String.eqb_spec task_type "resman"); [contradiction|].
  destruct (String.eqb_spec (default EmptyString (py_split "-"%char task_type !! 0%nat)) "sysmon");
    [contradiction|].
  destruct (String.eqb_spec (default EmptyString (py_split "-"%char task_type !! 0%nat)) "comm");
    [contradiction|].
  reflexivity.
Qed.

(** A comm task pops the last stem of the ship's list, draws nothing, and appends the communication event built from that stem. *)
Theorem random_task_step_comm {G} `{NumpyRandom G} (fuel : nat) (mn mx : Z)
    (root : list event) (d : gmap string (list Z)) (stems : gmap string (list string))
    (task_type s stem : string) (rest : list string) (event_time : Z) (g : G) :
  py_split "-"%char task_type !! 0%nat = Some "comm" ->
  py_split "-"%char task_type !! 1%nat = Some s ->
  stems !! py_upper s = Some (rest ++ [stem]) ->
  random_task_step fuel mn mx (root, d, stems) task_type event_time g =
    match _generate_comm_task root (_format_seconds event_time) stem with
    | inl e => Err e
    | inr root' => Ok (root', d, <[py_upper s := rest]> stems) g
    end.
Proof.
  intros H0 H1 Hst. unfold random_task_step.
  destruct (String.eqb_spec task_type "resman") as [->|_]; [vm_compute in H0; discriminate H0|].
  rewrite H0. cbn [default String.eqb Ascii.eqb Bool.eqb]. rewrite H1, Hst, last_snoc.
  rewrite removelast_last. unfold m_bind, m_lift.
  destruct (_generate_comm_task root (_format_seconds event_time) stem); reflexivity.
Qed.

(** A comm task for a ship missing from the stem dictionary raises [KeyError]; one whose stem list is empty raises [IndexError]. *)
Theorem random_task_step_comm_errors {G} `{NumpyRandom G} (fuel : nat) (mn mx : Z)
    (root : list event) (d : gmap string (list Z)) (stems : gmap string (list string))
    (task_type s : string) (event_time : Z) (g : G) :
  py_split "-"%char task_type !! 0%nat = Some "comm" ->
  py_split "-"%char task_type !! 1%nat = Some s ->
  (stems !! py_upper s = None ->
   random_task_step fuel mn mx (root, d, stems) task_type event_time g = Err KeyError) /\
  (stems !! py_upper s = Some [] ->
   random_task_step fuel mn mx (root, d, stems) task_type event_time g = Err IndexError).
Proof.
  intros H0 H1. unfold random_task_step.
  destruct (String.eqb_spec task_type "resman") as [->|_]; [vm_compute in H0; discriminate H0|].
  rewrite H0. cbn [default String.eqb Ascii.eqb Bool.eqb]. rewrite H1.
  split; intros Hst; rewrite Hst; reflexivity.
Qed.

(** [_get_comm_stems] maps OWN and OTHER to shuffles of the ship's stems; stems listed from a directory are WAV stems of that directory with exactly three '_'-separated fields. *)
Theorem get_comm_stems_spec {G} `{NumpyRandom G} (ext : External) (comm_stems_path : option string)
    (g : G) :
  exists own other g',
    _get_comm_stems ext comm_stems_path g = Ok (<["OTHER" := other]> (<["OWN" := own]> ∅)) g' /\
    own ≡ₚ comm_stems_of ext comm_stems_path "own" /\
    other ≡ₚ comm_stems_of ext comm_stems_path "other" /\
    (forall path stem, comm_stems_path = Some path ->
       In stem (own ++ other) -> In stem (wav_stems_under ext path) /\
       length (py_split "_"%char stem) = 3%nat).
Proof.
  unfold _get_comm_stems, m_bind.
  destruct (shuffle_ok (comm_stems_of ext comm_stems_path "own") g) as (own & g1 & E1 & P1).
  rewrite E1.
  destruct (shuffle_ok (comm_stems_of ext comm_stems_path "other") g1) as (other & g2 & E2 & P2).
  rewrite E2. exists own, other, g2. split; [reflexivity|]. split; [exact P1|]. split; [exact P2|].
  intros path stem -> Hin. apply in_app_or in Hin as [Hin|Hin].
  - apply (Permutation_in _ P1) in Hin. cbn in Hin. apply filter_In in Hin as [Hin Hf].
    apply andb_prop in Hf as [_ Hf]. split; [exact Hin|]. now apply Nat.eqb_eq.
  - apply (Permutation_in _ P2) in Hin. cbn in Hin. apply filter_In in Hin as [Hin Hf].
    apply andb_prop in Hf as [_ Hf]. split; [exact Hin|]. now apply Nat.eqb_eq.
Qed.

(** [_generate_auto_and_comm_start_stop] starts the automatic tracking between second 5 (inclusive) and [session_duration - 60 * total_auto_minutes - 5] (exclusive), then adds the comm START/STOP events. *)
Theorem auto_and_comm_start_stop_auto_window {G} `{NumpyRandom G} (root : list event)
    (L total_auto_minutes min_no_comm before_stop after_start : Z) (g : G) out g' :
  rand_below_in_range G ->
  _generate_auto_and_comm_start_stop root L total_auto_minutes min_no_comm before_stop
    after_start g = Ok out g' ->
  exists auto_start_seconds,
    5 <= auto_start_seconds < L - total_auto_minutes * 60 - 5 /\
    _generate_all_comm_start_stop
      (_generate_auto_task root auto_start_seconds total_auto_minutes L)
      min_no_comm before_stop after_start L = inr out.
Proof.
  intros Hr E. unfold _generate_auto_and_comm_start_stop, choice_arange, m_bind in E.
  destruct (randint 5 (L - total_auto_minutes * 60 - 5) g) as [s g1|e] eqn:Es; [|discriminate E].
  exists s. split; [exact (randint_range Hr _ _ _ _ _ Es)|].
  unfold m_lift in E.
  destruct (_generate_all_comm_start_stop _ _ _ _ _); [discriminate E|].
  now injection E as -> _.
Qed.

(** When the session leaves at most 10 seconds outside the automatic period, drawing the start raises [ValueError]. *)
Theorem auto_and_comm_start_stop_short_session {G} `{NumpyRandom G} (root : list event)
    (L total_auto_minutes min_no_comm before_stop after_start : Z) (g : G) :
  L - total_auto_minutes * 60 <= 10 ->
  _generate_auto_and_comm_start_stop root L total_auto_minutes min_no_comm before_stop
    after_start g = Err ValueError.
Proof.
  intros Hs. unfold _generate_auto_and_comm_start_stop, choice_arange, randint.
  destruct (Z.leb_spec (L - total_auto_minutes * 60 - 5) 5); [reflexivity|lia].
Qed.




Lemma generate_sysmon_task_spec_witness :
  rand_below_in_range Z /\
  exists e g', _generate_sysmon_task [] (_format_seconds 30) "scale" 7 = Ok ([] ++ [e]) g' /\
    startTime e = _format_seconds 30 /\ comment e = Some "System Monitoring task" /\
    if String.eqb "scale" "light" then
      exists color, body e = SysmonLight color (String.eqb color "GREEN") /\ In color ["GREEN"; "RED"]
    else
      exists number direction, body e = SysmonScale number direction /\
        In number ["ONE"; "TWO"; "THREE"; "FOUR"] /\ In direction ["UP"; "DOWN"].
Proof.
  split; [exact lcg_random_in_range|].
  exact (generate_sysmon_task_spec [] (_format_seconds 30) "scale" 7 lcg_random_in_range).
Defined.

Lemma generate_resman_task_window_witness :
  rand_below_in_range Z /\ _parse_time_string (_format_seconds 20) = Some 20 /\
  fix_window_int64 20 5 15 /\
  exists root' d' g',
    _generate_resman_task 50 [] (_format_seconds 20) 5 15 (demo_pump_dict 60) 0 = Ok (root', d') g' /\
    exists pump fix_time_seconds p1 bm,
      demo_pump_dict 60 !! "P1" = Some p1 /\
      20 + 5 <= fix_time_seconds < 20 + 15 /\
      fix_time_seconds < Z.of_nat (length p1) - 1 /\
      root' = [] ++ [mk_event (_format_seconds 20) (Some "Resman task - Fail") (ResmanFail pump);
                     mk_event (_format_seconds fix_time_seconds) (Some "Resman task - Fix")
                       (ResmanFix pump)] /\
      demo_pump_dict 60 !! pump = Some bm /\ all_zero_slice bm 20 fix_time_seconds = true /\
      d' = <[pump := set_slice bm 20 fix_time_seconds 1]> (demo_pump_dict 60).
Proof.
  assert (Ht : _parse_time_string (_format_seconds 20) = Some 20) by (vm_compute; reflexivity).
  assert (Hw : fix_window_int64 20 5 15) by (unfold fix_window_int64; lia).
  split; [exact lcg_random_in_range|]. split; [exact Ht|]. split; [exact Hw|].
  assert (Hok : match _generate_resman_task (G:=Z) 50 [] (_format_seconds 20) 5 15 (demo_pump_dict 60) 0
                with Ok _ _ => True | Err _ => False end) by (vm_compute; exact I).
  destruct (_generate_resman_task (G:=Z) 50 [] (_format_seconds 20) 5 15 (demo_pump_dict 60) 0)
    as [[root' d'] g'|e] eqn:E; [|contradiction].
  exists root', d', g'. split; [reflexivity|].
  exact (generate_resman_task_window 50 [] (_format_seconds 20) 20 5 15 (demo_pump_dict 60) 0
           root' d' g' lcg_random_in_range Ht Hw E).
Defined.

Lemma generate_resman_task_hangs_witness :
  rand_below_in_range Z /\ _parse_time_string (_format_seconds 60) = Some 60 /\ 5 < 10 /\
  fix_window_int64 60 5 10 /\ demo_pump_dict 50 !! "P1" = Some (repeat 0 50) /\ Z.of_nat (length (repeat 0 50)) - 1 <= 60 + 5 /\
  _generate_resman_task 1000 [] (_format_seconds 60) 5 10 (demo_pump_dict 50) 0 = Err NonTermination.
Proof.
  assert (Ht : _parse_time_string (_format_seconds 60) = Some 60) by (vm_compute; reflexivity).
  assert (Hp : demo_pump_dict 50 !! "P1" = Some (repeat 0 50)) by (vm_compute; reflexivity).
  assert (Hl : Z.of_nat (length (repeat 0 50)) - 1 <= 60 + 5) by (vm_compute; discriminate).
  assert (Hw : fix_window_int64 60 5 10) by (unfold fix_window_int64; lia).
  split; [exact lcg_random_in_range|]. split; [exact Ht|]. split; [lia|]. split; [exact Hw|].
  split; [exact Hp|]. split; [exact Hl|].
  exact (generate_resman_task_hangs 1000 [] (_format_seconds 60) 60 5 10 (demo_pump_dict 50)
           (repeat 0 50) 0 lcg_random_in_range Ht ltac:(lia) Hw Hp Hl).
Defined.

Lemma select_pump_hangs_when_all_busy_witness :
  rand_below_in_range Z /\
  (forall k, 1 <= k <= 7 -> exists bm, busy_pump_dict
                                          !! String.append "P" (py_str_Z k) = Some bm /\
                                        all_zero_slice bm 0 2 = false) /\
  select_pump (G:=Z) 1000 0 2 (busy_pump_dict) 0
    = Err NonTermination.
Proof.
  assert (Hb : forall k, 1 <= k <= 7 -> exists bm, busy_pump_dict
                                          !! String.append "P" (py_str_Z k) = Some bm /\
                                        all_zero_slice bm 0 2 = false).
  { intros k Hk. exists [0; 1; 0].
    assert (k = 1 \/ k = 2 \/ k = 3 \/ k = 4 \/ k = 5 \/ k = 6 \/ k = 7) as Hk' by lia.
    repeat destruct Hk' as [->|Hk']; subst; split; vm_compute; reflexivity. }
  split; [exact lcg_random_in_range|]. split; [exact Hb|].
  exact (select_pump_hangs_when_all_busy 1000 0 2 _ 0 lcg_random_in_range Hb).
Defined.

Lemma random_task_step_passthrough_witness :
  "track" <> "resman" /\
  default EmptyString (py_split "-"%char "track" !! 0%nat) <> "sysmon" /\
  default EmptyString (py_split "-"%char "track" !! 0%nat) <> "comm" /\
  random_task_step (G:=Z) 10 5 15 ([], demo_pump_dict 3, ∅) "track" 42 0 = Ok ([], demo_pump_dict 3, ∅) 0.
Proof.
  assert (H1 : "track" <> "resman") by discriminate.
  assert (H2 : default EmptyString (py_split "-"%char "track" !! 0%nat) <> "sysmon")
    by (vm_compute; discriminate).
  assert (H3 : default EmptyString (py_split "-"%char "track" !! 0%nat) <> "comm")
    by (vm_compute; discriminate).
  split; [exact H1|]. split; [exact H2|]. split; [exact H3|].
  exact (random_task_step_passthrough 10 5 15 ([], demo_pump_dict 3, ∅) "track" 42 0 H1 H2 H3).
Defined.

Lemma random_task_step_comm_witness :
  py_split "-"%char "comm-own" !! 0%nat = Some "comm" /\
  py_split "-"%char "comm-own" !! 1%nat = Some "own" /\
  (<["OWN" := ["OWN_COM1_121-5"; "OWN_NAV1_118-5"]]> ∅ : gmap string (list string)) !! py_upper "own"
    = Some (["OWN_COM1_121-5"] ++ ["OWN_NAV1_118-5"]) /\
  random_task_step (G:=Z) 10 5 15 ([], demo_pump_dict 3, <["OWN" := ["OWN_COM1_121-5"; "OWN_NAV1_118-5"]]> ∅)
    "comm-own" 42 0 =
    match _generate_comm_task [] (_format_seconds 42) "OWN_NAV1_118-5" with
    | inl e => Err e
    | inr root' => Ok (root', demo_pump_dict 3,
                       <[py_upper "own" := ["OWN_COM1_121-5"]]>
                         (<["OWN" := ["OWN_COM1_121-5"; "OWN_NAV1_118-5"]]> ∅)) 0
    end.
Proof.
  assert (H0 : py_split "-"%char "comm-own" !! 0%nat = Some "comm") by (vm_compute; reflexivity).
  assert (H1 : py_split "-"%char "comm-own" !! 1%nat = Some "own") by (vm_compute; reflexivity).
  assert (H2 : (<["OWN" := ["OWN_COM1_121-5"; "OWN_NAV1_118-5"]]> ∅ : gmap string (list string))
                 !! py_upper "own" = Some (["OWN_COM1_121-5"] ++ ["OWN_NAV1_118-5"]))
    by (vm_compute; reflexivity).
  split; [exact H0|]. split; [exact H1|]. split; [exact H2|].
  exact (random_task_step_comm 10 5 15 [] (demo_pump_dict 3) _ "comm-own" "own" "OWN_NAV1_118-5"
           ["OWN_COM1_121-5"] 42 0 H0 H1 H2).
Defined.

Lemma random_task_step_comm_errors_witness :
  py_split "-"%char "comm-other" !! 0%nat = Some "comm" /\
  py_split "-"%char "comm-other" !! 1%nat = Some "other" /\
  (∅ : gmap string (list string)) !! py_upper "other" = None /\
  random_task_step (G:=Z) 10 5 15 ([], demo_pump_dict 3, ∅) "comm-other" 42 0 = Err KeyError.
Proof.
  assert (H0 : py_split "-"%char "comm-other" !! 0%nat = Some "comm") by (vm_compute; reflexivity).
  assert (H1 : py_split "-"%char "comm-other" !! 1%nat = Some "other") by (vm_compute; reflexivity).
  assert (H2 : (∅ : gmap string (list string)) !! py_upper "other" = None) by reflexivity.
  split; [exact H0|]. split; [exact H1|]. split; [exact H2|].
  exact (proj1 (random_task_step_comm_errors 10 5 15 [] (demo_pump_dict 3) ∅ "comm-other" "other" 42 0
                  H0 H1) H2).
Defined.


Lemma auto_and_comm_start_stop_auto_window_witness :
  rand_below_in_range Z /\
  exists out g',
    _generate_auto_and_comm_start_stop demo_comm_root 600 2 60 20 10 0 = Ok out g' /\
    exists auto_start_seconds,
      5 <= auto_start_seconds < 600 - 2 * 60 - 5 /\
      _generate_all_comm_start_stop (_generate_auto_task demo_comm_root auto_start_seconds 2 600)
        60 20 10 600 = inr out.
Proof.
  split; [exact lcg_random_in_range|].
  assert (Hok : match _generate_auto_and_comm_start_stop (G:=Z) demo_comm_root 600 2 60 20 10 0
                with Ok _ _ => True | Err _ => False end) by (vm_compute; exact I).
  destruct (_generate_auto_and_comm_start_stop (G:=Z) demo_comm_root 600 2 60 20 10 0)
    as [out g'|e] eqn:E; [|contradiction].
  exists out, g'. split; [reflexivity|].
  exact (auto_and_comm_start_stop_auto_window demo_comm_root 600 2 60 20 10 0 out g'
           lcg_random_in_range E).
Defined.

Lemma auto_and_comm_start_stop_short_session_witness :
  130 - 2 * 60 <= 10 /\
  _generate_auto_and_comm_start_stop demo_comm_root 130 2 60 20 10 (0 : Z) = Err ValueError.
Proof.
  split; [lia|].
  exact (auto_and_comm_start_stop_short_session demo_comm_root 130 2 60 20 10 0 ltac:(lia)).
Defined.


Lemma all_comm_start_stop_spec_witness :
  Forall has_time [mk_event (_format_seconds 100) None (Comm "OWN" "NAV1" "118.5")] /\
  match _generate_all_comm_start_stop [mk_event (_format_seconds 100) None (Comm "OWN" "NAV1" "118.5")]
          60 20 10 600 with
  | inl e => e = IndexError /\
             no_comm_events [mk_event (_format_seconds 100) None (Comm "OWN" "NAV1" "118.5")] = true
  | inr out =>
      exists sorted added n,
        _sort_events_by_seconds [mk_event (_format_seconds 100) None (Comm "OWN" "NAV1" "118.5")]
          = inr sorted /\ out = sorted ++ added /\
        length added = (2 * n + 2)%nat /\
        forall i e, added !! i = Some e ->
          comm_sched_act e = Some (if Nat.even i then "START" else "STOP")
  end.
Proof.
  assert (Hall : Forall has_time [mk_event (_format_seconds 100) None (Comm "OWN" "NAV1" "118.5")])
    by (constructor; [apply has_time_format|constructor]).
  split; [exact Hall|].
  exact (all_comm_start_stop_spec [mk_event (_format_seconds 100) None (Comm "OWN" "NAV1" "118.5")]
           60 20 10 600 Hall).
Defined.

(** With the default [max_repeats = 2] and [window_size = 3], and event times in [-2^62 .. 2^62) (so that [np.diff] on the [int64] arrays cannot wrap), [_check_task_times_comply] returns [True] exactly when: no comm task is at or before [seconds_after_comm_start] or at or after [session_duration - seconds_before_comm_stop]; every resman task is before [session_duration - min_seconds_fail_fix_resman - 1]; consecutive comm, sysmon-light and sysmon-scale times keep their minimum gaps; and no task type appears three times in a row. *)
Theorem check_task_times_comply_iff (task_types : list string) (event_times : list Z)
    (b a m c1 c2 c3 L : Z) :
  length task_types = length event_times ->
  Forall (fun t => - 2 ^ 62 <= t < 2 ^ 62) event_times ->
  _check_task_times_comply task_types event_times b a m c1 c2 c3 L 2 3 = inr true <->
  (forall t e, In (t, e) (zip task_types event_times) -> is_comm t = true -> a < e < L - b) /\
  (forall e, In ("resman", e) (zip task_types event_times) -> e < L - m - 1) /\
  gaps_at_least c1 (times_of is_comm task_types event_times) /\
  gaps_at_least c2 (times_of (String.eqb "sysmon-light") task_types event_times) /\
  gaps_at_least c3 (times_of (String.eqb "sysmon-scale") task_types event_times) /\
  (forall i t, task_types !! i = Some t -> task_types !! S i = Some t ->
     task_types !! S (S i) <> Some t).
Proof.
  intros Hlen Hrng. split.
  - now apply check_task_times_comply_sound.
  - intros (H1 & H2 & H3 & H4 & H5 & H6). now apply check_task_times_comply_complete.
Qed.

Lemma check_task_times_comply_iff_witness :
  length ["sysmon-light"; "comm-own"; "resman"; "resman"] = length [20; 100; 200; 300] /\
  Forall (fun t => - 2 ^ 62 <= t < 2 ^ 62) [20; 100; 200; 300] /\
  (_check_task_times_comply ["sysmon-light"; "comm-own"; "resman"; "resman"] [20; 100; 200; 300]
     20 10 30 30 15 10 600 2 3 = inr true <->
  (forall t e, In (t, e) (zip ["sysmon-light"; "comm-own"; "resman"; "resman"] [20; 100; 200; 300]) ->
     is_comm t = true -> 10 < e < 600 - 20) /\
  (forall e, In ("resman", e) (zip ["sysmon-light"; "comm-own"; "resman"; "resman"] [20; 100; 200; 300]) ->
     e < 600 - 30 - 1) /\
  gaps_at_least 30 (times_of is_comm ["sysmon-light"; "comm-own"; "resman"; "resman"] [20; 100; 200; 300]) /\
  gaps_at_least 15 (times_of (String.eqb "sysmon-light") ["sysmon-light"; "comm-own"; "resman"; "resman"]
                      [20; 100; 200; 300]) /\
  gaps_at_least 10 (times_of (String.eqb "sysmon-scale") ["sysmon-light"; "comm-own"; "resman"; "resman"]
                      [20; 100; 200; 300]) /\
  (forall i t, ["sysmon-light"; "comm-own"; "resman"; "resman"] !! i = Some t ->
     ["sysmon-light"; "comm-own"; "resman"; "resman"] !! S i = Some t ->
     ["sysmon-light"; "comm-own"; "resman"; "resman"] !! S (S i) <> Some t)).
Proof.
  assert (Hrng : Forall (fun t => - 2 ^ 62 <= t < 2 ^ 62) [20; 100; 200; 300])
    by (repeat constructor; lia).
  split; [reflexivity|]. split; [exact Hrng|].
  exact (check_task_times_comply_iff ["sysmon-light"; "comm-own"; "resman"; "resman"] [20; 100; 200; 300]
           20 10 30 30 15 10 600 eq_refl Hrng).
Defined.

(** With [max_repeats = 2] and [window_size = 3], [_has_repeated_values] returns [False] exactly when no value occurs three times in a row, and [True] when one does; it never raises. *)
Theorem has_repeated_values_three (task_types : list string) :
  (_has_repeated_values task_types 2 3 = inr false <->
   forall j x, task_types !! j = Some x -> task_types !! S j = Some x ->
     task_types !! S (S j) <> Some x) /\
  ((exists j x, task_types !! j = Some x /\ task_types !! S j = Some x /\
                task_types !! S (S j) = Some x) ->
   _has_repeated_values task_types 2 3 = inr true).
Proof.
  split; [split; [apply CheckerFacts.has_repeated_values_false|apply CheckerFacts.has_repeated_values_none]|].
  intros (j & x & H1 & H2 & H3).
  assert (Hlen : (S (S j) < length task_types)%nat) by (apply lookup_lt_is_Some_1; eauto).
  unfold _has_repeated_values.
  destruct (has_repeated_from_ok (Z.to_nat (Z.of_nat (length task_types) - 3 + 1)) 0 task_types 2
              ltac:(lia) ltac:(lia)) as [[|] Eb]; rewrite Eb; [reflexivity|].
  exfalso. exact (CheckerFacts.has_repeated_values_false task_types Eb j x H1 H2 H3).
Qed.


Module StepFacts.

Lemma no_sep_app (sep : ascii) (a b : list ascii) :
  Forall (fun c => Ascii.eqb c sep = false) a -> Forall (fun c => Ascii.eqb c sep = false) b ->
  Forall (fun c => Ascii.eqb c sep = false) (a ++ b).
Proof. intros Ha Hb. apply Forall_app. now split. Qed.

Lemma comm_task_appends (root : list event) (time stem : string) root' :
  _generate_comm_task root time stem = inr root' ->
  exists e, root' = root ++ [e].
Proof.
  unfold _generate_comm_task, exc_bind.
  repeat match goal with
  | |- context [match ?x with Some _ => _ | None => _ end] => destruct x
  end; cbn; intros H; try discriminate H.
  injection H as <-. eexists; reflexivity.
Qed.

Lemma resman_task_appends {G} `{NumpyRandom G} (fuel : nat) (root : list event) (time : string)
    (mn mx : Z) (d : gmap string (list Z)) (g : G) root' d' g' :
  _generate_resman_task fuel root time mn mx d g = Ok (root', d') g' ->
  exists e1 e2, root' = root ++ [e1; e2].
Proof.
  unfold _generate_resman_task, m_bind.
  destruct (d !! "P1"); [|discriminate].
  destruct (draw_fix_time _ _ _ _ _ _ _ g) as [[a b] g1|]; [|discriminate].
  destruct (select_pump _ _ _ _ g1) as [[p d2] g2|]; [|discriminate].
  intros H1. injection H1 as <- _ _. eauto.
Qed.

Lemma sysmon_task_appends {G} `{NumpyRandom G} (root : list event) (time sub : string) (g : G)
    root' g' :
  _generate_sysmon_task root time sub g = Ok root' g' -> exists e, root' = root ++ [e].
Proof.
  unfold _generate_sysmon_task, m_bind. destruct (String.eqb sub "light").
  - destruct (choice_list _ g); [|discriminate]. intros H1. injection H1 as <- _. eauto.
  - destruct (choice_list _ g) as [n g1|]; [|discriminate].
    destruct (choice_list _ g1); [|discriminate]. intros H1. injection H1 as <- _. eauto.
Qed.

Lemma random_task_step_appends {G} `{NumpyRandom G} (fuel : nat) (mn mx : Z)
    (root : list event) (d : gmap string (list Z)) (s : gmap string (list string))
    (tt : string) (et : Z) (g : G) root' d' s' g' :
  random_task_step fuel mn mx (root, d, s) tt et g = Ok (root', d', s') g' ->
  exists added, root' = root ++ added /\ (length added <= 2)%nat.
Proof.
  unfold random_task_step, m_bind.
  destruct (String.eqb tt "resman").
  { destruct (_generate_resman_task _ _ _ _ _ _ g) as [[r d2] g1|] eqn:E; [|discriminate].
    intros H1. injection H1 as <- _ _ _.
    destruct (resman_task_appends _ _ _ _ _ _ _ _ _ _ E) as (e1 & e2 & ->).
    exists [e1; e2]. split; [reflexivity|cbn; lia]. }
  destruct (String.eqb _ "sysmon").
  { destruct (_ !! 1%nat) as [sub|]; [|discriminate].
    destruct (_generate_sysmon_task root _ sub g) as [r g1|] eqn:E; [|discriminate].
    intros H1. injection H1 as <- _ _ _.
    destruct (sysmon_task_appends _ _ _ _ _ _ E) as (e & ->).
    exists [e]. split; [reflexivity|cbn; lia]. }
  destruct (String.eqb _ "comm").
  { destruct (_ !! 1%nat) as [sh|]; [|discriminate].
    destruct (s !! py_upper sh) as [stems|]; [|discriminate].
    destruct (last stems) as [stem|]; [|discriminate].
    unfold m_lift. destruct (_generate_comm_task root _ stem) as [|r] eqn:E; [discriminate|].
    intros H1. injection H1 as <- _ _ _.
    destruct (comm_task_appends _ _ _ _ E) as (e & ->).
    exists [e]. split; [reflexivity|cbn; lia]. }
  intros H1. injection H1 as <- _ _ _. exists []. split; [now rewrite app_nil_r|cbn; lia].
Qed.

Lemma random_tasks_appends {G} `{NumpyRandom G} (fuel : nat) (tts : list string) (ets : list Z)
    (mn mx : Z) (root : list event) (d : gmap string (list Z)) (s : gmap string (list string))
    (g : G) root' d' s' g' :
  _generate_random_tasks fuel tts ets mn mx (root, d, s) g = Ok (root', d', s') g' ->
  exists added, root' = root ++ added /\ (length added <= 2 * length tts)%nat.
Proof.
  revert ets root d s g. induction tts as [|t tts IH]; intros ets root d s g H1.
  - cbn in H1. injection H1 as <- _ _ _. exists []. split; [now rewrite app_nil_r|cbn; lia].
  - destruct ets as [|e ets].
    + cbn in H1. injection H1 as <- _ _ _. exists []. split; [now rewrite app_nil_r|cbn; lia].
    + cbn [_generate_random_tasks] in H1. unfold m_bind in H1.
      destruct (random_task_step fuel mn mx (root, d, s) t e g) as [[[r1 d1] s1] g1|] eqn:E;
        [|discriminate].
      destruct (random_task_step_appends _ _ _ _ _ _ _ _ _ _ _ _ _ E) as (a1 & -> & Ha1).
      destruct (IH _ _ _ _ _ H1) as (a2 & -> & Ha2).
      exists (a1 ++ a2). split; [now rewrite app_assoc|]. rewrite length_app. cbn [length]. lia.
Qed.

Lemma count_str_repeat (x y : string) (n : nat) :
  count_str x (repeat y n) = if String.eqb x y then n else 0%nat.
Proof.
  unfold count_str. induction n as [|n IH]; [now destruct (String.eqb x y)|].
  cbn [repeat List.filter]. destruct (String.eqb x y); cbn [length]; lia.
Qed.

Lemma count_str_app (x : string) (l1 l2 : list string) :
  count_str x (l1 ++ l2) = (count_str x l1 + count_str x l2)%nat.
Proof. unfold count_str. now rewrite List.filter_app, length_app. Qed.

End StepFacts.

(** A stem SHIP_RADIO_F0-F1 yields a communication event for ship SHIP, radio RADIO and frequency F0.F1. *)
Theorem generate_comm_task_fields (root : list event) (time : string)
    (ship radio f0 f1 : list ascii) :
  Forall (fun c => Ascii.eqb c "_" = false) (ship ++ radio ++ f0 ++ f1) ->
  Forall (fun c => Ascii.eqb c "-" = false) (f0 ++ f1) ->
  _generate_comm_task root time
    (string_of_list_ascii (ship ++ "_"%char :: radio ++ "_"%char :: f0 ++ "-"%char :: f1)) =
  inr (root ++ [mk_event time (Some "Communications task")
                 (Comm (string_of_list_ascii ship) (string_of_list_ascii radio)
                    (String.append (string_of_list_ascii f0)
                       (String.append "." (string_of_list_ascii f1))))]).
Proof.
  intros Hu Hd.
  apply Forall_app in Hu as [Hship Hu]. apply Forall_app in Hu as [Hradio Hu].
  apply Forall_app in Hu as [Hf0u Hf1u]. apply Forall_app in Hd as [Hf0d Hf1d].
  unfold _generate_comm_task, py_split. rewrite list_ascii_of_string_of_list_ascii.
  rewrite CodecFacts.split_on_app_sep by exact Hship.
  rewrite CodecFacts.split_on_app_sep by exact Hradio.
  rewrite (CodecFacts.split_on_no_sep _ (f0 ++ "-"%char :: f1)).
  2:{ apply StepFacts.no_sep_app; [exact Hf0u|]. constructor; [reflexivity|exact Hf1u]. }
  cbn [map lookup list_lookup exc_bind]. rewrite list_ascii_of_string_of_list_ascii.
  rewrite CodecFacts.split_on_app_sep by exact Hf0d.
  rewrite (CodecFacts.split_on_no_sep _ f1) by exact Hf1d.
  reflexivity.
Qed.

(** A stem without '_' raises [IndexError] in [_generate_comm_task]. *)
Theorem generate_comm_task_needs_fields (root : list event) (time comm_stem : string) :
  Forall (fun c => Ascii.eqb c "_" = false) (list_ascii_of_string comm_stem) ->
  _generate_comm_task root time comm_stem = inl IndexError.
Proof.
  intros Hu. unfold _generate_comm_task, py_split.
  rewrite (CodecFacts.split_on_no_sep _ _ Hu). reflexivity.
Qed.

(** [_generate_random_tasks] only appends events, at most two per task type. *)
Theorem generate_random_tasks_only_appends {G} `{NumpyRandom G} (fuel : nat)
    (task_types : list string) (event_times : list Z) (mn mx : Z) (root : list event)
    (d : gmap string (list Z)) (stems : gmap string (list string)) (g : G) root' d' stems' g' :
  _generate_random_tasks fuel task_types event_times mn mx (root, d, stems) g =
    Ok (root', d', stems') g' ->
  exists added, root' = root ++ added /\ (length added <= 2 * length task_types)%nat.
Proof. apply StepFacts.random_tasks_appends. Qed.

(** [_generate_tasks] only appends events to the tree, at most two per task type. *)
Theorem generate_tasks_only_appends {G} `{NumpyRandom G} (fuel : nat) (root : list event)
    (task_types : list string) (event_times : list Z) (stems : gmap string (list string))
    (mn mx L before_stop after_start : Z) (g : G) root' g' :
  _generate_tasks fuel root task_types event_times stems mn mx L before_stop after_start g =
    Ok root' g' ->
  exists added, root' = root ++ added /\ (length added <= 2 * length task_types)%nat.
Proof.
  unfold _generate_tasks, m_bind, m_lift.
  destruct (initial_pump_failed_dict L) as [|pd]; [discriminate|]. unfold m_ret.
  destruct (ensure_task_times_comply task_types event_times before_stop after_start mn L g)
    as [[[|] tt'] g1|] eqn:Ee; [|intros H1; injection H1 as <- _;
                                 exists []; split; [now rewrite app_nil_r|cbn; lia]|discriminate].
  destruct (_generate_random_tasks fuel tt' event_times mn mx (root, pd, stems) g1)
    as [[[r1 d1] s1] g2|] eqn:Er; [|discriminate].
  intros H1. injection H1 as <- _.
  destruct (StepFacts.random_tasks_appends _ _ _ _ _ _ _ _ _ _ _ _ _ Er) as (a & -> & Ha).
  exists a. split; [reflexivity|].
  enough (length tt' = length task_types) by lia.
  unfold ensure_task_times_comply, m_bind in Ee.
  destruct (ensure_loop _ _ _ _ _ _ _ _ _ g) as [[[n c] tt''] g3|] eqn:El; [|discriminate].
  injection Ee as _ <- _.
  apply Permutation_length. exact (ensure_loop_perm _ _ _ _ _ _ _ _ _ _ _ _ _ _ El).
Qed.

(** [generate_task_types] contains each task label as many times as its count (negative counts give none), and nothing else. *)
Theorem generate_task_types_counts (n_pump_failures n_own_comm n_other_comm n_green_red_issues
    n_systems_up_down : Z) :
  let tt := generate_task_types n_pump_failures n_own_comm n_other_comm n_green_red_issues
              n_systems_up_down in
  count_str "resman" tt = Z.to_nat n_pump_failures /\
  count_str "comm-own" tt = Z.to_nat n_own_comm /\
  count_str "comm-other" tt = Z.to_nat n_other_comm /\
  count_str "sysmon-light" tt = Z.to_nat n_green_red_issues /\
  count_str "sysmon-scale" tt = Z.to_nat n_systems_up_down /\
  length tt = (Z.to_nat n_pump_failures + Z.to_nat n_own_comm + Z.to_nat n_other_comm +
               Z.to_nat n_green_red_issues + Z.to_nat n_systems_up_down)%nat /\
  Forall (fun t => In t task_type_vocabulary) tt.
Proof.
  cbn zeta. unfold generate_task_types.
  rewrite !StepFacts.count_str_app, !StepFacts.count_str_repeat. cbn [String.eqb Ascii.eqb Bool.eqb].
  split; [lia|]. split; [lia|]. split; [lia|]. split; [lia|]. split; [lia|].
  split; [rewrite !length_app, !repeat_length; lia|].
  repeat (apply Forall_app; split); apply List.Forall_forall; intros t Ht;
    apply repeat_spec in Ht; subst t; cbn; tauto.
Qed.

(** With a seed in [0 .. 2^32 - 1] (the range [np.random.seed] accepts), [_initialize_matbii_generation] ignores the incoming random state: it returns the initial events and the stems drawn from the freshly seeded state. *)
Theorem initialize_matbii_generation_reseeds {G} `{NumpyRandom G} (ext : External) (s : Z)
    (comm_stems_path : option string) (g1 g2 : G) :
  0 <= s < 2 ^ 32 ->
  _initialize_matbii_generation ext (Some s) comm_stems_path g1 =
    _initialize_matbii_generation ext (Some s) comm_stems_path g2 /\
  exists stems g',
    _initialize_matbii_generation ext (Some s) comm_stems_path g1 = Ok (initial_events, stems) g' /\
    _get_comm_stems ext comm_stems_path (np_random_seed s) = Ok stems g'.
Proof.
  intros Hs. unfold _initialize_matbii_generation, m_seed.
  replace ((0 <=? s) && (s <? 2 ^ 32)) with true
    by (symmetry; apply andb_true_iff; split; [apply Z.leb_le|apply Z.ltb_lt]; lia).
  split; [reflexivity|].
  unfold m_bind at 1. unfold _get_comm_stems, m_bind.
  destruct (shuffle_ok (comm_stems_of ext comm_stems_path "own") (np_random_seed s))
    as (own & h1 & E1 & _). rewrite E1.
  destruct (shuffle_ok (comm_stems_of ext comm_stems_path "other") h1) as (other & h2 & E2 & _).
  rewrite E2. eexists _, h2. split; reflexivity.
Qed.

Lemma initialize_matbii_generation_reseeds_witness :
  0 <= 0 < 2 ^ 32 /\
  _initialize_matbii_generation demo_external (Some 0) None 0 =
    _initialize_matbii_generation demo_external (Some 0) None 5 /\
  exists stems g',
    _initialize_matbii_generation demo_external (Some 0) None 0 = Ok (initial_events, stems) g' /\
    _get_comm_stems demo_external None (np_random_seed 0) = Ok stems g'.
Proof.
  split; [lia|].
  exact (initialize_matbii_generation_reseeds (G:=Z) demo_external 0 None 0 5 ltac:(lia)).
Defined.

(** With a seed outside [0 .. 2^32 - 1], [_initialize_matbii_generation] raises [ValueError] (from [np.random.seed] inside [seed_everything]), whatever the random state. *)
Theorem initialize_matbii_generation_bad_seed {G} `{NumpyRandom G} (ext : External) (s : Z)
    (comm_stems_path : option string) (g : G) :
  s < 0 \/ 2 ^ 32 <= s ->
  _initialize_matbii_generation ext (Some s) comm_stems_path g = Err ValueError.
Proof.
  intros Hs. unfold _initialize_matbii_generation, m_seed.
  replace ((0 <=? s) && (s <? 2 ^ 32)) with false; [reflexivity|].
  symmetry. apply andb_false_iff.
  destruct Hs; [left; apply Z.leb_gt|right; apply Z.ltb_ge]; lia.
Qed.

Lemma initialize_matbii_generation_bad_seed_witness :
  (-1 < 0 \/ 2 ^ 32 <= -1) /\
  _initialize_matbii_generation demo_external (Some (-1)) None 0 = Err ValueError.
Proof.
  split; [lia|].
  exact (initialize_matbii_generation_bad_seed (G:=Z) demo_external (-1) None 0 ltac:(lia)).
Defined.


Lemma generate_comm_task_fields_witness :
  Forall (fun c => Ascii.eqb c "_" = false)
    (list_ascii_of_string "OWN" ++ list_ascii_of_string "NAV1" ++
     list_ascii_of_string "118" ++ list_ascii_of_string "5") /\
  Forall (fun c => Ascii.eqb c "-" = false) (list_ascii_of_string "118" ++ list_ascii_of_string "5") /\
  _generate_comm_task [] (_format_seconds 42)
    (string_of_list_ascii (list_ascii_of_string "OWN" ++ "_"%char :: list_ascii_of_string "NAV1" ++
                           "_"%char :: list_ascii_of_string "118" ++ "-"%char ::
                           list_ascii_of_string "5")) =
  inr ([] ++ [mk_event (_format_seconds 42) (Some "Communications task")
               (Comm (string_of_list_ascii (list_ascii_of_string "OWN"))
                  (string_of_list_ascii (list_ascii_of_string "NAV1"))
                  (String.append (string_of_list_ascii (list_ascii_of_string "118"))
                     (String.append "." (string_of_list_ascii (list_ascii_of_string "5")))))]).
Proof.
  assert (Hu : Forall (fun c => Ascii.eqb c "_" = false)
                 (list_ascii_of_string "OWN" ++ list_ascii_of_string "NAV1" ++
                  list_ascii_of_string "118" ++ list_ascii_of_string "5"))
    by (repeat constructor).
  assert (Hd : Forall (fun c => Ascii.eqb c "-" = false)
                 (list_ascii_of_string "118" ++ list_ascii_of_string "5")) by (repeat constructor).
  split; [exact Hu|]. split; [exact Hd|].
  exact (generate_comm_task_fields [] (_format_seconds 42) _ _ _ _ Hu Hd).
Defined.

Lemma generate_comm_task_needs_fields_witness :
  Forall (fun c => Ascii.eqb c "_" = false) (list_ascii_of_string "OWN-NAV1") /\
  _generate_comm_task [] (_format_seconds 42) "OWN-NAV1" = inl IndexError.
Proof.
  assert (Hu : Forall (fun c => Ascii.eqb c "_" = false) (list_ascii_of_string "OWN-NAV1"))
    by (repeat constructor).
  split; [exact Hu|]. exact (generate_comm_task_needs_fields [] (_format_seconds 42) "OWN-NAV1" Hu).
Defined.


Lemma generate_random_tasks_only_appends_witness :
  exists root' d' stems' g',
    _generate_random_tasks 50 ["resman"; "sysmon-light"; "comm-own"; "track"] [20; 40; 60; 80] 5 15
      (initial_events, demo_pump_dict 120, demo_stems) 0 = Ok (root', d', stems') g' /\
    exists added, root' = initial_events ++ added /\
      (length added <= 2 * length ["resman"; "sysmon-light"; "comm-own"; "track"])%nat.
Proof.
  assert (Hok : match _generate_random_tasks (G:=Z) 50 ["resman"; "sysmon-light"; "comm-own"; "track"]
                        [20; 40; 60; 80] 5 15 (initial_events, demo_pump_dict 120, demo_stems) 0
                with Ok _ _ => True | Err _ => False end) by (vm_compute; exact I).
  destruct (_generate_random_tasks (G:=Z) 50 ["resman"; "sysmon-light"; "comm-own"; "track"]
              [20; 40; 60; 80] 5 15 (initial_events, demo_pump_dict 120, demo_stems) 0)
    as [[[root' d'] stems'] g'|e] eqn:E; [|contradiction].
  exists root', d', stems', g'. split; [reflexivity|].
  exact (generate_random_tasks_only_appends 50 _ _ 5 15 initial_events (demo_pump_dict 120) demo_stems
           0 root' d' stems' g' E).
Defined.

Lemma generate_tasks_only_appends_witness :
  exists root' g',
    _generate_tasks 50 initial_events ["resman"; "sysmon-light"; "comm-own"; "sysmon-scale"]
      [100; 200; 300; 400] demo_stems 5 15 600 20 10 0 = Ok root' g' /\
    exists added, root' = initial_events ++ added /\
      (length added <= 2 * length ["resman"; "sysmon-light"; "comm-own"; "sysmon-scale"])%nat.
Proof.
  assert (Hok : match _generate_tasks (G:=Z) 50 initial_events
                        ["resman"; "sysmon-light"; "comm-own"; "sysmon-scale"]
                        [100; 200; 300; 400] demo_stems 5 15 600 20 10 0
                with Ok _ _ => True | Err _ => False end) by (vm_compute; exact I).
  destruct (_generate_tasks (G:=Z) 50 initial_events ["resman"; "sysmon-light"; "comm-own"; "sysmon-scale"]
              [100; 200; 300; 400] demo_stems 5 15 600 20 10 0) as [root' g'|e] eqn:E;
    [|contradiction].
  exists root', g'. split; [reflexivity|].
  exact (generate_tasks_only_appends 50 initial_events _ _ demo_stems 5 15 600 20 10 0 root' g' E).
Defined.
